(** * hamsci_psws: a shallow embedding of the Grape1 analysis code

    The development follows the two source files of the package,
    [gen_lib.py] and [grape1.py].  Python exceptions are an explicit
    result type, object attributes and the directory tree are threaded
    as explicit state, and the functions of pandas, numpy and scipy
    the code calls are fields of one interface record, so that every
    statement below holds for whatever those libraries compute. *)

From Stdlib Require Import ZArith QArith Qround List String Ascii Bool Lia Lqa.
From Stdlib Require Import DecimalString Permutation Sorted.
Import ListNotations.
Open Scope string_scope.
Open Scope Z_scope.

(** ** Python outcomes *)

Module Py.

(** The exception classes the code can meet.  [OtherError] stands for
    any class that is not a Python built-in, named by its class name. *)
Inductive exn : Type :=
| ValueError
| TypeError
| KeyError
| IndexError
| NameError
| AttributeError
| ZeroDivisionError
| OverflowError
| OSError
| OtherError (class_name : string).

Inductive result (A : Type) : Type :=
| Ok (a : A)
| Raise (e : exn).

Arguments Ok {A} a.
Arguments Raise {A} e.

Definition bind {A B : Type} (r : result A) (k : A -> result B) : result B :=
  match r with
  | Ok a => k a
  | Raise e => Raise e
  end.

(** [for x in xs: ...] with a body that may raise. *)
Fixpoint mapM {A B : Type} (f : A -> result B) (xs : list A) : result (list B) :=
  match xs with
  | [] => Ok []
  | x :: xs' =>
      match f x with
      | Raise e => Raise e
      | Ok y =>
          match mapM f xs' with
          | Raise e => Raise e
          | Ok ys => Ok (y :: ys)
          end
      end
  end.

(** A table of pairs read by key: the first entry of the key. *)
Fixpoint lookup {V : Type} (tbl : list (string * V)) (k : string) : option V :=
  match tbl with
  | [] => None
  | (k', v) :: tbl' => if String.eqb k' k then Some v else lookup tbl' k
  end.

End Py.

Import Py.

Declare Scope py_scope.
Delimit Scope py_scope with py.
Notation "x <- c ;; k" := (Py.bind c (fun x => k))
  (at level 100, c at next level, right associativity) : py_scope.
Notation "' p <- c ;; k" := (Py.bind c (fun x => match x with p => k end))
  (at level 100, p pattern, c at next level, right associativity) : py_scope.

(** ** gen_lib.py *)

Module gen_lib.

(** A Python value as far as [make_dir] can see one. *)
Inductive pyval : Type :=
| PStr (s : string)
| PBool (b : bool)
| PObject (name : string).

(** Name resolution in a function body: locals first, then the globals
    of the module.  Python's built-in scope has no [value]. *)
Definition scope : Type := list (string * pyval).

Fixpoint load_name (env : scope) (name : string) : result pyval :=
  match env with
  | [] => Raise NameError
  | (n, v) :: env' => if String.eqb n name then Ok v else load_name env' name
  end.

(** Everything [gen_lib.py] binds at module level. *)
Definition module_globals : scope :=
  [ ("os", PObject "module os");
    ("shutil", PObject "module shutil");
    ("collections", PObject "module collections");
    ("get_iterable", PObject "function get_iterable");
    ("make_dir", PObject "function make_dir");
    ("adjust_axes", PObject "function adjust_axes") ].

Section MakeDir.

(** The directory tree and the two operating-system calls are left
    open: whatever they do, they are only reached with an evaluated
    argument. *)
Variable FS : Type.
Variable shutil_rmtree : string -> FS -> result unit * FS.
Variable os_makedirs : string -> FS -> result unit * FS.

Definition M (A : Type) : Type := FS -> result A * FS.

Definition ret {A : Type} (a : A) : M A := fun fs => (Ok a, fs).

Definition lift {A : Type} (r : result A) : M A := fun fs => (r, fs).

Definition bindM {A B : Type} (m : M A) (k : A -> M B) : M B :=
  fun fs =>
    match m fs with
    | (Ok a, fs') => k a fs'
    | (Raise e, fs') => (Raise e, fs')
    end.

(** [try: body / except: pass] -- a bare except catches every class. *)
Definition try_except_pass (body : M unit) : M unit :=
  fun fs =>
    match body fs with
    | (_, fs') => (Ok tt, fs')
    end.

(** A call [f(arg)] to one of the two path functions: the argument
    expression is evaluated first. *)
Definition call_path_fn (f : string -> FS -> result unit * FS)
    (arg : result pyval) : M unit :=
  bindM (lift arg) (fun v =>
    match v with
    | PStr p => f p
    | _ => lift (Raise TypeError)
    end).

(** The names in scope in the body of [make_dir]. *)
Definition make_dir_scope (path : string) (clear : bool) : scope :=
  ([("path", PStr path); ("clear", PBool clear)] ++ module_globals)%list.

Definition make_dir (path : string) (clear : bool) : M unit :=
  let env := make_dir_scope path clear in
  bindM (if clear
         then try_except_pass (call_path_fn shutil_rmtree (load_name env "value"))
         else ret tt)
    (fun _ => try_except_pass (call_path_fn os_makedirs (load_name env "value"))).

End MakeDir.

End gen_lib.

(** ** grape1.py *)

Module grape1.

(** *** Strings and sorting, as Python and pandas provide them *)

(** [s.split(sep)] for a one-character separator. *)
Fixpoint split_on (sep : ascii) (s : string) : list string :=
  match s with
  | EmptyString => [EmptyString]
  | String c s' =>
      if Ascii.eqb c sep then EmptyString :: split_on sep s'
      else match split_on sep s' with
           | [] => [String c EmptyString]
           | w :: ws => String c w :: ws
           end
  end.

Fixpoint mem_char (c : ascii) (chars : string) : bool :=
  match chars with
  | EmptyString => false
  | String d chars' => Ascii.eqb c d || mem_char c chars'
  end.

Fixpoint lstrip (chars : string) (s : string) : string :=
  match s with
  | EmptyString => EmptyString
  | String c s' => if mem_char c chars then lstrip chars s' else s
  end.

Definition reverse (s : string) : string :=
  string_of_list_ascii (List.rev (list_ascii_of_string s)).

(** [s.strip(chars)]: [chars] is a set of characters removed from both
    ends, not a suffix. *)
Definition strip (chars : string) (s : string) : string :=
  reverse (lstrip chars (reverse (lstrip chars s))).

(** [sub in s]; pandas' [str.contains] takes a regular expression, and
    the only pattern used, G1, has no special character. *)
Fixpoint contains (sub s : string) : bool :=
  if String.prefix sub s then true
  else match s with
       | EmptyString => false
       | String _ s' => contains sub s'
       end.

Section Sorting.
Context {A : Type} (leb : A -> A -> bool).

(** [a] goes before the first element it is not above, so before the
    elements of its own key that are in the list already. *)
Fixpoint insert_sorted (a : A) (l : list A) : list A :=
  match l with
  | [] => [a]
  | b :: l' => if leb a b then a :: l else b :: insert_sorted a l'
  end.

(** A stable sort: elements of equal keys keep the order they come
    in, as with the mergesort [interp1d] sorts its points by.  The
    default sort of pandas' [sort_values] keeps that order on short
    columns and does not promise it on long ones; no statement below
    rests on the order of rows of one time. *)
Definition sort_by (l : list A) : list A :=
  fold_right insert_sorted [] l.
End Sorting.

Definition py_min (l : list Z) : result Z :=
  match l with
  | [] => Raise ValueError
  | x :: l' => Ok (fold_left Z.min l' x)
  end.

Definition py_max (l : list Z) : result Z :=
  match l with
  | [] => Raise ValueError
  | x :: l' => Ok (fold_left Z.max l' x)
  end.

(** *** Data *)

(** Times are counted in nanoseconds since the epoch, as in a pandas
    [Timestamp]; a [datetime.timedelta] is a count of nanoseconds too.
    numpy's doubles are rationals: every finite double is one, and
    comparisons agree.  Rounding of arithmetic is not modelled. *)
Definition timestamp : Type := Z.

(** A [datetime.datetime] handed in by the caller: the time it tells
    and whether it carries a time zone ([tzinfo] is not [None]). *)
Record datetime : Type := mkDatetime {
  instant : timestamp;
  tz_aware : bool
}.

(** The range of [datetime.datetime], from 0001-01-01 00:00:00 to
    9999-12-31 23:59:59.999999, and the range of a pandas [Timestamp],
    which counts its nanoseconds in 64 bits. *)
Definition datetime_min : Z := -62135596800000000000.
Definition datetime_max : Z := 253402300799999999000.
Definition Timestamp_min : Z := -9223372036854775807.
Definition Timestamp_max : Z := 9223372036854775807.

(** A cell of the inventory's Frequency column: the label read from the
    file name, or the number assigned in its place. *)
Inductive cell : Type :=
| CStr (s : string)
| CNum (x : Q).

Record FileRecord : Type := mkFileRecord {
  Datetime : timestamp;
  Node : Z;
  G : string;
  Grid_Square : string;
  Frequency : cell;
  Filename : string
}.

(** The Datetime column is of one type: with a time zone
    ([datetime64[ns, UTC]]) or without ([datetime64[ns]]). *)
Record DataInventory : Type := mkDataInventory {
  inv_df : list FileRecord;
  logged_nodes : list Z;
  Datetime_tz_aware : bool
}.

(** One row of a station's CSV file. *)
Record sample : Type := mkSample {
  s_UTC : timestamp;
  s_Freq : Q;
  s_Vpk : Q
}.

(** A frame of observations, column by column: the time column and the
    two data columns of the station files, Freq and Vpk.  Power_dB
    exists only once it has been assigned.  Further columns a file may
    carry are not modelled.  The rows of the time column are pandas
    timestamps; [UTC_is_datetime64] tells whether the column is typed
    [datetime64], which a column with rows in it is, and a column
    without rows may or may not be. *)
Record DataFrame : Type := mkDataFrame {
  UTC : list timestamp;
  Freq : list Q;
  Vpk : list Q;
  Power_dB : option (list Q);
  UTC_is_datetime64 : bool
}.

(** The result of numpy's [1./x]: division by zero yields an infinity
    there, not an exception. *)
Inductive np_float : Type :=
| Finite (q : Q)
| Infinite.

(** [Tc_min] and [Wn]: a scalar or a one-dimensional array. *)
Inductive Tc_t : Type :=
| TcScalar (t : Q)
| TcArray (ts : list Q).

Inductive Wn_t : Type :=
| WnScalar (w : np_float)
| WnArray (ws : list np_float).

Record Filter : Type := mkFilter {
  fs : Q;
  Wn : Wn_t;
  a : list Q;
  b : list Q
}.

(** One row of the node table, indexed by node number. *)
Record NodeRow : Type := mkNodeRow {
  Callsign : string;
  Latitude : Q;
  Longitude : Q
}.

Record GrapeNodes : Type := mkGrapeNodes {
  nodes_df : list (Z * NodeRow)
}.

(** *** What the code calls in pandas, numpy, scipy and the standard
    library *)

Class Lib : Type := {
  (** [glob.glob(os.path.join(data_path,'*'+suffix))], base names *)
  glob_basenames : string -> string -> list string;
  (** [pd.to_datetime] on one string *)
  to_datetime : string -> result timestamp;
  (** whether the column [pd.to_datetime] makes of these strings
      carries a time zone, as it does when they end in Z *)
  to_datetime_tz_aware : list string -> bool;
  (** [int(s)] *)
  astype_int : string -> result Z;
  (** [os.path.join(data_path, fname)] *)
  path_join : string -> string -> string;
  (** [pd.read_csv(fpath, comment='#', parse_dates=[0])] *)
  read_csv : string -> result (list sample);
  (** [Timestamp.to_julian_date] *)
  to_julian_date : timestamp -> Q;
  (** the least number of points [interp1d] accepts (two in older
      releases of scipy, one in newer ones) *)
  interp1d_min_entries : nat;
  np_log10 : Q -> Q;
  (** [signal.butter(N, Wn, btype, fs=fs)], returning [(b, a)] *)
  signal_butter : Z -> Wn_t -> string -> Q -> result (list Q * list Q);
  (** [signal.filtfilt(b, a, data)] *)
  signal_filtfilt : list Q -> list Q -> list Q -> result (list Q);
  (** [str.format] with the specs [:0.1f], [:07d] and [!s] *)
  format_0_1f : Q -> string;
  format_07d : Z -> string;
  str_float : Q -> string;
  str_int : Z -> string;
  str_Tc : Tc_t -> string
}.

Section Code.
Context {L : Lib}.
Local Open Scope py_scope.

(** *** class DataInventory *)

Definition cell_is (c : cell) (lab : string) : bool :=
  match c with
  | CStr s => String.eqb s lab
  | CNum _ => false
  end.

Definition set_Frequency (r : FileRecord) (c : cell) : FileRecord :=
  mkFileRecord (Datetime r) (Node r) (G r) (Grid_Square r) c (Filename r).

(** [df.loc[df['Frequency'] == lab, 'Frequency'] = hz] *)
Definition loc_assign_Frequency (lab : string) (hz : Q) (df : list FileRecord)
    : list FileRecord :=
  map (fun r => if cell_is (Frequency r) lab then set_Frequency r (CNum hz) else r) df.

(** The row made of one file name, its split and its parsed columns. *)
Definition make_record (bname : string) (parts : list string)
    (dt : timestamp) (node : Z) (suffix : string) : FileRecord :=
  mkFileRecord dt node
    (nth 2 parts "") (nth 3 parts "")
    (CStr (strip suffix (nth 5 parts "")))
    bname.

Fixpoint make_records (files : list (string * list string))
    (dts : list timestamp) (nodes : list Z) (suffix : string) : list FileRecord :=
  match files, dts, nodes with
  | (bname, parts) :: files', dt :: dts', node :: nodes' =>
      make_record bname parts dt node suffix :: make_records files' dts' nodes' suffix
  | _, _, _ => []
  end.

Definition frequency_label (r : FileRecord) : string :=
  match Frequency r with
  | CStr s => s
  | CNum _ => ""
  end.

Definition DataInventory_init (data_path suffix : string) : result DataInventory :=
  let bnames := glob_basenames data_path suffix in
  (* the Filename column of no name at all is a column of floats, and
     has no .str *)
  if Nat.eqb (List.length bnames) 0 then Raise AttributeError else
  let df2 := map (split_on "_") bnames in
  (* df2.columns = [six names]: the expanded split has as many columns
     as the longest row *)
  if negb (Nat.eqb (list_max (map (@List.length string) df2)) 6) then Raise ValueError else
  dts <- mapM (fun parts => to_datetime (hd "" parts)) df2 ;;
  (* a missing Node cell becomes the string nan, which int() refuses *)
  nodes <- mapM (fun parts =>
                   match nth_error parts 1 with
                   | Some s => astype_int (strip "N" s)
                   | None => Raise ValueError
                   end) df2 ;;
  (* a missing Frequency cell makes str.contains yield NaN, which ~ refuses *)
  if negb (forallb (fun parts => Nat.leb 6 (List.length parts)) df2) then Raise TypeError else
  let df := make_records (combine bnames df2) dts nodes suffix in
  let df := filter (fun r => negb (contains "G1" (frequency_label r))) df in
  let df := loc_assign_Frequency "WWV5" 5e6 df in
  let df := loc_assign_Frequency "WWV10" 10e6 df in
  let df := loc_assign_Frequency "WWV2p5" 2.5e6 df in
  let df := loc_assign_Frequency "WWV15" 15e6 df in
  let df := loc_assign_Frequency "CHU3" 3330e3 df in
  let df := loc_assign_Frequency "CHU7" 7850e3 df in
  let df := loc_assign_Frequency "CHU14" 14.67e6 df in
  let df := loc_assign_Frequency "Unknown" 0 df in
  Ok (mkDataInventory df (sort_by Z.leb (nodup Z.eq_dec (map Node df)))
        (to_datetime_tz_aware (map (hd "") df2))).

(** *** class Filter *)

(** What construction asks of scipy, in the order it asks. *)
Inductive lib_call : Type :=
| ButterCall (N : Z) (Wn : Wn_t) (btype : string) (fs : Q).

(** numpy's [1./x] on one element. *)
Definition np_reciprocal (x : Q) : np_float :=
  if Qeq_bool x 0 then Infinite else Finite (1 / x)%Q.

(** [Wn = (1./(np.array(Tc_min)*60.))] and the reversal of a
    two-element array. *)
Definition cutoff_Wn (Tc_min : Tc_t) : Wn_t :=
  match Tc_min with
  | TcScalar t => WnScalar (np_reciprocal (t * 60)%Q)
  | TcArray ts =>
      let Wn := map (fun t => np_reciprocal (t * 60)%Q) ts in
      if Nat.eqb (List.length Wn) 2 then WnArray (List.rev Wn) else WnArray Wn
  end.

(** [Filter.__init__]: the calls made to scipy, and the object or the
    exception the constructor ends with. *)
Definition Filter_init (N : Z) (Tc_min : Tc_t) (btype : string) (fs : Q)
    : list lib_call * result Filter :=
  let Wn := cutoff_Wn Tc_min in
  ([ButterCall N Wn btype fs],
   ' (b, a) <- signal_butter N Wn btype fs ;;
   Ok (mkFilter fs Wn a b)).

Definition Filter_filter_data (self : Filter) (data : list Q) : result (list Q) :=
  signal_filtfilt (b self) (a self) data.

(** *** class GrapeData *)

Record stage : Type := mkStage {
  df : DataFrame;
  label : string
}.

Record meta_t : Type := mkMeta {
  meta_label : string;
  meta_lat : option Q;
  meta_lon : option Q
}.

(** A Python dict with string keys, in insertion order. *)
Definition dict (V : Type) : Type := list (string * V).

Fixpoint dict_get {V : Type} (d : dict V) (k : string) : result V :=
  match d with
  | [] => Raise KeyError
  | (k', v) :: d' => if String.eqb k' k then Ok v else dict_get d' k
  end.

Fixpoint dict_set {V : Type} (d : dict V) (k : string) (v : V) : dict V :=
  match d with
  | [] => [(k, v)]
  | (k', v') :: d' =>
      if String.eqb k' k then (k, v) :: d' else (k', v') :: dict_set d' k v
  end.

(** The attributes of a GrapeData object; [None] before the
    attribute has been assigned. *)
Record GrapeData : Type := mkGrapeData {
  data : option (dict stage);
  meta : option meta_t
}.

Definition new_object : GrapeData := mkGrapeData None None.

Definition cell_eq_num (c : cell) (freq : Q) : bool :=
  match c with
  | CStr _ => false
  | CNum x => Qeq_bool x freq
  end.

(** [dft['Datetime'] >= t] and [dft['Datetime'] < t]: pandas compares
    a column with a time zone only with a datetime that has one, and a
    column without only with a datetime that has none; the other two
    pairings are a TypeError, on a column without rows too. *)
Definition comparable (column_tz_aware : bool) (t : datetime) : result timestamp :=
  if Bool.eqb (tz_aware t) column_tz_aware then Ok (instant t) else Raise TypeError.

(** Lines 326-346 of [__load_raw]: the rows of the inventory the
    files are loaded from.  A bound that is left out is an element of
    the column, and of its type. *)
Definition load_raw_select (inventory : DataInventory) (node : Z) (freq : Q)
    (sTime eTime : option datetime) : result (list FileRecord) :=
  let tz := Datetime_tz_aware inventory in
  let dft := inv_df inventory in
  let dft := filter (fun r => cell_eq_num (Frequency r) freq) dft in
  let dft := filter (fun r => Node r =? node) dft in
  sTime <- match sTime with
           | None => t <- py_min (map Datetime dft) ;; Ok (mkDatetime t tz)
           | Some t => Ok t
           end ;;
  eTime <- match eTime with
           | None => t <- py_max (map Datetime dft) ;; Ok (mkDatetime t tz)
           | Some t => Ok t
           end ;;
  (* line 344: both comparisons are made before np.logical_and *)
  sTime <- comparable tz sTime ;;
  eTime <- comparable tz eTime ;;
  let dft := filter (fun r => (sTime <=? Datetime r) && (Datetime r <? eTime)) dft in
  Ok (sort_by (fun r1 r2 => Datetime r1 <=? Datetime r2) dft).

(** The loop of lines 349-360: empty files are skipped, the carrier
    frequency is taken off every other one. *)
Fixpoint load_raw_files (data_path : string) (freq : Q) (dft : list FileRecord)
    : result (list (list sample)) :=
  match dft with
  | [] => Ok []
  | row :: dft' =>
      df_load <- read_csv (path_join data_path (Filename row)) ;;
      if Nat.eqb (List.length df_load) 0 then load_raw_files data_path freq dft'
      else
        let df_load :=
          map (fun s => mkSample (s_UTC s) (s_Freq s - freq)%Q (s_Vpk s)) df_load in
        df_raw <- load_raw_files data_path freq dft' ;;
        Ok (df_load :: df_raw)
  end.

(** [pd.concat(df_raw, ignore_index=True)] *)
Definition pd_concat (dfs : list (list sample)) : result (list sample) :=
  match dfs with
  | [] => Raise ValueError
  | _ => Ok (List.concat dfs)
  end.

(** The frame of rows read with [parse_dates=[0]]: its time column is
    typed [datetime64]. *)
Definition frame_of_samples (rows : list sample) : DataFrame :=
  mkDataFrame (map s_UTC rows) (map s_Freq rows) (map s_Vpk rows) None true.

(** [grape_nodes.nodes_df.loc[node, column]] *)
Fixpoint nodes_loc (rows : list (Z * NodeRow)) (node : Z) : result NodeRow :=
  match rows with
  | [] => Raise KeyError
  | (n, r) :: rows' => if n =? node then Ok r else nodes_loc rows' node
  end.

(** Lines 365-371. *)
Definition load_raw_call_sign (node : Z) (call_sign : option string)
    (grape_nodes : option GrapeNodes) : result string :=
  match call_sign, grape_nodes with
  | None, Some gn => r <- nodes_loc (nodes_df gn) node ;; Ok (Callsign r)
  | _, _ => Ok ""
  end.

Definition format_label (freq : Q) (node : Z) (call_sign : string) : string :=
  format_0_1f (freq / 1e6)%Q ++ " MHz N" ++ format_07d node ++ " " ++ call_sign.

Definition load_raw_coordinate (node : Z) (given : option Q)
    (grape_nodes : option GrapeNodes) (column : NodeRow -> Q) : result (option Q) :=
  match given, grape_nodes with
  | None, Some gn => r <- nodes_loc (nodes_df gn) node ;; Ok (Some (column r))
  | _, _ => Ok given
  end.

(** Lines 323-324. *)
Definition resolve_inventory (data_path : string) (inventory : option DataInventory)
    : result DataInventory :=
  match inventory with
  | None => DataInventory_init data_path ".csv"
  | Some inv => Ok inv
  end.

Definition load_raw (node : Z) (freq : Q) (sTime eTime : option datetime)
    (data_path : string) (lat lon : option Q) (call_sign : option string)
    (inventory : option DataInventory) (grape_nodes : option GrapeNodes)
    (self : GrapeData) : result unit * GrapeData :=
  let body :=
    inventory <- resolve_inventory data_path inventory ;;
    dft <- load_raw_select inventory node freq sTime eTime ;;
    df_raw <- load_raw_files data_path freq dft ;;
    df_raw <- pd_concat df_raw ;;
    let df_raw := sort_by (fun s1 s2 => s_UTC s1 <=? s_UTC s2) df_raw in
    call_sign <- load_raw_call_sign node call_sign grape_nodes ;;
    let label := format_label freq node call_sign in
    lat <- load_raw_coordinate node lat grape_nodes Latitude ;;
    lon <- load_raw_coordinate node lon grape_nodes Longitude ;;
    Ok ([("raw", mkStage (frame_of_samples df_raw) "Raw Data")],
        mkMeta label lat lon)
  in
  match body with
  | Ok (data, meta) => (Ok tt, mkGrapeData (Some data) (Some meta))
  | Raise e => (Raise e, self)
  end.

(** [datetime.datetime(t.year, t.month, t.day, t.hour, t.minute, t.second)]:
    the fields below the second are left out. *)
Definition drop_subsecond (t : timestamp) : timestamp :=
  t - t mod 1000000000.

Definition is_datetime (t : Z) : bool :=
  (datetime_min <=? t) && (t <=? datetime_max).

(** [t + resample_rate] on a [datetime] and a [timedelta]: an
    OverflowError when the sum is outside the range of [datetime].  A
    number outside that range stands for no [datetime]; the sum is
    taken of it all the same. *)
Definition datetime_add (t : timestamp) (rate : Z) : result timestamp :=
  if is_datetime t && negb (is_datetime (t + rate)) then Raise OverflowError
  else Ok (t + rate).

(** The loop of lines 421-423.  [last] is [rs_times[-1]].  When the
    fuel runs out the answer is [None]: with a rate of zero the loop
    does not end. *)
Fixpoint rs_times_loop (fuel : nat) (rs_times : list timestamp) (last : timestamp)
    (resample_eTime resample_rate : Z) : option (result (list timestamp)) :=
  if last <? resample_eTime then
    match fuel with
    | O => None
    | S fuel' =>
        match datetime_add last resample_rate with
        | Raise e => Some (Raise e)
        | Ok next =>
            rs_times_loop fuel' (rs_times ++ [next]) next resample_eTime resample_rate
        end
    end
  else Some (Ok rs_times).

(** [pd.to_datetime(rs_times)], line 426: a time outside the range of
    [Timestamp] is refused with pandas' OutOfBoundsDatetime, a subclass
    of ValueError. *)
Definition is_Timestamp (t : Z) : bool :=
  (Timestamp_min <=? t) && (t <=? Timestamp_max).

Definition pd_to_datetime (times : list timestamp) : result (list timestamp) :=
  if forallb is_Timestamp times then Ok times
  else Raise (OtherError "OutOfBoundsDatetime").

(** [interp1d(x, y)] with its defaults: linear, sorted on
    construction, and an error outside the range of [x]. *)
Definition interp1d (x y : list Q) : result (list (Q * Q)) :=
  if negb (Nat.eqb (List.length x) (List.length y)) then Raise ValueError
  else if Nat.ltb (List.length x) interp1d_min_entries then Raise ValueError
  else Ok (sort_by (fun p1 p2 => Qle_bool (fst p1) (fst p2)) (combine x y)).

(** numpy's [interp] at one point inside the range: the segment is
    the one that starts at the last abscissa not above the point. *)
Fixpoint np_interp (f : list (Q * Q)) (x_new : Q) : Q :=
  match f with
  | [] => 0%Q
  | (x0, y0) :: f' =>
      match f' with
      | [] => y0
      | (x1, y1) :: _ =>
          if Qle_bool x1 x_new then np_interp f' x_new
          else if Qeq_bool x0 x_new then y0
          else ((y1 - y0) / (x1 - x0) * (x_new - x0) + y0)%Q
      end
  end.

Definition interp1d_call (f : list (Q * Q)) (x_new : list Q) : result (list Q) :=
  match f with
  | [] => Raise IndexError
  | (x0, _) :: _ =>
      let x_last := fst (List.last f (x0, 0%Q)) in
      if existsb (fun x => negb (Qle_bool x0 x)) x_new then Raise ValueError
      else if existsb (fun x => negb (Qle_bool x x_last)) x_new then Raise ValueError
      else Ok (map (np_interp f) x_new)
  end.

(** The body of the loop over [df.keys()], lines 433-435. *)
Definition resample_column (jd : list Q) (values : list Q) (rs_jd : list Q)
    : result (list Q) :=
  fn <- interp1d jd values ;;
  interp1d_call fn rs_jd.

(** Lines 396-437 on the frame itself. *)
Definition resample_frame (fuel : nat) (resample_rate : Z) (df : DataFrame)
    : option (result DataFrame) :=
  let jd := map to_julian_date (UTC df) in
  match UTC df with
  | [] =>
      (* min() of no timestamp: of a datetime64 column it is NaT, whose
         fields are NaN, and datetime.datetime takes integers only; of
         any other column it is the float NaN, which has no .year *)
      if UTC_is_datetime64 df then Some (Raise TypeError)
      else Some (Raise AttributeError)
  | t :: ts =>
      let sTime := fold_left Z.min ts t in
      let eTime := fold_left Z.max ts t in
      let resample_sTime := drop_subsecond sTime in
      let resample_eTime := drop_subsecond eTime in
      match rs_times_loop fuel [resample_sTime] resample_sTime
              resample_eTime resample_rate with
      | None => None
      | Some (Raise e) => Some (Raise e)
      | Some (Ok rs_times) =>
          Some (
            rs_index <- pd_to_datetime rs_times ;;
            let rs_jd := map to_julian_date rs_index in
            rs_Freq <- resample_column jd (Freq df) rs_jd ;;
            rs_Vpk <- resample_column jd (Vpk df) rs_jd ;;
            rs_Power <- match Power_dB df with
                        | None => Ok None
                        | Some values =>
                            rs_vals <- resample_column jd values rs_jd ;;
                            Ok (Some rs_vals)
                        end ;;
            (* pd.DataFrame(rs_dct): a column of datetimes is datetime64 *)
            Ok (mkDataFrame rs_times rs_Freq rs_Vpk rs_Power true))
      end
  end.

(** [self.attr] for an attribute that may not have been assigned. *)
Definition getattr {A : Type} (attr : option A) : result A :=
  match attr with
  | None => Raise AttributeError
  | Some v => Ok v
  end.

Definition resample_data (fuel : nat) (resample_rate : Z)
    (data_set_in data_set_out : string) (self : GrapeData)
    : option (result unit * GrapeData) :=
  match (d <- getattr (data self) ;; dict_get d data_set_in) with
  | Raise e => Some (Raise e, self)
  | Ok st =>
      match resample_frame fuel resample_rate (df st) with
      | None => None
      | Some (Raise e) => Some (Raise e, self)
      | Some (Ok rs_df) =>
          let tmp :=
            mkStage rs_df
              ("Resampled Data (dt = "
                 ++ str_float (inject_Z resample_rate / 1e9)%Q ++ " s)") in
          match getattr (data self) with
          | Raise e => Some (Raise e, self)
          | Ok d =>
              Some (Ok tt, mkGrapeData (Some (dict_set d data_set_out tmp)) (meta self))
          end
      end
  end.

(** Line 315: the power column of the resampled stage. *)
Definition assign_Power_dB (self : GrapeData) : result unit * GrapeData :=
  match (d <- getattr (data self) ;;
         st <- dict_get d "resampled" ;;
         Ok (d, st)) with
  | Raise e => (Raise e, self)
  | Ok (d, st) =>
      let frame := df st in
      let power := map (fun v => (20 * np_log10 v)%Q) (Vpk frame) in
      let frame' := mkDataFrame (UTC frame) (Freq frame) (Vpk frame) (Some power)
                      (UTC_is_datetime64 frame) in
      (Ok tt, mkGrapeData (Some (dict_set d "resampled" (mkStage frame' (label st))))
                (meta self))
  end.

(** [np.diff] *)
Fixpoint np_diff (l : list Z) : list Z :=
  match l with
  | x :: ((y :: _) as l') => (y - x) :: np_diff l'
  | _ => []
  end.

(** [df[param]] and [df[param] = values] *)
Definition get_column (frame : DataFrame) (param : string) : result (list Q) :=
  if String.eqb param "Freq" then Ok (Freq frame)
  else if String.eqb param "Vpk" then Ok (Vpk frame)
  else if String.eqb param "Power_dB" then
    match Power_dB frame with
    | Some values => Ok values
    | None => Raise KeyError
    end
  else Raise KeyError.

Definition set_column (frame : DataFrame) (param : string) (values : list Q)
    : DataFrame :=
  if String.eqb param "Freq" then
    mkDataFrame (UTC frame) values (Vpk frame) (Power_dB frame)
      (UTC_is_datetime64 frame)
  else if String.eqb param "Vpk" then
    mkDataFrame (UTC frame) (Freq frame) values (Power_dB frame)
      (UTC_is_datetime64 frame)
  else if String.eqb param "Power_dB" then
    mkDataFrame (UTC frame) (Freq frame) (Vpk frame) (Some values)
      (UTC_is_datetime64 frame)
  else frame.

(** The loop of lines 452-453. *)
Fixpoint filter_columns (filt : Filter) (params : list string) (frame : DataFrame)
    : result DataFrame :=
  match params with
  | [] => Ok frame
  | param :: params' =>
      values <- get_column frame param ;;
      filtered <- Filter_filter_data filt values ;;
      filter_columns filt params' (set_column frame param filtered)
  end.

Definition filter_data (N : Z) (Tc_min : Tc_t) (btype : string)
    (data_set_in data_set_out : string) (params : list string)
    (self : GrapeData) : result unit * GrapeData :=
  let body :=
    d <- getattr (data self) ;;
    st <- dict_get d "resampled" ;;
    let frame := df st in
    (* np.unique sorts, so its first element is the least difference *)
    dt <- match np_diff (UTC frame) with
          | [] => Raise IndexError
          | x :: l => Ok (fold_left Z.min l x)
          end ;;
    fs <- (if dt =? 0 then Raise ZeroDivisionError
           else Ok (1 / (inject_Z dt * 1e-9))%Q) ;;
    filt <- snd (Filter_init N Tc_min btype fs) ;;
    frame <- filter_columns filt params frame ;;
    let tmp :=
      mkStage frame
        ("Butterworth Filtered Data" ++ String "010" "(N=" ++ str_int N
           ++ ", Tc=" ++ str_Tc Tc_min ++ " min, Type: " ++ btype ++ ")") in
    Ok (dict_set d data_set_out tmp)
  in
  match body with
  | Raise e => (Raise e, self)
  | Ok d => (Ok tt, mkGrapeData (Some d) (meta self))
  end.

(** [GrapeData.__init__], with the fuel of the resampling loop. *)
Definition GrapeData_init (fuel : nat) (node : Z) (freq : Q)
    (sTime eTime : option datetime) (data_path : string)
    (resample_rate : Z) (filter_order : Z) (Tc_min : Tc_t) (btype : string)
    (lat lon : option Q) (call_sign : option string)
    (inventory : option DataInventory) (grape_nodes : option GrapeNodes)
    : option (result unit * GrapeData) :=
  match load_raw node freq sTime eTime data_path lat lon call_sign
          inventory grape_nodes new_object with
  | (Raise e, self) => Some (Raise e, self)
  | (Ok _, self) =>
      match resample_data fuel resample_rate "raw" "resampled" self with
      | None => None
      | Some (Raise e, self) => Some (Raise e, self)
      | Some (Ok _, self) =>
          match assign_Power_dB self with
          | (Raise e, self) => Some (Raise e, self)
          | (Ok _, self) =>
              Some (filter_data filter_order Tc_min btype "resampled" "filtered"
                      ["Freq"; "Vpk"; "Power_dB"] self)
          end
      end
  end.

End Code.

End grape1.

(** ** A small instance of the library interface

    Used to run the code on concrete inputs: a directory listing, a
    table of parsed dates and a table of file contents stand for the
    file system; the numeric routines are simple stand-ins. *)

Module demo.
Import grape1.

Definition digit_value (c : ascii) : option Z :=
  let n := Z.of_nat (nat_of_ascii c) in
  if (48 <=? n) && (n <=? 57) then Some (n - 48) else None.

Fixpoint parse_digits (acc : Z) (s : string) : result Z :=
  match s with
  | EmptyString => Ok acc
  | String c s' =>
      match digit_value c with
      | Some d => parse_digits (10 * acc + d) s'
      | None => Raise ValueError
      end
  end.

(** [int(s)] on a non-empty string of decimal digits. *)
Definition int_of_string (s : string) : result Z :=
  match s with
  | EmptyString => Raise ValueError
  | _ => parse_digits 0 s
  end.

Definition string_of_Z (z : Z) : string :=
  NilZero.string_of_int (Z.to_int z).

(** The spec [:07d] on a number that is not negative. *)
Definition zero_pad_7 (z : Z) : string :=
  let digits := string_of_Z z in
  string_of_list_ascii (repeat "0"%char (7 - String.length digits)) ++ digits.

Definition string_of_Q (q : Q) : string :=
  string_of_Z (Qnum q) ++ "/" ++ string_of_Z (Zpos (Qden q)).

(** The exact Julian date of a count of nanoseconds since 1970. *)
Definition julian_date (t : timestamp) : Q :=
  (inject_Z t / 86400e9 + 2440587.5)%Q.

Fixpoint count_digits (fuel : nat) (n : Z) : Z :=
  match fuel with
  | O => 0
  | S fuel' => if n <? 10 then 0 else 1 + count_digits fuel' (n / 10)
  end.

(** The integer part of the decimal logarithm (exact on powers of ten
    from 1 upwards). *)
Definition floor_log10 (v : Q) : Q :=
  let n := Qfloor v in
  inject_Z (count_digits (Z.to_nat (Z.log2 n) + 1) n).

Definition Wn_in_range (w : np_float) (fs : Q) : bool :=
  match w with
  | Finite q => negb (Qle_bool q 0) && negb (Qle_bool (fs / 2) q)
  | Infinite => false
  end.

(** A stand-in for the Butterworth design: it refuses a negative
    order and a critical frequency outside (0, fs/2), as scipy does,
    and otherwise answers with the coefficients of the identity
    filter, which are scipy's for the order 0. *)
Definition butter (N : Z) (Wn : Wn_t) (btype : string) (fs : Q)
    : result (list Q * list Q) :=
  let ok := match Wn with
            | WnScalar w => Wn_in_range w fs
            | WnArray ws => forallb (fun w => Wn_in_range w fs) ws
            end in
  if (N <? 0) || negb ok then Raise ValueError else Ok ([1%Q], [1%Q]).

(** The date strings of the file names end in Z, for UTC. *)
Definition ends_in_Z (s : string) : bool :=
  match List.rev (list_ascii_of_string s) with
  | c :: _ => Ascii.eqb c "Z"
  | [] => false
  end.

Definition lib (files : list string) (dates : list (string * timestamp))
    (csv : list (string * list sample)) : Lib :=
  {| glob_basenames := fun _ _ => files;
     to_datetime := fun s =>
       match lookup dates s with Some t => Ok t | None => Raise ValueError end;
     to_datetime_tz_aware := forallb ends_in_Z;
     astype_int := int_of_string;
     path_join := fun d f => d ++ "/" ++ f;
     read_csv := fun path =>
       match lookup csv path with Some rows => Ok rows | None => Raise OSError end;
     to_julian_date := julian_date;
     interp1d_min_entries := 1;
     np_log10 := floor_log10;
     signal_butter := butter;
     signal_filtfilt := fun _ _ data => Ok data;
     format_0_1f := string_of_Q;
     format_07d := zero_pad_7;
     str_float := string_of_Q;
     str_int := string_of_Z;
     str_Tc := fun tc =>
       match tc with
       | TcScalar t => string_of_Q t
       | TcArray ts => String.concat ", " (map string_of_Q ts)
       end |}.

(** Two days of node 13 on 10 MHz, one file with a label the table
    does not know, one with the naming error. *)
Definition day1 : timestamp := 1635379200000000000.
Definition day2 : timestamp := 1635465600000000000.

Definition file1 : string := "2021-10-28T000000Z_N0000013_G1_EN91fl_FRQ_WWV10.csv".
Definition file2 : string := "2021-10-29T000000Z_N0000013_G1_EN91fl_FRQ_WWV10.csv".
Definition file3 : string := "2021-10-28T000000Z_N0000007_G1_EN91fl_FRQ_WWV20.csv".
Definition file4 : string := "2021-10-28T000000Z_N0000007_G1_EN91fl_FRQ_G1.csv".

Definition dates : list (string * timestamp) :=
  [("2021-10-28T000000Z", day1); ("2021-10-29T000000Z", day2)].

Definition second : Z := 1000000000.

Definition rows1 : list sample :=
  [ mkSample day1 10000000.5 1;
    mkSample (day1 + second) 10000001.5 10;
    mkSample (day1 + 2 * second) 10000000 100 ].

Definition rows2 : list sample :=
  [ mkSample day2 10000000 1;
    mkSample (day2 + second) 10000000 10 ].

Definition csv : list (string * list sample) :=
  [ ("data/" ++ file1, rows1); ("data/" ++ file2, rows2) ].

Definition L : Lib := lib [file1; file2; file3; file4] dates csv.

(** The same directory with both files of node 13 holding no row. *)
Definition L_empty_files : Lib :=
  lib [file1; file2; file3; file4] dates
    [ ("data/" ++ file1, []); ("data/" ++ file2, []) ].

(** A directory without a file. *)
Definition L_empty_directory : Lib := lib [] dates [].

(** Bounds with the time zone UTC, as the dates of the inventory have
    it, and a bound without a time zone. *)
Definition utc (t : timestamp) : datetime := mkDatetime t true.
Definition naive (t : timestamp) : datetime := mkDatetime t false.

Definition registry : GrapeNodes :=
  mkGrapeNodes [ (7, mkNodeRow "N8OBJ" 41.3 (-81.4)); (13, mkNodeRow "AD8Y" 41.5 (-81.6)) ].

(** Two samples 1.9 s apart, to be resampled every 1.5 s; two samples
    3 s apart, to be resampled every 2 s; and a series with a repeated
    time, out of order. *)
Definition frame_fractional : DataFrame :=
  mkDataFrame [day1; day1 + 1900000000] [0; 1]%Q [1; 2]%Q None true.

Definition frame_whole : DataFrame :=
  mkDataFrame [day1; day1 + 3 * second] [0; 1]%Q [1; 2]%Q None true.

Definition frame_repeats : DataFrame :=
  mkDataFrame [day1 + 2 * second; day1; day1 + 2 * second; day1 + second]
    [2; 0; 3; 1]%Q [1; 1; 1; 1]%Q None true.

(** A frame without rows whose time column is typed [datetime64], as
    when the rows of a loaded frame are all filtered away, and one whose
    time column is not, as [pd.DataFrame] makes it of empty lists. *)
Definition frame_empty : DataFrame := mkDataFrame [] [] [] None true.

Definition frame_empty_untyped : DataFrame := mkDataFrame [] [] [] None false.

Definition object_with_raw (frame : DataFrame) : GrapeData :=
  mkGrapeData (Some [("raw", mkStage frame "Raw Data")]) None.

Definition resampled_fractional : DataFrame :=
  Eval vm_compute in
    match @resample_frame L 5 1500000000 frame_fractional with
    | Some (Ok out) => out
    | _ => frame_empty
    end.

(** The object after loading node 13 on 10 MHz, and after resampling
    it every second. *)
Definition loaded : GrapeData :=
  Eval vm_compute in
    snd (@load_raw L 13 10e6 None None "data" None None (Some "W2NAF") None None
           new_object).

Definition resampled : GrapeData :=
  Eval vm_compute in
    match @resample_data L 5 second "raw" "resampled" loaded with
    | Some (_, self) => self
    | None => new_object
    end.

Definition record1 : FileRecord := mkFileRecord day1 13 "G1" "EN91fl" (CNum 10e6) file1.
Definition record2 : FileRecord := mkFileRecord day2 13 "G1" "EN91fl" (CNum 10e6) file2.
Definition record3 : FileRecord := mkFileRecord day1 7 "G1" "EN91fl" (CStr "WWV20") file3.

(** What [DataInventory] makes of the four files. *)
Definition inventory : DataInventory :=
  mkDataInventory [record1; record2; record3] [7; 13] true.

End demo.

(** ** Vocabulary of the statements *)

Module stated.
Import grape1.

(** The documented value, in Hz, of every station label. *)
Definition documented_Hz : list (string * Z) :=
  [ ("WWV2p5", 2500000); ("WWV5", 5000000); ("WWV10", 10000000);
    ("WWV15", 15000000); ("CHU3", 3330000); ("CHU7", 7850000);
    ("CHU14", 14670000); ("Unknown", 0) ].

(** The frequency label a file name carries: its sixth field, with the
    characters of the suffix taken off both ends. *)
Definition file_label (suffix bname : string) : string :=
  strip suffix (nth 5 (split_on "_" bname) "").

(** The Frequency cell a label ends up as: the documented number for
    a station label, the label itself for anything else. *)
Definition holds_value (c : cell) (lab : string) : Prop :=
  match lookup documented_Hz lab with
  | Some hz => exists x : Q, c = CNum x /\ x == inject_Z hz
  | None => c = CStr lab
  end.

(** A file record is wanted by a build: it is of the node and the
    frequency asked for and inside the time range, a bound that is left
    out excluding nothing. *)
Definition wanted (node : Z) (freq : Q) (sTime eTime : option datetime)
    (r : FileRecord) : Prop :=
  Node r = node /\ cell_eq_num (Frequency r) freq = true
  /\ (forall s, sTime = Some s -> instant s <= Datetime r)
  /\ (forall e, eTime = Some e -> Datetime r < instant e).

(** The arithmetic sequence of [n] times from [start] in steps of
    [rate]. *)
Definition grid (start rate : Z) (n : nat) : list timestamp :=
  map (fun k => start + Z.of_nat k * rate) (seq 0 n).

(** The least and the greatest of the times of a frame. *)
Definition least (l : list timestamp) : timestamp :=
  match l with
  | [] => 0
  | t :: ts => fold_left Z.min ts t
  end.

Definition greatest (l : list timestamp) : timestamp :=
  match l with
  | [] => 0
  | t :: ts => fold_left Z.max ts t
  end.

(** The bounds that are given are of the type of the dates of the
    inventory: with a time zone when these have one, without when
    these have none. *)
Definition comparable_bounds (inv : DataInventory) (sTime eTime : option datetime)
    : Prop :=
  forall b, sTime = Some b \/ eTime = Some b -> tz_aware b = Datetime_tz_aware inv.

(** A Julian date lies inside the span of the Julian dates of a
    series: some date of the series is not above it and some is not
    below it. *)
Definition covered (jd : list Q) (q : Q) : Prop :=
  (exists a, In a jd /\ (a <= q)%Q) /\ (exists b, In b jd /\ (q <= b)%Q).

(** All columns of a frame have the length of its time column. *)
Definition well_formed (frame : DataFrame) : Prop :=
  List.length (Freq frame) = List.length (UTC frame)
  /\ List.length (Vpk frame) = List.length (UTC frame)
  /\ (forall values, Power_dB frame = Some values ->
        List.length values = List.length (UTC frame)).

(** How often the resampling loop appends: the least [n] with
    [e <= s + n * rate]. *)
Definition steps (s e rate : Z) : nat :=
  Z.to_nat ((e - s + rate - 1) / rate).

(** The eight assignments of lines 124-131, seen on a single cell and
    on a single row. *)
Definition assign_cell (lab : string) (hz : Q) (c : cell) : cell :=
  if cell_is c lab then CNum hz else c.

Definition normalize_cell (c : cell) : cell :=
  assign_cell "Unknown" 0
    (assign_cell "CHU14" 14.67e6
      (assign_cell "CHU7" 7850e3
        (assign_cell "CHU3" 3330e3
          (assign_cell "WWV15" 15e6
            (assign_cell "WWV2p5" 2.5e6
              (assign_cell "WWV10" 10e6
                (assign_cell "WWV5" 5e6 c))))))).

(** [rows'] holds the rows of [rows], file name for file name, with
    [f] applied to the Frequency cell. *)
Definition tracks (f : cell -> cell) (rows rows' : list FileRecord) : Prop :=
  (forall r, In r rows' ->
     exists r0, In r0 rows /\ Filename r = Filename r0 /\ Frequency r = f (Frequency r0))
  /\ (forall r0, In r0 rows ->
     exists r, In r rows' /\ Filename r = Filename r0 /\ Frequency r = f (Frequency r0)).

(** The rows of the node and the frequency, before the time range. *)
Definition of_node_and_frequency (inv : DataInventory) (node : Z) (freq : Q)
    : list FileRecord :=
  filter (fun r => Node r =? node)
    (filter (fun r => cell_eq_num (Frequency r) freq) (inv_df inv)).

(** The order [interp1d] sorts its points by. *)
Definition by_abscissa (p1 p2 : Q * Q) : bool := Qle_bool (fst p1) (fst p2).

(** The truncated first and last time of a frame. *)
Definition resample_start (frame : DataFrame) : timestamp :=
  drop_subsecond (least (UTC frame)).

Definition resample_end (frame : DataFrame) : timestamp :=
  drop_subsecond (greatest (UTC frame)).

End stated.

(** ** gen_lib.py: get_iterable *)

Module gen_lib_rest.

Local Unset Elimination Schemes.


Local Set Elimination Schemes.






End gen_lib_rest.

(** ** grape1.py: the night shading and the node table *)

Module grape1_rest.
Import grape1.

Definition day : Z := 86400000000000.



(** The loop of lines 79-81, with [step] for [timedelta(days=1)] and
    [last] for [dates[-1]]; [None] when the fuel runs out.  The dates
    are whole days and the last one is before [eDate] when a day is
    added to it, so the sum is at most [eDate] and within the range of
    [datetime]. *)
Fixpoint dates_loop (fuel : nat) (dates : list timestamp) (last : timestamp)
    (eDate step : Z) : option (list timestamp) :=
  if last <? eDate then
    match fuel with
    | O => None
    | S fuel' => dates_loop fuel' (dates ++ [last + step]) (last + step) eDate step
    end
  else Some dates.

Section Terminator.

(** [Sun(lat, lon).get_sunset_time(date)] and [get_sunrise_time]; they
    raise where the sun does not set or rise. *)
Variable get_sunset_time : Q -> Q -> timestamp -> result timestamp.
Variable get_sunrise_time : Q -> Q -> timestamp -> result timestamp.





End Terminator.

(** The node table with its Status column, which exists only once it
    has been assigned. *)
Record NodesFrame : Type := mkNodesFrame {
  rows : list (Z * NodeRow);
  Status : option (list string)
}.

(** [np.where(nodes_df.index.isin(logged_nodes), "Data logged", "No data logged")] *)
Definition status_of (logged_nodes : list Z) (node : Z) : string :=
  if existsb (Z.eqb node) logged_nodes then "Data logged" else "No data logged".

Definition update_status (self : NodesFrame) (logged_nodes : list Z) : NodesFrame :=
  mkNodesFrame (rows self) (Some (map (fun row => status_of logged_nodes (fst row)) (rows self))).

Section Nodes.

(** [pd.read_csv(fpath)] with the column Node # made the index. *)
Variable read_nodelist : string -> result (list (Z * NodeRow)).

(** [GrapeNodes.__init__]; [if logged_nodes:] holds for a list that is
    given and not empty. *)
Definition GrapeNodes_init (fpath : string) (logged_nodes : option (list Z))
    : result NodesFrame :=
  Py.bind (read_nodelist fpath) (fun nodes_df =>
  let self := mkNodesFrame nodes_df None in
  match logged_nodes with
  | Some (n :: l) => Ok (update_status self (n :: l))
  | _ => Ok self
  end).

End Nodes.

(** [status_table]: the style of each row, one string per row. *)
Definition status_table (self : NodesFrame) : result (list string) :=
  match Status self with
  | None => Raise KeyError
  | Some status =>
      Ok (map (fun s => if String.eqb s "Data logged"
                        then "background-color: palegreen" else "") status)
  end.

(** The table as [__load_raw] reads it. *)
Definition as_GrapeNodes (self : NodesFrame) : GrapeNodes := mkGrapeNodes (rows self).

End grape1_rest.

(** ** Further inputs to run the code on *)

Module demo_rest.
Import grape1 grape1_rest.


(** The object after the power column has been derived, and after the
    filter. *)
Definition with_power : GrapeData :=
  Eval vm_compute in snd (@assign_Power_dB demo.L demo.resampled).

Definition filtered : GrapeData :=
  Eval vm_compute in
    snd (@filter_data demo.L 6 (TcScalar 3.3333) "low" "resampled" "filtered"
           ["Freq"; "Vpk"; "Power_dB"] with_power).

(** An object whose resampled stage has a single row. *)
Definition one_row : GrapeData :=
  mkGrapeData
    (Some [("resampled",
            mkStage (mkDataFrame [demo.day1] [0%Q] [1%Q] None true) "one row")])
    None.

(** A directory whose one file holds two samples of the same second. *)
Definition L_one_second : Lib :=
  demo.lib [demo.file1] demo.dates
    [ ("data/" ++ demo.file1,
       [mkSample demo.day1 10000000 1; mkSample demo.day1 10000001 3]) ].

(** A directory whose one file holds two samples within one second,
    half a second and more after its start. *)
Definition L_half_second : Lib :=
  demo.lib [demo.file1] demo.dates
    [ ("data/" ++ demo.file1,
       [mkSample (demo.day1 + 500000000) 10000000 1;
        mkSample (demo.day1 + 600000000) 10000001 3]) ].

Definition loaded_one_second : GrapeData :=
  Eval vm_compute in
    snd (@load_raw L_one_second 13 10e6 None (Some (demo.utc (demo.day1 + 1))) "data"
           None None None None None new_object).

Definition resampled_one_second : GrapeData :=
  Eval vm_compute in
    match @resample_data L_one_second 5 demo.second "raw" "resampled"
            loaded_one_second with
    | Some (_, self) => self
    | None => new_object
    end.




Definition read_nodelist (fpath : string) : result (list (Z * NodeRow)) :=
  if String.eqb fpath "nodelist.csv" then Ok (nodes_df demo.registry) else Raise OSError.

End demo_rest.

(** ** Further vocabulary of the statements *)

Module stated_rest.
Import grape1.

(** Two rows of the inventory that differ at most in the Frequency. *)
Definition same_file (r r' : FileRecord) : Prop :=
  Datetime r' = Datetime r /\ Node r' = Node r /\ G r' = G r
  /\ Grid_Square r' = Grid_Square r /\ Filename r' = Filename r.

(** A row of a station file with the carrier frequency taken off its
    Freq, as line 359 leaves it. *)
Definition less_carrier (freq : Q) (s : sample) : sample :=
  mkSample (s_UTC s) (s_Freq s - freq)%Q (s_Vpk s).


End stated_rest.

(** * Properties *)

(** ** gen_lib.make_dir *)

Section MakeDirFacts.
Import gen_lib.
Variable FS : Type.
Variable shutil_rmtree os_makedirs : string -> FS -> result unit * FS.

Lemma value_is_unbound (path : string) (clear : bool) :
  load_name (make_dir_scope path clear) "value" = Raise NameError.
Proof. destruct clear; reflexivity. Qed.

Lemma call_with_unbound_argument (f : string -> FS -> result unit * FS)
    (e : exn) (fs : FS) :
  try_except_pass FS (call_path_fn FS f (Raise e)) fs = (Ok tt, fs).
Proof. reflexivity. Qed.

(** C9: whatever the path, the flag and the two operating-system
    calls, [make_dir] returns normally and the directory tree is the
    one it started from: the argument [value] of both calls is an
    unbound name, the NameError is caught by the bare except, and
    neither [shutil.rmtree] nor [os.makedirs] is reached. *)
Theorem make_dir_returns_and_changes_nothing (path : string) (clear : bool) (fs : FS) :
  load_name (make_dir_scope path clear) "value" = Raise NameError
  /\ make_dir FS shutil_rmtree os_makedirs path clear fs = (Ok tt, fs).
Proof.
  split; [apply value_is_unbound|].
  unfold make_dir. rewrite value_is_unbound.
  destruct clear; unfold bindM; rewrite ?call_with_unbound_argument; reflexivity.
Qed.

End MakeDirFacts.

(** ** DataInventory *)

Section InventoryFacts.
Import grape1 stated.
Context {L : Lib}.

Lemma mapM_length {A B : Type} (f : A -> result B) (xs : list A) (ys : list B) :
  mapM f xs = Ok ys -> List.length ys = List.length xs.
Proof.
  revert ys; induction xs as [|x xs IH]; intros ys H; simpl in H.
  - now inversion H.
  - destruct (f x); [|discriminate].
    destruct (mapM f xs); [|discriminate].
    inversion H; subst; simpl. now rewrite (IH _ eq_refl).
Qed.

Lemma make_records_sound (suffix : string) files dts nodes (r : FileRecord) :
  In r (make_records files dts nodes suffix) ->
  exists bname parts,
    In (bname, parts) files /\ Filename r = bname
    /\ Frequency r = CStr (strip suffix (nth 5 parts "")).
Proof.
  revert dts nodes; induction files as [|[bname parts] files IH]; intros dts nodes H.
  - destruct H.
  - destruct dts as [|dt dts]; [destruct H|].
    destruct nodes as [|node nodes]; [destruct H|].
    destruct H as [H|H].
    + subst r. exists bname, parts. simpl. auto.
    + destruct (IH _ _ H) as (b' & p' & Hin & Hr). exists b', p'. simpl. auto.
Qed.

Lemma make_records_complete (suffix : string) files dts nodes bname parts :
  List.length dts = List.length files ->
  List.length nodes = List.length files ->
  In (bname, parts) files ->
  exists r, In r (make_records files dts nodes suffix) /\ Filename r = bname
    /\ Frequency r = CStr (strip suffix (nth 5 parts "")).
Proof.
  revert dts nodes; induction files as [|[b' p'] files IH]; intros dts nodes Hd Hn Hin.
  - destruct Hin.
  - destruct dts as [|dt dts]; [discriminate|].
    destruct nodes as [|node nodes]; [discriminate|].
    simpl in Hd, Hn. destruct Hin as [Heq|Hin].
    + inversion Heq; subst. eexists. split; [left; reflexivity|]. simpl. auto.
    + destruct (IH dts nodes) as (r & Hr & Hf); [lia|lia|exact Hin|].
      exists r. split; [right; exact Hr|exact Hf].
Qed.

Lemma in_combine_map {A B : Type} (f : A -> B) (l : list A) (x : A) (y : B) :
  In (x, y) (combine l (map f l)) <-> In x l /\ y = f x.
Proof.
  induction l as [|z l IH]; simpl.
  - tauto.
  - rewrite IH. split.
    + intros [H|H]; [inversion H; subst; auto|tauto].
    + intros [[H|H] Hy]; subst; auto.
Qed.

Lemma tracks_refl (rows : list FileRecord) : tracks (fun c => c) rows rows.
Proof. split; intros r Hr; exists r; auto. Qed.

Lemma tracks_loc_assign (lab : string) (hz : Q) (f : cell -> cell)
    (rows rows' : list FileRecord) :
  tracks f rows rows' ->
  tracks (fun c => assign_cell lab hz (f c)) rows (loc_assign_Frequency lab hz rows').
Proof.
  intros [Hs Hc]. unfold loc_assign_Frequency, assign_cell. split.
  - intros r Hr. apply in_map_iff in Hr. destruct Hr as (r1 & Hr & Hin).
    destruct (Hs _ Hin) as (r0 & Hin0 & Hf & Hq). exists r0.
    rewrite <- Hq. subst r. destruct (cell_is (Frequency r1) lab); simpl; auto.
  - intros r0 Hin0. destruct (Hc _ Hin0) as (r1 & Hin & Hf & Hq).
    eexists. split; [apply in_map; exact Hin|]. rewrite <- Hq.
    destruct (cell_is (Frequency r1) lab); simpl; auto.
Qed.

Ltac known_label E :=
  apply String.eqb_eq in E; subst; cbn;
  eexists; split; [reflexivity|reflexivity].

Lemma normalize_cell_holds (s : string) : holds_value (normalize_cell (CStr s)) s.
Proof.
  unfold normalize_cell, assign_cell; simpl.
  destruct (String.eqb s "WWV5") eqn:E1; [known_label E1|]; simpl.
  destruct (String.eqb s "WWV10") eqn:E2; [known_label E2|]; simpl.
  destruct (String.eqb s "WWV2p5") eqn:E3; [known_label E3|]; simpl.
  destruct (String.eqb s "WWV15") eqn:E4; [known_label E4|]; simpl.
  destruct (String.eqb s "CHU3") eqn:E5; [known_label E5|]; simpl.
  destruct (String.eqb s "CHU7") eqn:E6; [known_label E6|]; simpl.
  destruct (String.eqb s "CHU14") eqn:E7; [known_label E7|]; simpl.
  destruct (String.eqb s "Unknown") eqn:E8; [known_label E8|]; simpl.
  unfold holds_value, documented_Hz, lookup.
  rewrite (String.eqb_sym _ s), E3, (String.eqb_sym _ s), E1,
    (String.eqb_sym _ s), E2, (String.eqb_sym _ s), E4,
    (String.eqb_sym _ s), E5, (String.eqb_sym _ s), E6,
    (String.eqb_sym _ s), E7, (String.eqb_sym _ s), E8.
  reflexivity.
Qed.

(** What the inventory holds, in terms of the file names listed. *)
Lemma inventory_rows (data_path suffix : string) (inv : DataInventory) :
  DataInventory_init data_path suffix = Ok inv ->
  exists rows,
    tracks normalize_cell
      (filter (fun r => negb (contains "G1" (frequency_label r))) rows) (inv_df inv)
    /\ (forall r, In r rows ->
          In (Filename r) (glob_basenames data_path suffix)
          /\ Frequency r = CStr (file_label suffix (Filename r)))
    /\ (forall bname, In bname (glob_basenames data_path suffix) ->
          exists r, In r rows /\ Filename r = bname
                    /\ Frequency r = CStr (file_label suffix bname)).
Proof.
  unfold DataInventory_init. intros H.
  destruct (Nat.eqb (List.length _) 0); [discriminate|].
  destruct (negb _); [discriminate|].
  destruct (mapM _ _) as [dts|] eqn:Hd; [|discriminate]. simpl in H.
  destruct (mapM _ _) as [nodes|] eqn:Hn in H; [|discriminate]. simpl in H.
  destruct (negb _); [discriminate|].
  inversion H; subst; clear H. simpl.
  apply mapM_length in Hd, Hn. rewrite length_map in Hd, Hn.
  eexists. split; [|split].
  - repeat apply tracks_loc_assign. apply tracks_refl.
  - intros r Hr. apply make_records_sound in Hr.
    destruct Hr as (bname & parts & Hin & Hf & Hq).
    apply in_combine_map in Hin. destruct Hin as [Hin Hp]. subst.
    split; [exact Hin|exact Hq].
  - intros bname Hin.
    destruct (make_records_complete suffix
                (combine (glob_basenames data_path suffix)
                   (map (split_on "_") (glob_basenames data_path suffix)))
                dts nodes bname (split_on "_" bname)) as (r & Hr & Hf & Hq).
    + rewrite length_combine, length_map. lia.
    + rewrite length_combine, length_map. lia.
    + apply in_combine_map. auto.
    + exists r. auto.
Qed.

(** C3, as the code has it: a listed file is left out of the inventory
    exactly when its frequency label contains G1; every other file has
    a row, and the Frequency of that row is the documented number of
    Hz when the label is one of the eight station labels and the label
    itself, unchanged, when it is anything else. *)
Theorem inventory_normalizes_known_labels_and_drops_G1
    (data_path suffix : string) (inv : DataInventory) :
  DataInventory_init data_path suffix = Ok inv ->
  (forall r, In r (inv_df inv) ->
     In (Filename r) (glob_basenames data_path suffix)
     /\ contains "G1" (file_label suffix (Filename r)) = false
     /\ holds_value (Frequency r) (file_label suffix (Filename r)))
  /\ (forall bname, In bname (glob_basenames data_path suffix) ->
       contains "G1" (file_label suffix bname) = false ->
       exists r, In r (inv_df inv) /\ Filename r = bname
                 /\ holds_value (Frequency r) (file_label suffix bname)).
Proof.
  intros H. destruct (inventory_rows _ _ _ H) as (rows & [Hs Hc] & Hrows & Hall).
  split.
  - intros r Hr. destruct (Hs _ Hr) as (r0 & Hin0 & Hf & Hq).
    apply filter_In in Hin0. destruct Hin0 as [Hin0 Hg].
    destruct (Hrows _ Hin0) as [Hlist Hlab].
    unfold frequency_label in Hg. rewrite Hlab in Hg.
    rewrite Hf, Hq, Hlab. repeat split.
    + exact Hlist.
    + now apply negb_true_iff in Hg.
    + apply normalize_cell_holds.
  - intros bname Hin Hg. destruct (Hall _ Hin) as (r0 & Hin0 & Hf0 & Hlab).
    destruct (Hc r0) as (r & Hr & Hf & Hq).
    + apply filter_In. split; [exact Hin0|].
      unfold frequency_label. rewrite Hlab, Hg. reflexivity.
    + exists r. rewrite Hf, Hq, Hlab. repeat split; auto.
      apply normalize_cell_holds.
Qed.

End InventoryFacts.

(** The inventory of the four demonstration files: the file whose label
    is WWV20 is kept, with its label, and the G1 file is gone. *)
Lemma demo_inventory :
  @grape1.DataInventory_init demo.L "data" ".csv" = Ok demo.inventory.
Proof. vm_compute. reflexivity. Qed.

Lemma inventory_normalizes_known_labels_and_drops_G1_witness :
  @grape1.DataInventory_init demo.L "data" ".csv" = Ok demo.inventory
  /\ (forall r, In r (grape1.inv_df demo.inventory) ->
        In (grape1.Filename r) (@grape1.glob_basenames demo.L "data" ".csv")
        /\ grape1.contains "G1" (stated.file_label ".csv" (grape1.Filename r)) = false
        /\ stated.holds_value (grape1.Frequency r)
             (stated.file_label ".csv" (grape1.Filename r))).
Proof.
  split; [vm_compute; reflexivity|].
  apply (@inventory_normalizes_known_labels_and_drops_G1 demo.L "data" ".csv" demo.inventory).
  vm_compute; reflexivity.
Defined.

(** C3 as stated fails: WWV20 is neither a station label of the table
    nor a number, and the file that carries it has its row in the
    inventory, with the label as its Frequency. *)
Lemma unrecognized_label_is_retained :
  exists inv,
    @grape1.DataInventory_init demo.L "data" ".csv" = Ok inv
    /\ In demo.record3 (grape1.inv_df inv)
    /\ grape1.Frequency demo.record3 = grape1.CStr "WWV20"
    /\ lookup stated.documented_Hz "WWV20" = None.
Proof.
  exists demo.inventory. split; [exact demo_inventory|].
  split; [right; right; left; reflexivity|]. split; reflexivity.
Qed.

(** ** Sorting *)

Section SortFacts.
Import grape1.
Context {A : Type} (leb : A -> A -> bool).

Lemma insert_sorted_perm (x : A) (l : list A) :
  Permutation (insert_sorted leb x l) (x :: l).
Proof.
  induction l as [|y l IH]; simpl; [reflexivity|].
  destruct (leb x y); [reflexivity|].
  rewrite IH. apply perm_swap.
Qed.

Lemma sort_by_perm (l : list A) : Permutation (sort_by leb l) l.
Proof.
  induction l as [|x l IH]; simpl; [reflexivity|].
  unfold sort_by in *. simpl. rewrite insert_sorted_perm. now constructor.
Qed.

Lemma sort_by_In (l : list A) (x : A) : In x (sort_by leb l) <-> In x l.
Proof.
  split; apply Permutation_in; [|symmetry]; apply sort_by_perm.
Qed.

Lemma sort_by_length (l : list A) : List.length (sort_by leb l) = List.length l.
Proof. apply Permutation_length, sort_by_perm. Qed.

Hypothesis leb_total : forall x y, leb x y = true \/ leb y x = true.
Hypothesis leb_trans : forall x y z, leb x y = true -> leb y z = true -> leb x z = true.

Lemma insert_sorted_sorted (x : A) (l : list A) :
  StronglySorted (fun u v => leb u v = true) l ->
  StronglySorted (fun u v => leb u v = true) (insert_sorted leb x l).
Proof.
  induction 1 as [|y l Hs IH Hy]; simpl.
  - repeat constructor.
  - destruct (leb x y) eqn:E.
    + constructor; [now constructor|].
      constructor; [exact E|].
      rewrite Forall_forall in *. intros z Hz. eapply leb_trans; eauto.
    + assert (Hyx : leb y x = true) by (destruct (leb_total x y); congruence).
      constructor; [exact IH|].
      rewrite Forall_forall. intros z Hz.
      apply (Permutation_in _ (insert_sorted_perm x l)) in Hz.
      destruct Hz as [->|Hz]; [exact Hyx|].
      rewrite Forall_forall in Hy. now apply Hy.
Qed.

Lemma sort_by_sorted (l : list A) :
  StronglySorted (fun u v => leb u v = true) (sort_by leb l).
Proof.
  induction l as [|x l IH]; simpl; [constructor|].
  now apply insert_sorted_sorted.
Qed.

(** The sort is stable: the elements of the key of [x] are, after the
    sort, in the order they were in before. *)
Lemma insert_sorted_stable (x a : A) (l : list A) :
  filter (fun y => leb x y && leb y x) (insert_sorted leb a l)
  = filter (fun y => leb x y && leb y x) (a :: l).
Proof.
  induction l as [|b l IH]; [reflexivity|]. cbn [insert_sorted].
  destruct (leb a b) eqn:E; [reflexivity|].
  cbn [filter] in *. rewrite IH.
  destruct (leb x a && leb a x) eqn:Ea; [|reflexivity].
  destruct (leb x b && leb b x) eqn:Eb; [|reflexivity].
  apply andb_true_iff in Ea, Eb. destruct Ea as [_ Hax], Eb as [Hxb _].
  rewrite (leb_trans _ _ _ Hax Hxb) in E. discriminate E.
Qed.

Lemma sort_by_stable (x : A) (l : list A) :
  filter (fun y => leb x y && leb y x) (sort_by leb l)
  = filter (fun y => leb x y && leb y x) l.
Proof.
  induction l as [|a l IH]; [reflexivity|].
  unfold sort_by in *. cbn [fold_right]. rewrite insert_sorted_stable.
  cbn [filter]. now rewrite IH.
Qed.

End SortFacts.

(** ** GrapeData: choosing the files *)

Section SelectFacts.
Import grape1 stated.

Lemma fold_max_init (l : list Z) (x : Z) : x <= fold_left Z.max l x.
Proof.
  revert x; induction l as [|z l IH]; intros x; simpl; [lia|].
  specialize (IH (Z.max x z)). lia.
Qed.

Lemma fold_min_init (l : list Z) (x : Z) : fold_left Z.min l x <= x.
Proof.
  revert x; induction l as [|z l IH]; intros x; simpl; [lia|].
  specialize (IH (Z.min x z)). lia.
Qed.

Lemma fold_max_ge (l : list Z) (x y : Z) :
  In y (x :: l) -> y <= fold_left Z.max l x.
Proof.
  revert x; induction l as [|z l IH]; intros x H; simpl.
  - destruct H as [->|[]]. lia.
  - destruct H as [->|[->|H]].
    + pose proof (fold_max_init l (Z.max y z)). lia.
    + pose proof (fold_max_init l (Z.max x y)). lia.
    + apply IH. now right.
Qed.

Lemma fold_min_le (l : list Z) (x y : Z) :
  In y (x :: l) -> fold_left Z.min l x <= y.
Proof.
  revert x; induction l as [|z l IH]; intros x H; simpl.
  - destruct H as [->|[]]. lia.
  - destruct H as [->|[->|H]].
    + pose proof (fold_min_init l (Z.min y z)). lia.
    + pose proof (fold_min_init l (Z.min x y)). lia.
    + apply IH. now right.
Qed.

(** The greatest and the least are among the elements. *)
Lemma fold_max_in (l : list Z) (x : Z) : In (fold_left Z.max l x) (x :: l).
Proof.
  revert x; induction l as [|z l IH]; intros x; simpl; [now left|].
  destruct (IH (Z.max x z)) as [H|H]; [|now right; right].
  rewrite <- H. destruct (Z.max_spec x z) as [[_ ->]|[_ ->]]; auto.
Qed.


Lemma py_max_ge (l : list Z) (m y : Z) : py_max l = Ok m -> In y l -> y <= m.
Proof.
  destruct l as [|x l]; [discriminate|]. simpl. intros H Hy.
  inversion H; subst. now apply fold_max_ge.
Qed.

Lemma py_min_le (l : list Z) (m y : Z) : py_min l = Ok m -> In y l -> m <= y.
Proof.
  destruct l as [|x l]; [discriminate|]. simpl. intros H Hy.
  inversion H; subst. now apply fold_min_le.
Qed.

Lemma in_of_node_and_frequency inv node freq r :
  In r (of_node_and_frequency inv node freq) <->
  In r (inv_df inv) /\ Node r = node /\ cell_eq_num (Frequency r) freq = true.
Proof.
  unfold of_node_and_frequency. rewrite !filter_In, Z.eqb_eq. tauto.
Qed.

Lemma comparable_own (tz : bool) (t : timestamp) :
  comparable tz (mkDatetime t tz) = Ok t.
Proof. unfold comparable. cbn [tz_aware instant]. now rewrite Bool.eqb_reflx. Qed.

Lemma comparable_ok (tz : bool) (t : datetime) (x : timestamp) :
  comparable tz t = Ok x <-> tz_aware t = tz /\ x = instant t.
Proof.
  unfold comparable. destruct (Bool.eqb (tz_aware t) tz) eqn:E.
  - apply Bool.eqb_prop in E. split.
    + intros H. inversion H. auto.
    + intros [_ ->]. reflexivity.
  - split; [discriminate|]. intros [H _]. rewrite H, Bool.eqb_reflx in E. discriminate.
Qed.

Lemma comparable_kinds (tz : bool) (t : datetime) (e : exn) :
  comparable tz t = Raise e <-> tz_aware t <> tz /\ e = TypeError.
Proof.
  unfold comparable. destruct (Bool.eqb (tz_aware t) tz) eqn:E.
  - apply Bool.eqb_prop in E. split; [discriminate|]. intros [H _]. contradiction.
  - split.
    + intros H. inversion H. split; [|reflexivity].
      intros H'. rewrite H', Bool.eqb_reflx in E. discriminate.
    + intros [_ ->]. reflexivity.
Qed.

(** Both bounds given, and of the type of the column: the half-open
    interval, in the order of the dates. *)
Lemma select_two_bounds inv node freq (sT eT : datetime) :
  tz_aware sT = Datetime_tz_aware inv -> tz_aware eT = Datetime_tz_aware inv ->
  load_raw_select inv node freq (Some sT) (Some eT)
  = Ok (sort_by (fun r1 r2 => Datetime r1 <=? Datetime r2)
          (filter (fun r => (instant sT <=? Datetime r) && (Datetime r <? instant eT))
             (of_node_and_frequency inv node freq))).
Proof.
  intros Hs He. unfold load_raw_select, comparable. cbn [Py.bind].
  rewrite Hs, He, Bool.eqb_reflx. reflexivity.
Qed.

Lemma select_half_open inv node freq sT eT sel r :
  load_raw_select inv node freq (Some sT) (Some eT) = Ok sel ->
  (In r sel <->
   In r (inv_df inv) /\ Node r = node /\ cell_eq_num (Frequency r) freq = true
   /\ instant sT <= Datetime r < instant eT).
Proof.
  unfold load_raw_select; cbn [Py.bind]. intros H.
  destruct (comparable _ sT) as [s|] eqn:Es; [|discriminate]. cbn [Py.bind] in H.
  destruct (comparable _ eT) as [e|] eqn:Ee; [|discriminate]. cbn [Py.bind] in H.
  apply comparable_ok in Es, Ee. destruct Es as [_ ->], Ee as [_ ->].
  inversion H; subst; clear H.
  rewrite sort_by_In, filter_In.
  fold (of_node_and_frequency inv node freq).
  rewrite in_of_node_and_frequency, andb_true_iff, Z.leb_le, Z.ltb_lt. tauto.
Qed.

(** C2, where the code departs from it: with the end time left out,
    the end of the range is the latest timestamp among the records of
    the node and frequency, and the test against it is strict, so a
    record that carries this latest timestamp is never selected. *)
Theorem omitted_end_leaves_out_latest_record
    inv node freq (sTime : option datetime) sel r :
  load_raw_select inv node freq sTime None = Ok sel ->
  In r (inv_df inv) -> Node r = node -> cell_eq_num (Frequency r) freq = true ->
  (forall r', In r' (inv_df inv) -> Node r' = node ->
              cell_eq_num (Frequency r') freq = true -> Datetime r' <= Datetime r) ->
  ~ In r sel.
Proof.
  unfold load_raw_select. fold (of_node_and_frequency inv node freq).
  intros H Hin Hn Hf Hmax Hsel.
  destruct (match sTime with None => _ | Some t => Ok t end) as [sT|]; [|discriminate].
  cbn [Py.bind] in H.
  destruct (py_max _) as [eT|] eqn:Hm; [|discriminate]. cbn [Py.bind] in H.
  destruct (comparable _ sT) as [s|]; [|discriminate]. cbn [Py.bind] in H.
  rewrite comparable_own in H. cbn [Py.bind] in H.
  inversion H; subst sel; clear H.
  apply sort_by_In, filter_In in Hsel. destruct Hsel as [Hd Ht].
  apply andb_true_iff in Ht. destruct Ht as [_ Ht]. apply Z.ltb_lt in Ht.
  assert (Hle : Datetime r <= eT).
  { eapply py_max_ge; [exact Hm|]. now apply in_map. }
  assert (Hge : eT <= Datetime r).
  { destruct (of_node_and_frequency inv node freq) as [|r0 l] eqn:E; [discriminate|].
    simpl in Hm. inversion Hm; subst eT.
    pose proof (fold_max_in (map Datetime l) (Datetime r0)) as Hy.
    change (In (fold_left Z.max (map Datetime l) (Datetime r0))
              (map Datetime (r0 :: l))) in Hy.
    apply in_map_iff in Hy. destruct Hy as (r' & <- & Hr').
    rewrite <- E in Hr'. apply in_of_node_and_frequency in Hr'.
    destruct Hr' as (? & ? & ?). now apply Hmax. }
  lia.
Qed.

End SelectFacts.

Lemma omitted_end_leaves_out_latest_record_witness :
  grape1.load_raw_select demo.inventory 13 10e6 None None = Ok [demo.record1]
  /\ ~ In demo.record2 [demo.record1].
Proof.
  split; [vm_compute; reflexivity|].
  apply (omitted_end_leaves_out_latest_record demo.inventory 13 10e6 None
           [demo.record1] demo.record2).
  - vm_compute; reflexivity.
  - right; left; reflexivity.
  - reflexivity.
  - vm_compute; reflexivity.
  - intros r' [<-|[<-|[<-|[]]]] _ _; vm_compute; discriminate.
Defined.

(** ** GrapeData: loading *)

Section LoadFacts.
Import grape1 stated.
Context {L : Lib}.

Lemma filter_none {A : Type} (f : A -> bool) (l : list A) :
  (forall x, In x l -> f x = false) -> filter f l = [].
Proof.
  induction l as [|x l IH]; intros H; simpl; [reflexivity|].
  rewrite (H x (or_introl eq_refl)). apply IH. intros y Hy. apply H. now right.
Qed.

Lemma py_min_kinds (l : list Z) (e : exn) : py_min l = Raise e -> e = ValueError.
Proof. destruct l; intros H; inversion H; reflexivity. Qed.

Lemma py_max_kinds (l : list Z) (e : exn) : py_max l = Raise e -> e = ValueError.
Proof. destruct l; intros H; inversion H; reflexivity. Qed.

(** Nothing wanted: the selection stops at [min()] or [max()] of no
    date, or at the comparison with a bound that is not of the type of
    the column, or it selects no row. *)
Lemma select_without_match inv node freq sTime eTime :
  (forall r, In r (inv_df inv) -> ~ wanted node freq sTime eTime r) ->
  load_raw_select inv node freq sTime eTime = Raise ValueError
  \/ load_raw_select inv node freq sTime eTime = Ok []
  \/ (load_raw_select inv node freq sTime eTime = Raise TypeError
      /\ ~ comparable_bounds inv sTime eTime).
Proof.
  intros Hnone. unfold load_raw_select.
  fold (of_node_and_frequency inv node freq).
  set (tz := Datetime_tz_aware inv).
  assert (Hdft : forall r, In r (of_node_and_frequency inv node freq) ->
            ~ ((forall s, sTime = Some s -> instant s <= Datetime r)
               /\ (forall e, eTime = Some e -> Datetime r < instant e))).
  { intros r Hr [Hs He]. apply in_of_node_and_frequency in Hr.
    destruct Hr as (Hin & Hn & Hf). apply (Hnone r Hin). repeat split; auto. }
  assert (Hcmp : forall b, tz_aware b <> tz -> sTime = Some b \/ eTime = Some b ->
            ~ comparable_bounds inv sTime eTime).
  { intros b Hb Hin Hall. apply Hb. now apply Hall. }
  set (dft := of_node_and_frequency inv node freq) in *.
  destruct sTime as [s|], eTime as [e|]; cbn [Py.bind].
  - destruct (comparable tz s) as [s'|x] eqn:Es; cbn [Py.bind].
    2:{ apply comparable_kinds in Es. destruct Es as [Hne ->]. right; right.
        split; [reflexivity|]. apply (Hcmp s); auto. }
    destruct (comparable tz e) as [e'|x] eqn:Ee; cbn [Py.bind].
    2:{ apply comparable_kinds in Ee. destruct Ee as [Hne ->]. right; right.
        split; [reflexivity|]. apply (Hcmp e); auto. }
    apply comparable_ok in Es, Ee. destruct Es as [_ ->], Ee as [_ ->].
    right; left. rewrite filter_none; [reflexivity|].
    intros r Hr. apply andb_false_iff.
    destruct (Z.leb_spec (instant s) (Datetime r)); [|now left].
    destruct (Z.ltb_spec (Datetime r) (instant e)); [|now right].
    exfalso. apply (Hdft r Hr). split; intros ? [= <-]; lia.
  - destruct (py_max (map Datetime dft)) as [m|x] eqn:Hm; cbn [Py.bind].
    2:{ left. now rewrite (py_max_kinds _ _ Hm). }
    destruct (comparable tz s) as [s'|x] eqn:Es; cbn [Py.bind].
    2:{ apply comparable_kinds in Es. destruct Es as [Hne ->]. right; right.
        split; [reflexivity|]. apply (Hcmp s); auto. }
    apply comparable_ok in Es. destruct Es as [_ ->].
    rewrite comparable_own. cbn [Py.bind].
    right; left. rewrite filter_none; [reflexivity|].
    intros r Hr. apply andb_false_iff.
    destruct (Z.leb_spec (instant s) (Datetime r)); [|now left].
    exfalso. apply (Hdft r Hr). split; [intros ? [= <-]; lia|discriminate].
  - destruct (py_min (map Datetime dft)) as [m|x] eqn:Hm; cbn [Py.bind].
    2:{ left. now rewrite (py_min_kinds _ _ Hm). }
    rewrite comparable_own. cbn [Py.bind].
    destruct (comparable tz e) as [e'|x] eqn:Ee; cbn [Py.bind].
    2:{ apply comparable_kinds in Ee. destruct Ee as [Hne ->]. right; right.
        split; [reflexivity|]. apply (Hcmp e); auto. }
    apply comparable_ok in Ee. destruct Ee as [_ ->].
    right; left. rewrite filter_none; [reflexivity|].
    intros r Hr. apply andb_false_iff.
    destruct (Z.ltb_spec (Datetime r) (instant e)); [|now right].
    exfalso. apply (Hdft r Hr). split; [discriminate|intros ? [= <-]; lia].
  - destruct dft as [|r0 l] eqn:E.
    + left. reflexivity.
    + exfalso. apply (Hdft r0 (or_introl eq_refl)). split; discriminate.
Qed.

Lemma load_raw_files_all_empty (data_path : string) (freq : Q) (sel : list FileRecord) :
  (forall r, In r sel -> read_csv (path_join data_path (Filename r)) = Ok []) ->
  load_raw_files data_path freq sel = Ok [].
Proof.
  induction sel as [|r sel IH]; intros H; simpl; [reflexivity|].
  rewrite (H r (or_introl eq_refl)). simpl. apply IH. intros r' Hr'. apply H. now right.
Qed.

(** C6, as the code has it: a build for which no file record is
    wanted fails in the load step and assigns no attribute, so no stage
    exists afterwards.  When the inventory has to be built and cannot,
    the error is the one of its construction; otherwise it is Python's
    ValueError, or a TypeError when a bound that is given is not of the
    type of the dates of the inventory.  The kind is not one of its
    own: a build whose selected files all hold no row fails with the
    same ValueError. *)
Theorem load_without_data_fails_and_creates_no_stage
    node freq sTime eTime data_path lat lon call_sign inventory grape_nodes
    (self : GrapeData) :
  (forall inv r, resolve_inventory data_path inventory = Ok inv ->
                 In r (inv_df inv) -> ~ wanted node freq sTime eTime r)
  \/ (exists inv sel,
        resolve_inventory data_path inventory = Ok inv
        /\ load_raw_select inv node freq sTime eTime = Ok sel
        /\ forall r, In r sel -> read_csv (path_join data_path (Filename r)) = Ok []) ->
  exists e,
    load_raw node freq sTime eTime data_path lat lon call_sign inventory grape_nodes self
    = (Raise e, self)
    /\ (forall e', resolve_inventory data_path inventory = Raise e' -> e = e')
    /\ (forall inv, resolve_inventory data_path inventory = Ok inv ->
          e = ValueError
          \/ (e = TypeError /\ ~ comparable_bounds inv sTime eTime))
    /\ (forall inv sel, resolve_inventory data_path inventory = Ok inv ->
          load_raw_select inv node freq sTime eTime = Ok sel -> e = ValueError).
Proof.
  intros Hcase. unfold load_raw.
  destruct (resolve_inventory data_path inventory) as [inv|e0] eqn:Hinv; cbn [Py.bind].
  2:{ exists e0. split; [reflexivity|]. split; [|split].
      - intros e' H. now inversion H.
      - intros inv H. discriminate H.
      - intros inv sel H. discriminate H. }
  assert (Hsel : (load_raw_select inv node freq sTime eTime = Raise ValueError
                  \/ (load_raw_select inv node freq sTime eTime = Raise TypeError
                      /\ ~ comparable_bounds inv sTime eTime))
                 \/ exists sel, load_raw_select inv node freq sTime eTime = Ok sel
                      /\ load_raw_files data_path freq sel = Ok []).
  { destruct Hcase as [Hnone|(inv' & sel & Hinv' & Hsel & Hempty)].
    - destruct (select_without_match inv node freq sTime eTime
                  (fun r => Hnone inv r eq_refl)) as [H|[H|H]]; auto.
      right. exists []. auto.
    - injection Hinv' as <-. right. exists sel. split; [exact Hsel|].
      now apply load_raw_files_all_empty. }
  destruct Hsel as [[Hsel|[Hsel Hcmp]]|(sel & Hsel & Hfiles)]; rewrite Hsel; cbn [Py.bind].
  - exists ValueError. split; [reflexivity|].
    split; [intros e' H; discriminate H|].
    split; [auto|]. intros inv' sel' H. injection H as <-. rewrite Hsel. discriminate.
  - exists TypeError. split; [reflexivity|].
    split; [intros e' H; discriminate H|]. split.
    + intros inv' H. injection H as <-. auto.
    + intros inv' sel' H. injection H as <-. rewrite Hsel. discriminate.
  - rewrite Hfiles. cbn [Py.bind pd_concat].
    exists ValueError. split; [reflexivity|].
    split; [intros e' H; discriminate H|]. auto.
Qed.

(** C10: whenever the caller supplies a call sign, the call sign the
    label is built from is the empty string, whether or not a node
    table is given, and the label of a dataset that loads is the one
    of the frequency, the node and the empty call sign. *)
Theorem supplied_call_sign_is_discarded
    node freq sTime eTime data_path lat lon (call_sign : string) inventory grape_nodes
    (self self' : GrapeData) :
  load_raw node freq sTime eTime data_path lat lon (Some call_sign) inventory
    grape_nodes self = (Ok tt, self') ->
  load_raw_call_sign node (Some call_sign) grape_nodes = Ok ""
  /\ exists m, meta self' = Some m /\ meta_label m = format_label freq node "".
Proof.
  intros H. split; [reflexivity|].
  unfold load_raw in H.
  destruct (resolve_inventory _ _); [|discriminate]. simpl in H.
  destruct (load_raw_select _ _ _ _ _); [|discriminate]. simpl in H.
  destruct (load_raw_files _ _ _); [|discriminate]. simpl in H.
  destruct (pd_concat _); [|discriminate]. simpl in H.
  destruct (load_raw_coordinate node lat _ _); [|discriminate]. simpl in H.
  destruct (load_raw_coordinate node lon _ _); [|discriminate]. simpl in H.
  inversion H; subst. eexists. split; reflexivity.
Qed.

End LoadFacts.

Lemma load_without_data_fails_and_creates_no_stage_witness :
  exists e,
    @grape1.load_raw demo.L 99 10e6 (Some (demo.utc demo.day1))
      (Some (demo.utc demo.day2)) "data" None None None (Some demo.inventory) None
      grape1.new_object
    = (Raise e, grape1.new_object)
    /\ (forall e', @grape1.resolve_inventory demo.L "data" (Some demo.inventory)
                   = Raise e' -> e = e')
    /\ (forall inv, @grape1.resolve_inventory demo.L "data" (Some demo.inventory)
                    = Ok inv ->
          e = ValueError
          \/ (e = TypeError
              /\ ~ stated.comparable_bounds inv (Some (demo.utc demo.day1))
                     (Some (demo.utc demo.day2))))
    /\ (forall inv sel,
          @grape1.resolve_inventory demo.L "data" (Some demo.inventory) = Ok inv ->
          grape1.load_raw_select inv 99 10e6 (Some (demo.utc demo.day1))
            (Some (demo.utc demo.day2)) = Ok sel ->
          e = ValueError).
Proof.
  apply (@load_without_data_fails_and_creates_no_stage demo.L 99 10e6
           (Some (demo.utc demo.day1)) (Some (demo.utc demo.day2)) "data" None None None
           (Some demo.inventory) None grape1.new_object).
  left. intros inv r Hinv. inversion Hinv; subst inv.
  intros [<-|[<-|[<-|[]]]] (Hn & _); vm_compute in Hn; discriminate.
Defined.

(** C6 as stated fails: the build for node 99, which has no file,
    does not end in a NoDataFound error but in a ValueError, and so does
    the build for node 13 over files that hold no row; with a start that
    has no time zone the build for node 99 ends in a TypeError, and over
    a directory without a file in an AttributeError. *)
Lemma no_match_is_not_a_kind_of_its_own :
  fst (@grape1.load_raw demo.L 99 10e6 (Some (demo.utc demo.day1))
         (Some (demo.utc demo.day2)) "data" None None None (Some demo.inventory) None
         grape1.new_object)
  = Raise ValueError
  /\ Raise (A := unit) ValueError <> Raise (OtherError "NoDataFound")
  /\ fst (@grape1.load_raw demo.L_empty_files 13 10e6 (Some (demo.utc demo.day1))
            (Some (demo.utc (demo.day2 + 1))) "data" None None None
            (Some demo.inventory) None grape1.new_object)
     = Raise ValueError
  /\ @grape1.load_raw demo.L 99 10e6 (Some (demo.naive demo.day1))
       (Some (demo.utc demo.day2)) "data" None None None (Some demo.inventory) None
       grape1.new_object
     = (Raise TypeError, grape1.new_object)
  /\ @grape1.load_raw demo.L_empty_directory 99 10e6 None None "data" None None None
       None None grape1.new_object
     = (Raise AttributeError, grape1.new_object).
Proof.
  split; [vm_compute; reflexivity|]. split; [discriminate|].
  repeat split; vm_compute; reflexivity.
Qed.

Lemma supplied_call_sign_is_discarded_witness :
  grape1.load_raw_call_sign 13 (Some "W2NAF") (Some demo.registry) = Ok ""
  /\ exists m,
       grape1.meta
         (snd (@grape1.load_raw demo.L 13 10e6 None None "data" None None
                 (Some "W2NAF") None (Some demo.registry) grape1.new_object)) = Some m
       /\ grape1.meta_label m = @grape1.format_label demo.L 10e6 13 "".
Proof.
  apply (@supplied_call_sign_is_discarded demo.L 13 10e6 None None "data" None None
           "W2NAF" None (Some demo.registry) grape1.new_object).
  vm_compute; reflexivity.
Defined.

(** ** GrapeData: the resampling grid *)

Section GridFacts.
Import grape1 grape1_rest stated.
Local Open Scope list_scope.

Lemma dates_loop_steps (n : nat) :
  forall (fuel : nat) (acc : list timestamp) (last e rate : Z),
    (n <= fuel)%nat ->
    (forall k, (k < n)%nat -> last + Z.of_nat k * rate < e) ->
    e <= last + Z.of_nat n * rate ->
    dates_loop fuel acc last e rate
    = Some (acc ++ map (fun k => last + Z.of_nat k * rate) (seq 1 n)).
Proof.
  induction n as [|n IH]; intros fuel acc last e rate Hfuel Hlt Hge.
  - assert (E : (last <? e) = false) by (apply Z.ltb_ge; lia).
    destruct fuel; simpl; rewrite E, app_nil_r; reflexivity.
  - assert (E : (last <? e) = true).
    { apply Z.ltb_lt. specialize (Hlt O). simpl in Hlt. lia. }
    destruct fuel as [|fuel]; [lia|]. cbn [dates_loop]. rewrite E.
    rewrite (IH fuel (acc ++ [last + rate]) (last + rate) e rate).
    + rewrite <- app_assoc. cbn [app seq map]. do 3 f_equal.
      * lia.
      * rewrite <- (seq_shift n 1), map_map. apply map_ext. intros k. lia.
    + lia.
    + intros k Hk. specialize (Hlt (S k)). lia.
    + lia.
Qed.

(** Adding a time that is not negative to a time keeps within the
    range of [datetime] as long as the sum is not above its end. *)
Lemma datetime_add_within (t rate : Z) :
  0 <= rate -> t + rate <= datetime_max -> datetime_add t rate = Ok (t + rate).
Proof.
  intros Hr Hmax. unfold datetime_add, is_datetime.
  destruct (datetime_min <=? t) eqn:E1; [|reflexivity].
  destruct (t <=? datetime_max) eqn:E2; [|reflexivity].
  apply Z.leb_le in E1.
  rewrite (proj2 (Z.leb_le datetime_min (t + rate))) by lia.
  rewrite (proj2 (Z.leb_le (t + rate) datetime_max)) by lia.
  reflexivity.
Qed.

Lemma datetime_add_ok (t rate x : Z) : datetime_add t rate = Ok x -> x = t + rate.
Proof.
  unfold datetime_add. destruct (_ && _); [discriminate|]. intros H. now inversion H.
Qed.

Lemma datetime_add_kinds (t rate : Z) (e : exn) :
  datetime_add t rate = Raise e ->
  e = OverflowError /\ is_datetime t = true /\ is_datetime (t + rate) = false.
Proof.
  unfold datetime_add. destruct (is_datetime t); cbn [andb]; [|discriminate].
  destruct (is_datetime (t + rate)); cbn [negb]; [discriminate|].
  intros H. inversion H. auto.
Qed.

Lemma datetime_add_zero (t : Z) : datetime_add t 0 = Ok t.
Proof.
  unfold datetime_add. rewrite Z.add_0_r.
  destruct (is_datetime t); reflexivity.
Qed.

(** The loop of the resampling times, as long as the times stay within
    the range of [datetime]. *)
Lemma rs_times_loop_steps (n : nat) :
  forall (fuel : nat) (acc : list timestamp) (last e rate : Z),
    (n <= fuel)%nat -> 0 <= rate ->
    (forall k, (k < n)%nat -> last + Z.of_nat k * rate < e) ->
    e <= last + Z.of_nat n * rate ->
    last + Z.of_nat n * rate <= datetime_max ->
    rs_times_loop fuel acc last e rate
    = Some (Ok (acc ++ map (fun k => last + Z.of_nat k * rate) (seq 1 n))).
Proof.
  induction n as [|n IH]; intros fuel acc last e rate Hfuel Hr Hlt Hge Hmax.
  - assert (E : (last <? e) = false) by (apply Z.ltb_ge; lia).
    destruct fuel; simpl; rewrite E, app_nil_r; reflexivity.
  - assert (E : (last <? e) = true).
    { apply Z.ltb_lt. specialize (Hlt O). simpl in Hlt. lia. }
    destruct fuel as [|fuel]; [lia|]. cbn [rs_times_loop]. rewrite E.
    rewrite datetime_add_within by nia. cbv beta iota.
    rewrite (IH fuel _ (last + rate) e rate).
    + rewrite <- app_assoc. cbn [app seq map]. do 4 f_equal.
      * lia.
      * rewrite <- (seq_shift n 1), map_map. apply map_ext. intros k. lia.
    + lia.
    + exact Hr.
    + intros k Hk. specialize (Hlt (S k)). lia.
    + lia.
    + lia.
Qed.

(** A time plus the rate is past the end of the range of [datetime]
    before the loop has come to its end: an OverflowError. *)
Lemma rs_times_loop_overflow (n : nat) :
  forall (fuel : nat) (acc : list timestamp) (last e rate : Z),
    (n <= fuel)%nat -> 0 < rate -> is_datetime last = true ->
    (forall k, (k < n)%nat -> last + Z.of_nat k * rate < e) ->
    datetime_max < last + Z.of_nat n * rate ->
    rs_times_loop fuel acc last e rate = Some (Raise OverflowError).
Proof.
  induction n as [|n IH]; intros fuel acc last e rate Hfuel Hr Hd Hlt Hmax.
  - unfold is_datetime in Hd. apply andb_true_iff in Hd. destruct Hd as [_ Hd].
    apply Z.leb_le in Hd. lia.
  - assert (E : (last <? e) = true).
    { apply Z.ltb_lt. specialize (Hlt O). simpl in Hlt. lia. }
    destruct fuel as [|fuel]; [lia|]. cbn [rs_times_loop]. rewrite E.
    unfold datetime_add. rewrite Hd. cbn [andb].
    destruct (is_datetime (last + rate)) eqn:Hd'; cbn [negb]; [|reflexivity].
    apply (IH fuel); auto.
    + lia.
    + intros k Hk. specialize (Hlt (S k)). lia.
    + lia.
Qed.

(** The loop comes to an end once the fuel covers the steps to the end
    time. *)
Lemma rs_times_loop_ends (n : nat) :
  forall (fuel : nat) (acc : list timestamp) (last e rate : Z),
    (n <= fuel)%nat -> e <= last + Z.of_nat n * rate ->
    exists r, rs_times_loop fuel acc last e rate = Some r.
Proof.
  induction n as [|n IH]; intros fuel acc last e rate Hfuel Hge.
  - assert (E : (last <? e) = false) by (apply Z.ltb_ge; lia).
    destruct fuel; simpl; rewrite E; eexists; reflexivity.
  - destruct fuel as [|fuel]; [lia|]. cbn [rs_times_loop].
    destruct (last <? e); [|eexists; reflexivity].
    destruct (datetime_add last rate) as [next|x] eqn:Ea; [|eexists; reflexivity].
    apply datetime_add_ok in Ea. subst next. apply IH; lia.
Qed.

Lemma rs_times_loop_more_fuel (fuel : nat) :
  forall (acc : list timestamp) (last e rate : Z) (r : result (list timestamp)),
    rs_times_loop fuel acc last e rate = Some r ->
    rs_times_loop (S fuel) acc last e rate = Some r.
Proof.
  induction fuel as [|fuel IH]; intros acc last e rate r H.
  - cbn [rs_times_loop] in *. destruct (last <? e); [discriminate|exact H].
  - cbn [rs_times_loop] in H. cbn [rs_times_loop].
    destruct (last <? e); [|exact H].
    destruct (datetime_add last rate); [|exact H]. apply IH in H. exact H.
Qed.

Lemma rs_times_loop_add_fuel (k fuel : nat) acc last e rate r :
  rs_times_loop fuel acc last e rate = Some r ->
  rs_times_loop (k + fuel) acc last e rate = Some r.
Proof.
  induction k as [|k IH]; intros H; [exact H|].
  apply rs_times_loop_more_fuel. now apply IH.
Qed.

(** A loop that ends without an error has built what the loop without
    the range of [datetime] builds. *)
Lemma rs_times_loop_dates (fuel : nat) :
  forall (acc : list timestamp) (last e rate : Z) (g : list timestamp),
    rs_times_loop fuel acc last e rate = Some (Ok g) ->
    dates_loop fuel acc last e rate = Some g.
Proof.
  induction fuel as [|fuel IH]; intros acc last e rate g H.
  - cbn [rs_times_loop dates_loop] in *. destruct (last <? e); [discriminate|].
    now inversion H.
  - cbn [rs_times_loop dates_loop] in *. destruct (last <? e); [|now inversion H].
    destruct (datetime_add last rate) as [next|x] eqn:Ea; [|discriminate].
    apply datetime_add_ok in Ea. subst next. now apply IH.
Qed.

Lemma steps_spec (s e rate : Z) :
  0 < rate ->
  (forall k, (k < steps s e rate)%nat -> s + Z.of_nat k * rate < e)
  /\ e <= s + Z.of_nat (steps s e rate) * rate.
Proof.
  intros Hr. unfold steps.
  pose proof (Z.div_mod (e - s + rate - 1) rate ltac:(lia)) as Hdm.
  pose proof (Z.mod_pos_bound (e - s + rate - 1) rate Hr) as Hm.
  set (q := (e - s + rate - 1) / rate) in *.
  destruct (Z.le_gt_cases 0 q) as [Hq|Hq].
  - split.
    + intros k Hk. assert (Z.of_nat k <= q - 1) by lia. nia.
    + rewrite Z2Nat.id by lia. nia.
  - replace (Z.to_nat q) with O by lia. split; [intros k Hk; lia|]. nia.
Qed.

(** With a positive rate and fuel for its number of steps the loop
    ends, and what it has built is the arithmetic sequence from the
    start. *)
Lemma dates_loop_grid (fuel : nat) (s e rate : Z) :
  0 < rate -> (steps s e rate <= fuel)%nat ->
  dates_loop fuel [s] s e rate = Some (grid s rate (S (steps s e rate))).
Proof.
  intros Hr Hfuel. destruct (steps_spec s e rate Hr) as [Hlt Hge].
  rewrite (dates_loop_steps (steps s e rate)); auto.
  unfold grid. simpl. do 2 f_equal. lia.
Qed.

Lemma rs_times_loop_grid (fuel : nat) (s e rate : Z) :
  0 < rate -> (steps s e rate <= fuel)%nat ->
  s + Z.of_nat (steps s e rate) * rate <= datetime_max ->
  rs_times_loop fuel [s] s e rate = Some (Ok (grid s rate (S (steps s e rate)))).
Proof.
  intros Hr Hfuel Hmax. destruct (steps_spec s e rate Hr) as [Hlt Hge].
  rewrite (rs_times_loop_steps (steps s e rate)); auto; [|lia].
  unfold grid. simpl. do 3 f_equal. lia.
Qed.

Lemma grid_nth (s rate : Z) (n k : nat) (t : timestamp) :
  nth_error (grid s rate n) k = Some t ->
  (k < n)%nat /\ t = s + Z.of_nat k * rate.
Proof.
  intros H.
  assert (Hk : (k < List.length (grid s rate n))%nat)
    by (apply nth_error_Some; rewrite H; discriminate).
  unfold grid in *. rewrite length_map, length_seq in Hk.
  split; [exact Hk|].
  rewrite nth_error_map, nth_error_seq in H.
  destruct (Nat.ltb_spec k n); [|lia]. simpl in H. now inversion H.
Qed.

(** Consecutive times of a grid are one rate apart. *)
Lemma grid_spacing (s rate : Z) (n k : nat) (t t' : timestamp) :
  nth_error (grid s rate n) k = Some t ->
  nth_error (grid s rate n) (S k) = Some t' ->
  t' - t = rate.
Proof.
  intros H H'. apply grid_nth in H, H'. lia.
Qed.

Lemma dates_loop_more_fuel (fuel : nat) :
  forall (acc : list timestamp) (last e rate : Z) (g : list timestamp),
    dates_loop fuel acc last e rate = Some g ->
    dates_loop (S fuel) acc last e rate = Some g.
Proof.
  induction fuel as [|fuel IH]; intros acc last e rate g H.
  - cbn [dates_loop] in *. destruct (last <? e); [discriminate|exact H].
  - cbn [dates_loop] in H. cbn [dates_loop].
    destruct (last <? e); [|exact H]. apply IH in H. exact H.
Qed.

Lemma dates_loop_add_fuel (k fuel : nat) acc last e rate g :
  dates_loop fuel acc last e rate = Some g ->
  dates_loop (k + fuel) acc last e rate = Some g.
Proof.
  induction k as [|k IH]; intros H; [exact H|].
  apply dates_loop_more_fuel. now apply IH.
Qed.

(** Whatever the fuel, a loop that ends without an error has built the
    grid. *)
Lemma rs_times_loop_result (fuel : nat) (s e rate : Z) (g : list timestamp) :
  0 < rate ->
  rs_times_loop fuel [s] s e rate = Some (Ok g) ->
  g = grid s rate (S (steps s e rate)).
Proof.
  intros Hr H. apply rs_times_loop_dates in H.
  apply (dates_loop_add_fuel (steps s e rate)) in H.
  rewrite dates_loop_grid in H by (auto; lia). now inversion H.
Qed.

(** With a positive rate the outcome of the loop is one, whatever fuel
    it is given beyond the steps of the grid. *)
Lemma rs_times_loop_outcome (fuel fuel' : nat) (s e rate : Z) :
  0 < rate -> (steps s e rate <= fuel)%nat -> (steps s e rate <= fuel')%nat ->
  exists r, rs_times_loop fuel [s] s e rate = Some r
            /\ rs_times_loop fuel' [s] s e rate = Some r.
Proof.
  intros Hr Hf Hf'.
  destruct (rs_times_loop_ends (steps s e rate) (steps s e rate) [s] s e rate)
    as (r & H); [lia|apply (steps_spec s e rate Hr)|].
  exists r. split.
  - replace fuel with ((fuel - steps s e rate) + steps s e rate)%nat by lia.
    now apply rs_times_loop_add_fuel.
  - replace fuel' with ((fuel' - steps s e rate) + steps s e rate)%nat by lia.
    now apply rs_times_loop_add_fuel.
Qed.

Lemma grid_last_in (s rate : Z) (n : nat) :
  In (s + Z.of_nat n * rate) (grid s rate (S n)).
Proof.
  unfold grid. apply in_map_iff. exists n. split; [reflexivity|].
  apply in_seq. lia.
Qed.

Lemma in_grid (s rate : Z) (n : nat) (t : timestamp) :
  In t (grid s rate n) <-> exists k, (k < n)%nat /\ t = s + Z.of_nat k * rate.
Proof.
  unfold grid. rewrite in_map_iff. split.
  - intros (k & <- & Hk). apply in_seq in Hk. exists k. split; [lia|reflexivity].
  - intros (k & Hk & ->). exists k. split; [reflexivity|apply in_seq; lia].
Qed.

(** All times of the grid but the last are before the end. *)
Lemma grid_before_end (s e rate : Z) (k : nat) :
  0 < rate -> (k < steps s e rate)%nat -> s + Z.of_nat k * rate < e.
Proof. intros Hr. apply (steps_spec s e rate Hr). Qed.

Lemma grid_reaches_end (s e rate : Z) :
  0 < rate -> e <= s + Z.of_nat (steps s e rate) * rate.
Proof. intros Hr. apply (steps_spec s e rate Hr). Qed.

(** The last time of the grid is the end itself only when the rate
    divides the span. *)
Lemma grid_passes_end (s e rate : Z) :
  0 < rate -> s <= e -> (e - s) mod rate <> 0 ->
  e < s + Z.of_nat (steps s e rate) * rate.
Proof.
  intros Hr Hse Hmod.
  pose proof (grid_reaches_end s e rate Hr) as Hge.
  destruct (Z.eq_dec e (s + Z.of_nat (steps s e rate) * rate)) as [Heq|Hne]; [|lia].
  exfalso. apply Hmod.
  replace (e - s) with (Z.of_nat (steps s e rate) * rate) by lia.
  apply Z.mod_mul. lia.
Qed.

End GridFacts.

(** ** GrapeData: resampling *)

Section ResampleFacts.
Import grape1 stated.
Context {L : Lib}.
Local Open Scope list_scope.

Lemma by_abscissa_total (p1 p2 : Q * Q) :
  by_abscissa p1 p2 = true \/ by_abscissa p2 p1 = true.
Proof.
  unfold by_abscissa. rewrite !Qle_bool_iff.
  destruct (Qlt_le_dec (fst p1) (fst p2)); [left; now apply Qlt_le_weak|now right].
Qed.

Lemma by_abscissa_trans (p1 p2 p3 : Q * Q) :
  by_abscissa p1 p2 = true -> by_abscissa p2 p3 = true -> by_abscissa p1 p3 = true.
Proof. unfold by_abscissa. rewrite !Qle_bool_iff. apply Qle_trans. Qed.

Lemma map_fst_combine {A B : Type} (l : list A) (l' : list B) :
  List.length l' = List.length l -> map fst (combine l l') = l.
Proof.
  revert l'; induction l as [|x l IH]; intros [|y l'] H; simpl in *;
    try discriminate; [reflexivity|]. f_equal. apply IH. lia.
Qed.

Lemma sorted_last_greatest (l : list (Q * Q)) (d : Q * Q) :
  StronglySorted (fun u v => by_abscissa u v = true) l ->
  forall p, In p l -> by_abscissa p (List.last l d) = true.
Proof.
  induction 1 as [|x l Hs IH Hx]; intros p Hp; [destruct Hp|].
  destruct l as [|y l].
  - destruct Hp as [->|[]]. simpl. unfold by_abscissa. apply Qle_bool_iff, Qle_refl.
  - change (List.last (x :: y :: l) d) with (List.last (y :: l) d).
    destruct Hp as [->|Hp]; [|now apply IH].
    rewrite Forall_forall in Hx.
    eapply by_abscissa_trans; [apply (Hx y); now left|]. apply IH. now left.
Qed.

Lemma existsb_none {A : Type} (f : A -> bool) (l : list A) :
  (forall x, In x l -> f x = false) -> existsb f l = false.
Proof.
  induction l as [|x l IH]; intros H; simpl; [reflexivity|].
  rewrite (H x (or_introl eq_refl)). apply IH. intros y Hy. apply H. now right.
Qed.

(** What [interp1d] holds for a series that passes its checks: the
    points sorted by abscissa, as many as the series has. *)
Lemma interp1d_ok (x y : list Q) (f : list (Q * Q)) :
  interp1d x y = Ok f ->
  List.length y = List.length x
  /\ f = sort_by by_abscissa (combine x y)
  /\ List.length f = List.length x.
Proof.
  unfold interp1d. destruct (Nat.eqb_spec (List.length x) (List.length y)) as [E|E];
    simpl; [|discriminate].
  destruct (Nat.ltb _ _); [discriminate|]. intros H. inversion H; subst; clear H.
  split; [auto|]. split; [reflexivity|].
  rewrite sort_by_length, length_combine. lia.
Qed.

(** A failure of the interpolation of one column is a ValueError. *)
Lemma resample_column_kinds (jd values rs_jd : list Q) (e : exn) :
  jd <> [] -> resample_column jd values rs_jd = Raise e -> e = ValueError.
Proof.
  intros Hne. unfold resample_column.
  destruct (interp1d jd values) as [f|e'] eqn:Hi; simpl.
  - apply interp1d_ok in Hi. destruct Hi as (_ & _ & Hlen).
    destruct f as [|[x0 y0] f'].
    + destruct jd; [congruence|discriminate].
    + unfold interp1d_call. destruct (existsb _ _); [congruence|].
      destruct (existsb _ _); [congruence|discriminate].
  - intros H. inversion H; subst. unfold interp1d in Hi.
    destruct (negb _); [congruence|]. destruct (Nat.ltb _ _); [congruence|discriminate].
Qed.

(** The interpolation of one column succeeds as soon as every target
    is covered by the series; the order of the series and repeated
    times play no part. *)
Lemma resample_column_covered (jd values rs_jd : list Q) :
  List.length values = List.length jd ->
  (interp1d_min_entries <= List.length jd)%nat ->
  jd <> [] ->
  (forall q, In q rs_jd -> covered jd q) ->
  exists vals, resample_column jd values rs_jd = Ok vals
               /\ List.length vals = List.length rs_jd.
Proof.
  intros Hlen Hmin Hne Hcov. unfold resample_column, interp1d.
  rewrite Hlen, Nat.eqb_refl. simpl.
  destruct (Nat.ltb_spec (List.length jd) interp1d_min_entries); [lia|]. simpl.
  fold by_abscissa.
  pose proof (sort_by_perm by_abscissa (combine jd values)) as Hperm.
  pose proof (sort_by_sorted by_abscissa by_abscissa_total by_abscissa_trans
                (combine jd values)) as Hsorted.
  assert (Hin : forall a, In a jd -> exists p,
             In p (sort_by by_abscissa (combine jd values)) /\ fst p = a).
  { intros a Ha. rewrite <- (map_fst_combine jd values Hlen) in Ha.
    apply in_map_iff in Ha. destruct Ha as (p & Hp & Hin). exists p. split; [|exact Hp].
    apply (Permutation_in _ (Permutation_sym Hperm)). exact Hin. }
  destruct (sort_by by_abscissa (combine jd values)) as [|[x0 y0] f'] eqn:Ef.
  - destruct jd as [|a jd']; [congruence|].
    destruct (Hin a (or_introl eq_refl)) as (p & [] & _).
  - unfold interp1d_call.
    rewrite existsb_none.
    + rewrite existsb_none.
      * eexists. split; [reflexivity|]. apply length_map.
      * intros q Hq. apply negb_false_iff, Qle_bool_iff.
        destruct (Hcov q Hq) as [_ (b & Hb & Hqb)].
        destruct (Hin b Hb) as (p & Hp & <-).
        eapply Qle_trans; [exact Hqb|].
        apply Qle_bool_iff.
        exact (sorted_last_greatest _ (x0, 0%Q) Hsorted p Hp).
    + intros q Hq. apply negb_false_iff, Qle_bool_iff.
      destruct (Hcov q Hq) as [(a & Ha & Haq) _].
      destruct (Hin a Ha) as (p & Hp & <-).
      eapply Qle_trans; [|exact Haq].
      destruct Hp as [<-|Hp]; [apply Qle_refl|].
      inversion Hsorted as [|? ? _ Hall]; subst.
      rewrite Forall_forall in Hall. apply Qle_bool_iff. exact (Hall p Hp).
Qed.

Lemma drop_subsecond_mono (t t' : timestamp) :
  t <= t' -> drop_subsecond t <= drop_subsecond t'.
Proof.
  unfold drop_subsecond. intros H.
  pose proof (Z.div_mod t 1000000000 ltac:(lia)).
  pose proof (Z.div_mod t' 1000000000 ltac:(lia)).
  pose proof (Z.div_le_mono t t' 1000000000 ltac:(lia) H). lia.
Qed.

Lemma resample_start_le_end (frame : DataFrame) :
  resample_start frame <= resample_end frame.
Proof.
  unfold resample_start, resample_end. apply drop_subsecond_mono.
  destruct (UTC frame) as [|t ts]; simpl; [lia|].
  pose proof (fold_min_init ts t). pose proof (fold_max_init ts t). lia.
Qed.

(** What a frame that resamples has gone through. *)
Lemma resample_frame_ok (fuel : nat) (rate : Z) (frame out : DataFrame) :
  resample_frame fuel rate frame = Some (Ok out) ->
  let jd := map to_julian_date (UTC frame) in
  let rs_jd := map to_julian_date (UTC out) in
  UTC frame <> []
  /\ rs_times_loop fuel [resample_start frame] (resample_start frame)
       (resample_end frame) rate = Some (Ok (UTC out))
  /\ forallb is_Timestamp (UTC out) = true
  /\ resample_column jd (Freq frame) rs_jd = Ok (Freq out)
  /\ resample_column jd (Vpk frame) rs_jd = Ok (Vpk out)
  /\ match Power_dB frame with
     | None => Power_dB out = None
     | Some values =>
         exists vp, resample_column jd values rs_jd = Ok vp /\ Power_dB out = Some vp
     end
  /\ UTC_is_datetime64 out = true.
Proof.
  unfold resample_frame, resample_start, resample_end.
  destruct (UTC frame) as [|t ts]; [destruct (UTC_is_datetime64 frame); discriminate|].
  cbn [least greatest]. cbv zeta.
  destruct (rs_times_loop _ _ _ _ _) as [[g|]|] eqn:Hg; [|discriminate|discriminate].
  intros H. injection H as H. unfold pd_to_datetime in H.
  destruct (forallb is_Timestamp g) eqn:Hb; [|discriminate]. cbn [Py.bind] in H.
  destruct (resample_column _ (Freq frame) _) as [vf|] eqn:Ef; [|discriminate].
  cbn [Py.bind] in H.
  destruct (resample_column _ (Vpk frame) _) as [vv|] eqn:Ev; [|discriminate].
  cbn [Py.bind] in H.
  destruct (Power_dB frame) as [values|]; cbn [Py.bind] in H.
  - destruct (resample_column _ values _) as [vp|] eqn:Ep; [|discriminate].
    cbn [Py.bind] in H. injection H as <-. cbn [UTC Freq Vpk Power_dB UTC_is_datetime64].
    repeat (split; [first [assumption|reflexivity|discriminate]|]).
    split; [|reflexivity]. exists vp. auto.
  - injection H as <-. cbn [UTC Freq Vpk Power_dB UTC_is_datetime64].
    repeat (split; [first [assumption|reflexivity|discriminate]|]). reflexivity.
Qed.

(** A frame that resamples carries the grid from the truncated first
    time, one rate apart, up to the first grid time not before the
    truncated last time. *)
Lemma resample_frame_times (fuel : nat) (rate : Z) (frame out : DataFrame) :
  0 < rate ->
  resample_frame fuel rate frame = Some (Ok out) ->
  UTC out = grid (resample_start frame) rate
              (S (steps (resample_start frame) (resample_end frame) rate)).
Proof.
  intros Hr H. destruct (resample_frame_ok _ _ _ _ H) as (_ & Hg & _).
  now apply rs_times_loop_result in Hg.
Qed.

(** C1, where the code departs from it: the loop appends one more time
    whenever the last one is before the truncated end, so when the
    cadence does not divide the truncated span, a frame that resamples
    holds a time after the truncated last input time. *)
Theorem resample_grid_passes_truncated_end
    (fuel : nat) (rate : Z) (frame out : DataFrame) :
  0 < rate ->
  (resample_end frame - resample_start frame) mod rate <> 0 ->
  resample_frame fuel rate frame = Some (Ok out) ->
  exists t, In t (UTC out) /\ resample_end frame < t.
Proof.
  intros Hr Hmod H. rewrite (resample_frame_times fuel rate frame out Hr H).
  eexists. split; [apply grid_last_in|].
  apply grid_passes_end; auto. apply resample_start_le_end.
Qed.

Lemma resample_frame_empty (fuel : nat) (rate : Z) (frame : DataFrame) :
  UTC frame = [] ->
  resample_frame fuel rate frame
  = Some (Raise (if UTC_is_datetime64 frame then TypeError else AttributeError)).
Proof.
  unfold resample_frame. intros ->. destruct (UTC_is_datetime64 frame); reflexivity.
Qed.

Lemma rs_times_loop_kinds (fuel : nat) :
  forall (acc : list timestamp) (last e rate : Z) (x : exn),
    rs_times_loop fuel acc last e rate = Some (Raise x) -> x = OverflowError.
Proof.
  induction fuel as [|fuel IH]; intros acc last e rate x H; cbn [rs_times_loop] in H.
  - destruct (last <? e); discriminate.
  - destruct (last <? e); [|discriminate].
    destruct (datetime_add last rate) as [next|x'] eqn:Ea.
    + now apply IH in H.
    + apply datetime_add_kinds in Ea. destruct Ea as [-> _]. now inversion H.
Qed.

(** The failures of resampling a frame with rows. *)
Lemma resample_frame_kinds (fuel : nat) (rate : Z) (frame : DataFrame) (e : exn) :
  UTC frame <> [] -> resample_frame fuel rate frame = Some (Raise e) ->
  e = ValueError \/ e = OverflowError \/ e = OtherError "OutOfBoundsDatetime".
Proof.
  unfold resample_frame. intros Hne.
  assert (Hjd : map to_julian_date (UTC frame) <> []).
  { intros E. apply map_eq_nil in E. contradiction. }
  destruct (UTC frame) as [|t ts] eqn:Hu; [congruence|]. rewrite <- Hu in *.
  destruct (rs_times_loop _ _ _ _ _) as [[g|x]|] eqn:Hg; [| |discriminate].
  2:{ intros H. injection H as <-. right; left. eapply rs_times_loop_kinds; eauto. }
  intros H. injection H as H. unfold pd_to_datetime in H.
  destruct (forallb is_Timestamp g); cbn [Py.bind] in H;
    [|injection H as <-; auto].
  left.
  destruct (resample_column _ (Freq frame) _) eqn:E1; cbn [Py.bind] in H;
    [|injection H as <-; eapply resample_column_kinds; eauto].
  destruct (resample_column _ (Vpk frame) _) eqn:E2; cbn [Py.bind] in H;
    [|injection H as <-; eapply resample_column_kinds; eauto].
  destruct (Power_dB frame) as [values|]; cbn [Py.bind] in H.
  - destruct (resample_column _ values _) eqn:E3; cbn [Py.bind] in H; [discriminate|].
    injection H as <-; eapply resample_column_kinds; eauto.
  - discriminate H.
Qed.

(** Once the grid is built, a failure is one of [pd.to_datetime] or of
    the interpolation, and there is an outcome. *)
Lemma resample_frame_grid_kinds (fuel : nat) (rate : Z) (frame : DataFrame)
    (g : list timestamp) (e : exn) :
  UTC frame <> [] ->
  rs_times_loop fuel [resample_start frame] (resample_start frame)
    (resample_end frame) rate = Some (Ok g) ->
  resample_frame fuel rate frame = Some (Raise e) ->
  e = ValueError \/ e = OtherError "OutOfBoundsDatetime".
Proof.
  intros Hne Hg H.
  assert (Hjd : map to_julian_date (UTC frame) <> []).
  { intros E. apply map_eq_nil in E. contradiction. }
  unfold resample_frame in H.
  destruct (UTC frame) as [|t ts] eqn:Hu; [congruence|]. cbv beta iota zeta in H.
  assert (Es : drop_subsecond (fold_left Z.min ts t) = resample_start frame)
    by (unfold resample_start, least; rewrite Hu; reflexivity).
  assert (Ee : drop_subsecond (fold_left Z.max ts t) = resample_end frame)
    by (unfold resample_end, greatest; rewrite Hu; reflexivity).
  rewrite Es, Ee, Hg in H. rewrite <- Hu in *.
  injection H as H. unfold pd_to_datetime in H.
  destruct (forallb is_Timestamp g); cbn [Py.bind] in H;
    [|injection H as <-; auto].
  left.
  destruct (resample_column _ (Freq frame) _) eqn:E1; cbn [Py.bind] in H;
    [|injection H as <-; eapply resample_column_kinds; eauto].
  destruct (resample_column _ (Vpk frame) _) eqn:E2; cbn [Py.bind] in H;
    [|injection H as <-; eapply resample_column_kinds; eauto].
  destruct (Power_dB frame) as [values|]; cbn [Py.bind] in H.
  - destruct (resample_column _ values _) eqn:E3; cbn [Py.bind] in H; [discriminate|].
    injection H as <-; eapply resample_column_kinds; eauto.
  - discriminate H.
Qed.

Lemma resample_frame_grid_ends (fuel : nat) (rate : Z) (frame : DataFrame)
    (r : result (list timestamp)) :
  rs_times_loop fuel [resample_start frame] (resample_start frame)
    (resample_end frame) rate = Some r ->
  resample_frame fuel rate frame <> None.
Proof.
  intros Hg. unfold resample_frame.
  destruct (UTC frame) as [|t ts] eqn:Hu;
    [destruct (UTC_is_datetime64 frame); discriminate|].
  cbv beta iota zeta.
  assert (Es : drop_subsecond (fold_left Z.min ts t) = resample_start frame)
    by (unfold resample_start, least; rewrite Hu; reflexivity).
  assert (Ee : drop_subsecond (fold_left Z.max ts t) = resample_end frame)
    by (unfold resample_end, greatest; rewrite Hu; reflexivity).
  rewrite Es, Ee, Hg. destruct r; discriminate.
Qed.

Lemma is_datetime_of_Timestamp (t : Z) : is_Timestamp t = true -> is_datetime t = true.
Proof.
  unfold is_Timestamp, is_datetime. rewrite !andb_true_iff, !Z.leb_le.
  unfold Timestamp_min, Timestamp_max, datetime_min, datetime_max. lia.
Qed.

Lemma resample_frame_covered (fuel : nat) (rate : Z) (frame : DataFrame) :
  UTC frame <> [] -> 0 < rate ->
  (steps (resample_start frame) (resample_end frame) rate <= fuel)%nat ->
  well_formed frame ->
  (interp1d_min_entries <= List.length (UTC frame))%nat ->
  (forall t,
     In t (grid (resample_start frame) rate
             (S (steps (resample_start frame) (resample_end frame) rate))) ->
     is_Timestamp t = true
     /\ covered (map to_julian_date (UTC frame)) (to_julian_date t)) ->
  exists out, resample_frame fuel rate frame = Some (Ok out).
Proof.
  intros Hne Hr Hfuel (Hf & Hv & Hp) Hmin Hcov.
  assert (Hjd : map to_julian_date (UTC frame) <> []).
  { intros E. apply map_eq_nil in E. contradiction. }
  unfold resample_frame.
  destruct (UTC frame) as [|t ts] eqn:Hu; [congruence|]. cbv beta iota zeta.
  assert (Es : drop_subsecond (fold_left Z.min ts t) = resample_start frame)
    by (unfold resample_start, least; rewrite Hu; reflexivity).
  assert (Ee : drop_subsecond (fold_left Z.max ts t) = resample_end frame)
    by (unfold resample_end, greatest; rewrite Hu; reflexivity).
  rewrite Es, Ee. rewrite <- Hu in *.
  rewrite rs_times_loop_grid; [|exact Hr|exact Hfuel|].
  2:{ destruct (Hcov _ (grid_last_in (resample_start frame) rate
                          (steps (resample_start frame) (resample_end frame) rate)))
        as [Ht _].
      apply is_datetime_of_Timestamp in Ht. unfold is_datetime in Ht.
      apply andb_true_iff in Ht. destruct Ht as [_ Ht]. now apply Z.leb_le in Ht. }
  set (g := grid _ _ _) in *.
  unfold pd_to_datetime.
  rewrite (proj2 (forallb_forall is_Timestamp g)) by (intros t' Ht'; now apply Hcov).
  cbn [Py.bind].
  assert (Hq : forall q, In q (map to_julian_date g) ->
            covered (map to_julian_date (UTC frame)) q).
  { intros q Hq. apply in_map_iff in Hq. destruct Hq as (t' & <- & Ht').
    now apply Hcov. }
  destruct (resample_column_covered (map to_julian_date (UTC frame)) (Freq frame)
              (map to_julian_date g)) as (vf & -> & _);
    [rewrite length_map; exact Hf|rewrite length_map; exact Hmin|exact Hjd|exact Hq|].
  destruct (resample_column_covered (map to_julian_date (UTC frame)) (Vpk frame)
              (map to_julian_date g)) as (vv & -> & _);
    [rewrite length_map; exact Hv|rewrite length_map; exact Hmin|exact Hjd|exact Hq|].
  cbn [Py.bind]. destruct (Power_dB frame) as [values|]; cbn [Py.bind].
  - destruct (resample_column_covered (map to_julian_date (UTC frame)) values
                (map to_julian_date g)) as (vp & -> & _);
      [rewrite length_map; now apply Hp|rewrite length_map; exact Hmin
      |exact Hjd|exact Hq|].
    cbn [Py.bind]. eexists. reflexivity.
  - eexists. reflexivity.
Qed.

(** The two failures of the grid itself. *)
Lemma resample_frame_overflow (fuel : nat) (rate : Z) (frame : DataFrame) :
  UTC frame <> [] -> 0 < rate ->
  (steps (resample_start frame) (resample_end frame) rate <= fuel)%nat ->
  is_datetime (resample_start frame) = true ->
  datetime_max
  < resample_start frame
    + Z.of_nat (steps (resample_start frame) (resample_end frame) rate) * rate ->
  resample_frame fuel rate frame = Some (Raise OverflowError).
Proof.
  intros Hne Hr Hfuel Hd Hmax. unfold resample_frame.
  destruct (UTC frame) as [|t ts] eqn:Hu; [congruence|]. cbv beta iota zeta.
  assert (Es : drop_subsecond (fold_left Z.min ts t) = resample_start frame)
    by (unfold resample_start, least; rewrite Hu; reflexivity).
  assert (Ee : drop_subsecond (fold_left Z.max ts t) = resample_end frame)
    by (unfold resample_end, greatest; rewrite Hu; reflexivity).
  rewrite Es, Ee.
  rewrite (rs_times_loop_overflow
             (steps (resample_start frame) (resample_end frame) rate)); auto.
  intros k Hk. now apply grid_before_end.
Qed.

Lemma resample_frame_out_of_bounds (fuel : nat) (rate : Z) (frame : DataFrame) :
  UTC frame <> [] -> 0 < rate ->
  (steps (resample_start frame) (resample_end frame) rate <= fuel)%nat ->
  resample_start frame
  + Z.of_nat (steps (resample_start frame) (resample_end frame) rate) * rate
  <= datetime_max ->
  (exists t,
     In t (grid (resample_start frame) rate
             (S (steps (resample_start frame) (resample_end frame) rate)))
     /\ is_Timestamp t = false) ->
  resample_frame fuel rate frame = Some (Raise (OtherError "OutOfBoundsDatetime")).
Proof.
  intros Hne Hr Hfuel Hmax (t0 & Hin & Hno). unfold resample_frame.
  destruct (UTC frame) as [|t ts] eqn:Hu; [congruence|]. cbv beta iota zeta.
  assert (Es : drop_subsecond (fold_left Z.min ts t) = resample_start frame)
    by (unfold resample_start, least; rewrite Hu; reflexivity).
  assert (Ee : drop_subsecond (fold_left Z.max ts t) = resample_end frame)
    by (unfold resample_end, greatest; rewrite Hu; reflexivity).
  rewrite Es, Ee. rewrite rs_times_loop_grid by auto.
  unfold pd_to_datetime.
  destruct (forallb is_Timestamp _) eqn:Hb; [|reflexivity].
  rewrite forallb_forall in Hb. rewrite (Hb t0 Hin) in Hno. discriminate.
Qed.

(** C7, as the code has it: resampling a stage with no row fails with
    a TypeError when the time column is typed [datetime64] and with an
    AttributeError when it is not, handed to the caller with the object
    as it was; on a stage with rows a failure is the ValueError of the
    interpolation, the OverflowError of a grid time past the range of
    [datetime] or pandas' OutOfBoundsDatetime of a grid time that is
    no [Timestamp], the object again as it was, the last two being what
    a grid that leaves those ranges comes to; and on a stage with rows,
    with a positive cadence and whatever the order or the repetitions of
    its timestamps, resampling succeeds as soon as the series has the
    points [interp1d] asks for and every grid time is a [Timestamp] and
    is covered by the series. *)
Theorem resample_data_failure_kinds
    (fuel : nat) (rate : Z) (data_set_in data_set_out : string)
    (self : GrapeData) (d : dict stage) (st : stage) :
  data self = Some d ->
  dict_get d data_set_in = Ok st ->
  let s := resample_start (df st) in
  let n := steps (resample_start (df st)) (resample_end (df st)) rate in
  (UTC (df st) = [] ->
     resample_data fuel rate data_set_in data_set_out self
     = Some (Raise (if UTC_is_datetime64 (df st) then TypeError else AttributeError),
             self))
  /\ (UTC (df st) <> [] ->
       forall r self',
         resample_data fuel rate data_set_in data_set_out self = Some (r, self') ->
         r = Ok tt
         \/ ((r = Raise ValueError \/ r = Raise OverflowError
              \/ r = Raise (OtherError "OutOfBoundsDatetime"))
             /\ self' = self))
  /\ (UTC (df st) <> [] -> 0 < rate -> (n <= fuel)%nat ->
       is_datetime s = true -> datetime_max < s + Z.of_nat n * rate ->
       resample_data fuel rate data_set_in data_set_out self
       = Some (Raise OverflowError, self))
  /\ (UTC (df st) <> [] -> 0 < rate -> (n <= fuel)%nat ->
       s + Z.of_nat n * rate <= datetime_max ->
       (exists t, In t (grid s rate (S n)) /\ is_Timestamp t = false) ->
       resample_data fuel rate data_set_in data_set_out self
       = Some (Raise (OtherError "OutOfBoundsDatetime"), self))
  /\ (UTC (df st) <> [] -> 0 < rate -> (n <= fuel)%nat ->
       well_formed (df st) ->
       (interp1d_min_entries <= List.length (UTC (df st)))%nat ->
       (forall t,
          In t (grid s rate (S n)) ->
          is_Timestamp t = true
          /\ covered (map to_julian_date (UTC (df st))) (to_julian_date t)) ->
       exists self',
         resample_data fuel rate data_set_in data_set_out self = Some (Ok tt, self')).
Proof.
  intros Hd Hg s n. unfold resample_data. rewrite Hd. simpl. rewrite Hg.
  split; [|split; [|split; [|split]]].
  - intros Hu. rewrite (resample_frame_empty fuel rate (df st) Hu). reflexivity.
  - intros Hu r self' H.
    destruct (resample_frame fuel rate (df st)) as [[out|e]|] eqn:E; [| |discriminate].
    + inversion H. now left.
    + inversion H; subst. right. split; [|reflexivity].
      destruct (resample_frame_kinds fuel rate (df st) e Hu E) as [-> | [-> | ->]]; auto.
  - intros Hu Hr Hfuel Hs Hmax.
    now rewrite (resample_frame_overflow fuel rate (df st) Hu Hr Hfuel Hs Hmax).
  - intros Hu Hr Hfuel Hmax Hno.
    now rewrite (resample_frame_out_of_bounds fuel rate (df st) Hu Hr Hfuel Hmax Hno).
  - intros Hu Hr Hfuel Hwf Hmin Hcov.
    destruct (resample_frame_covered fuel rate (df st) Hu Hr Hfuel Hwf Hmin Hcov)
      as (out & ->).
    eexists. reflexivity.
Qed.

End ResampleFacts.

Lemma resample_grid_passes_truncated_end_witness :
  exists t, In t (grape1.UTC demo.resampled_fractional)
            /\ stated.resample_end demo.frame_fractional < t.
Proof.
  apply (@resample_grid_passes_truncated_end demo.L 5 1500000000 demo.frame_fractional).
  - reflexivity.
  - vm_compute; discriminate.
  - vm_compute; reflexivity.
Defined.

(** The two failing inputs of C1, run: 1.9 s of data every 1.5 s gives
    a frame whose second time is half a second after the truncated end;
    3 s of data every 2 s gives no frame, the grid time at 4 s being
    outside the data. *)
Lemma resample_overshoot_examples :
  grape1.UTC demo.resampled_fractional = [demo.day1; demo.day1 + 1500000000]
  /\ @grape1.resample_frame demo.L 5 1500000000 demo.frame_fractional
     = Some (Ok demo.resampled_fractional)
  /\ stated.resample_end demo.frame_fractional = demo.day1 + 1000000000
  /\ @grape1.resample_frame demo.L 5 2000000000 demo.frame_whole
     = Some (Raise ValueError).
Proof. repeat split; vm_compute; reflexivity. Qed.

Lemma resample_data_failure_kinds_witness :
  exists self',
    @grape1.resample_data demo.L 5 demo.second "raw" "resampled"
      (demo.object_with_raw demo.frame_repeats) = Some (Ok tt, self').
Proof.
  refine (proj2 (proj2 (proj2 (proj2 (@resample_data_failure_kinds demo.L 5
            demo.second "raw" "resampled" (demo.object_with_raw demo.frame_repeats)
            _ _ eq_refl eq_refl)))) _ _ _ _ _ _).
  - discriminate.
  - reflexivity.
  - vm_compute. lia.
  - repeat split; try reflexivity. intros values Hv. discriminate Hv.
  - vm_compute. lia.
  - intros t Ht. vm_compute in Ht.
    split; [destruct Ht as [<-|[<-|[<-|[]]]]; vm_compute; reflexivity|].
    split.
    + exists (demo.julian_date demo.day1). split; [right; left; reflexivity|].
      destruct Ht as [<-|[<-|[<-|[]]]]; apply Qle_bool_iff; vm_compute; reflexivity.
    + exists (demo.julian_date (demo.day1 + 2 * demo.second)).
      split; [left; reflexivity|].
      destruct Ht as [<-|[<-|[<-|[]]]]; apply Qle_bool_iff; vm_compute; reflexivity.
Defined.

(** C7 as stated fails: resampling a stage with no row ends in a
    TypeError, or in an AttributeError when its time column is not typed
    [datetime64], not in an InvalidSeries error, and a series with a
    repeated timestamp, out of order, resamples.  A series in order, at
    a cadence of 3,000,000 days, ends in an OverflowError, and at one of
    100,000 days in pandas' OutOfBoundsDatetime. *)
Lemma empty_series_raises_TypeError_and_repeats_resample :
  @grape1.resample_data demo.L 5 demo.second "raw" "resampled"
    (demo.object_with_raw demo.frame_empty)
  = Some (Raise TypeError, demo.object_with_raw demo.frame_empty)
  /\ @grape1.resample_data demo.L 5 demo.second "raw" "resampled"
       (demo.object_with_raw demo.frame_empty_untyped)
     = Some (Raise AttributeError, demo.object_with_raw demo.frame_empty_untyped)
  /\ Raise (A := unit) TypeError <> Raise (OtherError "InvalidSeries")
  /\ (exists self',
        @grape1.resample_data demo.L 5 demo.second "raw" "resampled"
          (demo.object_with_raw demo.frame_repeats) = Some (Ok tt, self'))
  /\ @grape1.resample_data demo.L 5 (3000000 * grape1_rest.day) "raw" "resampled"
       (demo.object_with_raw demo.frame_whole)
     = Some (Raise OverflowError, demo.object_with_raw demo.frame_whole)
  /\ @grape1.resample_data demo.L 5 (100000 * grape1_rest.day) "raw" "resampled"
       (demo.object_with_raw demo.frame_whole)
     = Some (Raise (OtherError "OutOfBoundsDatetime"),
             demo.object_with_raw demo.frame_whole).
Proof.
  split; [vm_compute; reflexivity|]. split; [vm_compute; reflexivity|].
  split; [discriminate|]. split; [eexists; vm_compute; reflexivity|].
  split; vm_compute; reflexivity.
Qed.

(** ** GrapeData: the power column *)

Section PowerFacts.
Import grape1 stated.
Context {L : Lib}.
Local Open Scope list_scope.

Lemma dict_get_set_same {V : Type} (d : dict V) (k : string) (v : V) :
  dict_get (dict_set d k v) k = Ok v.
Proof.
  induction d as [|[k' v'] d IH]; simpl.
  - now rewrite String.eqb_refl.
  - destruct (String.eqb k' k) eqn:E; simpl.
    + now rewrite String.eqb_refl.
    + now rewrite E.
Qed.

Lemma dict_get_set_other {V : Type} (d : dict V) (k k' : string) (v : V) :
  k <> k' -> dict_get (dict_set d k v) k' = dict_get d k'.
Proof.
  intros Hne. induction d as [|[k0 v0] d IH]; simpl.
  - destruct (String.eqb_spec k k'); [contradiction|reflexivity].
  - destruct (String.eqb_spec k0 k) as [->|Hk]; simpl.
    + destruct (String.eqb_spec k k'); [contradiction|reflexivity].
    + destruct (String.eqb k0 k'); [reflexivity|exact IH].
Qed.

Ltac bind_ok E :=
  match type of E with
  | Py.bind ?c _ = Ok _ =>
      let x := fresh "x" in
      destruct c as [x|] eqn:?; cbn [Py.bind] in E; [|discriminate E]
  end.

(** Filtering writes the filtered stage or nothing: the resampled
    stage is the one it found. *)
Lemma filter_data_keeps_resampled N Tc_min btype params (self self' : GrapeData)
    (r : result unit) (d : dict stage) :
  filter_data N Tc_min btype "resampled" "filtered" params self = (r, self') ->
  data self = Some d ->
  exists d', data self' = Some d' /\ dict_get d' "resampled" = dict_get d "resampled".
Proof.
  unfold filter_data. intros H Hd.
  match type of H with
  | (match ?body with _ => _ end) = _ => destruct body as [d'|e] eqn:E
  end.
  - inversion H; subst; clear H. simpl. eexists. split; [reflexivity|].
    rewrite Hd in E. cbn [getattr Py.bind] in E.
    repeat bind_ok E.
    inversion E; subst. rewrite dict_get_set_other by discriminate. assumption.
  - inversion H; subst. exists d. auto.
Qed.

(** C8: once the raw stage is loaded and the resampled stage is built,
    the constructor comes to an end, and in the object it leaves,
    whether or not the filter could be applied, the resampled stage
    carries a Power_dB column that holds, row for row,
    [20 * np.log10(v)] for the peak voltage [v] of the resampled
    stage -- for every [v], so for the positive ones. *)
Theorem power_is_derived_on_resampled_stage
    (fuel : nat) node freq sTime eTime data_path (rate order : Z) Tc_min btype
    lat lon call_sign inventory grape_nodes (s1 s2 : GrapeData) :
  load_raw node freq sTime eTime data_path lat lon call_sign inventory grape_nodes
    new_object = (Ok tt, s1) ->
  resample_data fuel rate "raw" "resampled" s1 = Some (Ok tt, s2) ->
  exists r final d2 st2 d st power,
    GrapeData_init fuel node freq sTime eTime data_path rate order Tc_min btype
      lat lon call_sign inventory grape_nodes = Some (r, final)
    /\ data s2 = Some d2 /\ dict_get d2 "resampled" = Ok st2
    /\ data final = Some d /\ dict_get d "resampled" = Ok st
    /\ UTC (df st) = UTC (df st2) /\ Vpk (df st) = Vpk (df st2)
    /\ Power_dB (df st) = Some power
    /\ List.length power = List.length (Vpk (df st))
    /\ forall i v, nth_error (Vpk (df st)) i = Some v ->
                   nth_error power i = Some (20 * np_log10 v)%Q.
Proof.
  intros Hload Hres. unfold GrapeData_init. rewrite Hload, Hres.
  (* the object after resampling *)
  assert (Hs2 : exists d2 st2, data s2 = Some d2 /\ dict_get d2 "resampled" = Ok st2).
  { unfold resample_data in Hres.
    destruct (Py.bind _ _) as [st0|]; [|inversion Hres].
    destruct (resample_frame _ _ _) as [[out|]|]; [|inversion Hres|discriminate].
    destruct (getattr (data s1)) as [d1|]; [|inversion Hres].
    inversion Hres; subst. simpl. eexists. eexists. split; [reflexivity|].
    apply dict_get_set_same. }
  destruct Hs2 as (d2 & st2 & Hd2 & Hst2).
  unfold assign_Power_dB. rewrite Hd2. cbn [getattr Py.bind]. rewrite Hst2.
  cbn [Py.bind].
  match goal with
  | |- context [filter_data ?o ?t ?b ?i ?u ?p ?s3] =>
      destruct (filter_data o t b i u p s3) as [r final] eqn:Hfilt;
      destruct (filter_data_keeps_resampled _ _ _ _ _ _ _ _ Hfilt eq_refl)
        as (d & Hd & Hget)
  end.
  rewrite dict_get_set_same in Hget.
  exists r, final, d2, st2, d. eexists. eexists.
  split; [reflexivity|]. split; [reflexivity|]. split; [exact Hst2|].
  split; [exact Hd|]. split; [exact Hget|].
  cbn [df UTC Vpk Power_dB].
  split; [reflexivity|]. split; [reflexivity|]. split; [reflexivity|].
  split; [apply length_map|].
  intros i v Hv. rewrite nth_error_map, Hv. reflexivity.
Qed.

End PowerFacts.

Lemma power_is_derived_on_resampled_stage_witness :
  exists r final d2 st2 d st power,
    @grape1.GrapeData_init demo.L 5 13 10e6 None None "data" demo.second 6
      (grape1.TcScalar 3.3333) "low" None None (Some "W2NAF") None None
    = Some (r, final)
    /\ grape1.data demo.resampled = Some d2
    /\ grape1.dict_get d2 "resampled" = Ok st2
    /\ grape1.data final = Some d /\ grape1.dict_get d "resampled" = Ok st
    /\ grape1.UTC (grape1.df st) = grape1.UTC (grape1.df st2)
    /\ grape1.Vpk (grape1.df st) = grape1.Vpk (grape1.df st2)
    /\ grape1.Power_dB (grape1.df st) = Some power
    /\ List.length power = List.length (grape1.Vpk (grape1.df st))
    /\ forall i v, nth_error (grape1.Vpk (grape1.df st)) i = Some v ->
                   nth_error power i = Some (20 * @grape1.np_log10 demo.L v)%Q.
Proof.
  apply (@power_is_derived_on_resampled_stage demo.L 5 13 10e6 None None "data"
           demo.second 6 (grape1.TcScalar 3.3333) "low" None None (Some "W2NAF")
           None None demo.loaded demo.resampled).
  - vm_compute; reflexivity.
  - vm_compute; reflexivity.
Defined.

(** ** Filter *)

Section FilterFacts.
Import grape1 stated.
Context {L : Lib}.
Local Open Scope list_scope.






(** C4, as the code has it: construction checks nothing itself.
    Whatever the order, the cutoff and the sampling rate, it calls the
    Butterworth design once, on the order, the converted cutoff, the
    band type and the rate; it fails exactly when the design fails,
    with the error of the design, and otherwise holds the design's
    coefficients. *)
Theorem filter_construction_defers_to_the_design
    (N : Z) (Tc_min : Tc_t) (btype : string) (fs : Q) :
  fst (Filter_init N Tc_min btype fs) = [ButterCall N (cutoff_Wn Tc_min) btype fs]
  /\ (forall e, snd (Filter_init N Tc_min btype fs) = Raise e
                <-> signal_butter N (cutoff_Wn Tc_min) btype fs = Raise e)
  /\ (forall filt, snd (Filter_init N Tc_min btype fs) = Ok filt
                   <-> exists b a,
                         signal_butter N (cutoff_Wn Tc_min) btype fs = Ok (b, a)
                         /\ filt = mkFilter fs (cutoff_Wn Tc_min) a b).
Proof.
  unfold Filter_init. cbn [fst snd]. split; [reflexivity|].
  destruct (signal_butter N (cutoff_Wn Tc_min) btype fs) as [[b a]|e']; cbn [Py.bind].
  - split.
    + intros e. split; discriminate.
    + intros filt. split.
      * intros H. inversion H. eauto.
      * intros (b' & a' & H & ->). inversion H. reflexivity.
  - split.
    + intros e. split; intros H; inversion H; reflexivity.
    + intros filt. split; [discriminate|]. intros (b' & a' & H & _). discriminate.
Qed.

End FilterFacts.



(** C4 as stated fails: with the order 0 the design is called, and
    construction ends with the filter it answers, not with an
    InvalidFilterSpec error. *)
Lemma order_zero_reaches_the_design :
  fst (@grape1.Filter_init demo.L 0 (grape1.TcScalar 3.3333) "low" 1) <> []
  /\ exists filt,
       snd (@grape1.Filter_init demo.L 0 (grape1.TcScalar 3.3333) "low" 1) = Ok filt
       /\ grape1.b filt = [1%Q] /\ grape1.a filt = [1%Q].
Proof.
  split; [discriminate|]. eexists. split; [vm_compute; reflexivity|]. split; reflexivity.
Qed.

(** * Further properties *)

(** ** DataInventory: the rows and the node list *)

Section InventoryRows.
Import grape1 stated stated_rest.
Context {L : Lib}.
Local Open Scope list_scope.

Lemma mapM_Forall2 {A B : Type} (f : A -> result B) (xs : list A) (ys : list B) :
  mapM f xs = Ok ys -> Forall2 (fun x y => f x = Ok y) xs ys.
Proof.
  revert ys; induction xs as [|x xs IH]; intros ys H; simpl in H.
  - inversion H. constructor.
  - destruct (f x) eqn:E; [|discriminate].
    destruct (mapM f xs); [|discriminate].
    inversion H; subst. constructor; auto.
Qed.

(** The rows before the G1 filter, one per file name, in order. *)
Lemma make_records_rows (suffix : string) (bnames : list string)
    (dts : list timestamp) (nodes : list Z) :
  Forall2 (fun parts dt => to_datetime (hd "" parts) = Ok dt)
    (map (split_on "_") bnames) dts ->
  Forall2 (fun parts node =>
             match nth_error parts 1 with
             | Some s => astype_int (strip "N" s)
             | None => Raise ValueError
             end = Ok node)
    (map (split_on "_") bnames) nodes ->
  Forall2 (fun bname r =>
             Filename r = bname
             /\ Frequency r = CStr (file_label suffix bname)
             /\ to_datetime (hd "" (split_on "_" bname)) = Ok (Datetime r)
             /\ (exists s, nth_error (split_on "_" bname) 1 = Some s
                           /\ astype_int (strip "N" s) = Ok (Node r))
             /\ G r = nth 2 (split_on "_" bname) ""
             /\ Grid_Square r = nth 3 (split_on "_" bname) "")
    bnames
    (make_records (combine bnames (map (split_on "_") bnames)) dts nodes suffix).
Proof.
  revert dts nodes. induction bnames as [|bname bnames IH]; intros dts nodes Hd Hn.
  - constructor.
  - cbn [map] in Hd, Hn. inversion Hd as [|? dt ? dts' Hdt Hd']; subst.
    inversion Hn as [|? node ? nodes' Hnode Hn']; subst.
    cbn [map combine make_records]. constructor; [|now apply IH].
    cbn [Filename Frequency Datetime Node G Grid_Square make_record].
    cbv beta in Hnode, Hdt. repeat split; auto.
    revert Hnode. destruct (nth_error (split_on "_" bname) 1) as [s|]; [|discriminate].
    intros Hnode. exists s. auto.
Qed.

Lemma loc_assign_same_file (lab : string) (hz : Q) (rows : list FileRecord) :
  Forall2 same_file rows (loc_assign_Frequency lab hz rows).
Proof.
  induction rows as [|r rows IH]; simpl; constructor; auto.
  unfold same_file. destruct (cell_is (Frequency r) lab); simpl; auto 6.
Qed.

Lemma same_file_trans (r1 r2 r3 : FileRecord) :
  same_file r1 r2 -> same_file r2 r3 -> same_file r1 r3.
Proof.
  unfold same_file. intros (a1 & a2 & a3 & a4 & a5) (b1 & b2 & b3 & b4 & b5).
  repeat split; congruence.
Qed.

Lemma Forall2_trans_same_file (l1 l2 l3 : list FileRecord) :
  Forall2 same_file l1 l2 -> Forall2 same_file l2 l3 -> Forall2 same_file l1 l3.
Proof.
  intros H. revert l3. induction H; intros l3 H3; inversion H3; subst; constructor.
  - eapply same_file_trans; eauto.
  - auto.
Qed.

Lemma Forall2_map_eq {A B C : Type} (R : A -> B -> Prop) (f : A -> C) (g : B -> C)
    (l : list A) (l' : list B) :
  Forall2 R l l' -> (forall x y, R x y -> f x = g y) -> map f l = map g l'.
Proof.
  intros H HR. induction H; simpl; [reflexivity|]. f_equal; auto.
Qed.

Lemma Forall2_filter {A B : Type} (R : A -> B -> Prop) (p : A -> bool) (q : B -> bool)
    (l : list A) (l' : list B) :
  Forall2 R l l' -> (forall x y, R x y -> p x = q y) ->
  Forall2 R (filter p l) (filter q l').
Proof.
  intros H HR. induction H as [|x y l l' Hxy H IH]; simpl; [constructor|].
  rewrite (HR x y Hxy). destruct (q y); [constructor|]; auto.
Qed.

Lemma Forall2_In_r {A B : Type} (R : A -> B -> Prop) (l : list A) (l' : list B) (y : B) :
  Forall2 R l l' -> In y l' -> exists x, In x l /\ R x y.
Proof.
  induction 1 as [|x y' l l' Hxy H IH]; intros Hin; [destruct Hin|].
  destruct Hin as [<-|Hin]; [exists x; split; [now left|exact Hxy]|].
  destruct (IH Hin) as (x' & Hx' & HR). exists x'. split; [now right|exact HR].
Qed.

(** The inventory against the listing: the rows before the assignments,
    related to the retained file names one by one, and to the final rows
    one by one. *)
Lemma inventory_alignment (data_path suffix : string) (inv : DataInventory) :
  DataInventory_init data_path suffix = Ok inv ->
  exists rows,
    Forall2 (fun bname r =>
               Filename r = bname
               /\ to_datetime (hd "" (split_on "_" bname)) = Ok (Datetime r)
               /\ (exists s, nth_error (split_on "_" bname) 1 = Some s
                             /\ astype_int (strip "N" s) = Ok (Node r))
               /\ G r = nth 2 (split_on "_" bname) ""
               /\ Grid_Square r = nth 3 (split_on "_" bname) "")
      (filter (fun bname => negb (contains "G1" (file_label suffix bname)))
         (glob_basenames data_path suffix))
      rows
    /\ Forall2 same_file rows (inv_df inv)
    /\ logged_nodes inv = sort_by Z.leb (nodup Z.eq_dec (map Node (inv_df inv))).
Proof.
  unfold DataInventory_init. intros H.
  destruct (Nat.eqb (List.length _) 0); [discriminate|].
  destruct (negb _); [discriminate|].
  destruct (mapM _ _) as [dts|] eqn:Hd; [|discriminate]. cbn [Py.bind] in H.
  destruct (mapM _ _) as [nodes|] eqn:Hn in H; [|discriminate]. cbn [Py.bind] in H.
  destruct (negb _); [discriminate|].
  inversion H; subst; clear H. cbn [inv_df logged_nodes].
  apply mapM_Forall2 in Hd, Hn.
  pose proof (make_records_rows suffix _ _ _ Hd Hn) as Hrows.
  eexists. split; [|split; [|reflexivity]].
  - eapply Forall2_impl;
      [|apply (Forall2_filter _ (fun bname => negb (contains "G1" (file_label suffix bname)))
                 (fun r => negb (contains "G1" (frequency_label r))) _ _ Hrows)].
    + intros bname r (Hf & Hq & Hdt & Hnode & Hg & Hgs). auto 6.
    + intros bname r (Hf & Hq & _). unfold frequency_label. rewrite Hq. reflexivity.
  - repeat (eapply Forall2_trans_same_file; [|apply loc_assign_same_file]).
    clear. induction (filter _ _); constructor; auto.
    unfold same_file. auto 6.
Qed.

(** X1: the inventory holds one row per listed file whose frequency
    label does not contain G1, in the order of the listing. *)
Theorem inventory_keeps_the_order_of_the_listing
    (data_path suffix : string) (inv : DataInventory) :
  DataInventory_init data_path suffix = Ok inv ->
  map Filename (inv_df inv)
  = filter (fun bname => negb (contains "G1" (file_label suffix bname)))
      (glob_basenames data_path suffix).
Proof.
  intros H. destruct (inventory_alignment _ _ _ H) as (rows & Hrows & Hsame & _).
  rewrite <- (Forall2_map_eq _ Filename Filename _ _ Hsame).
  - symmetry. rewrite <- (map_id (filter _ _)).
    eapply Forall2_map_eq; [exact Hrows|]. intros bname r (Hf & _). now rewrite Hf.
  - intros r r' (_ & _ & _ & _ & Hf). now rewrite Hf.
Qed.

(** X2: every row of the inventory carries what its file name says:
    the date parsed from the first field, the node number parsed from
    the second field without its N's, and the third and fourth fields
    as they are. *)
Theorem inventory_rows_are_parsed_from_the_names
    (data_path suffix : string) (inv : DataInventory) (r : FileRecord) :
  DataInventory_init data_path suffix = Ok inv ->
  In r (inv_df inv) ->
  let parts := split_on "_" (Filename r) in
  to_datetime (hd "" parts) = Ok (Datetime r)
  /\ (exists s, nth_error parts 1 = Some s /\ astype_int (strip "N" s) = Ok (Node r))
  /\ G r = nth 2 parts ""
  /\ Grid_Square r = nth 3 parts "".
Proof.
  intros H Hin. destruct (inventory_alignment _ _ _ H) as (rows & Hrows & Hsame & _).
  destruct (Forall2_In_r _ _ _ _ Hsame Hin) as (r0 & Hin0 & (Ed & En & Eg & Egs & Ef)).
  destruct (Forall2_In_r _ _ _ _ Hrows Hin0) as (bname & _ & (Hf & Hdt & Hnode & Hg & Hgs)).
  cbn zeta. rewrite Ef, Hf, Ed, En, Eg, Egs. auto.
Qed.

Lemma strictly_sorted (l : list Z) :
  StronglySorted (fun u v => Z.leb u v = true) l -> NoDup l -> StronglySorted Z.lt l.
Proof.
  induction 1 as [|x l Hs IH Hx]; intros Hnd; constructor.
  - apply IH. now inversion Hnd.
  - inversion Hnd as [|? ? Hnotin _]; subst.
    rewrite Forall_forall in *. intros y Hy.
    specialize (Hx y Hy). apply Z.leb_le in Hx.
    assert (x <> y) by (intros ->; contradiction). lia.
Qed.

(** X3: the node list of the inventory is in strictly increasing
    order, so without repetition, and holds exactly the node numbers of
    the rows. *)
Theorem logged_nodes_are_the_nodes_of_the_rows
    (data_path suffix : string) (inv : DataInventory) :
  DataInventory_init data_path suffix = Ok inv ->
  StronglySorted Z.lt (logged_nodes inv)
  /\ forall n, In n (logged_nodes inv) <-> exists r, In r (inv_df inv) /\ Node r = n.
Proof.
  intros H. destruct (inventory_alignment _ _ _ H) as (_ & _ & _ & ->).
  split.
  - apply strictly_sorted.
    + apply sort_by_sorted.
      * intros x y. rewrite !Z.leb_le. lia.
      * intros x y z. rewrite !Z.leb_le. lia.
    + eapply Permutation_NoDup; [symmetry; apply sort_by_perm|]. apply NoDup_nodup.
  - intros n. rewrite sort_by_In, nodup_In, in_map_iff.
    split; intros (r & Hr & Hin); exists r; auto.
Qed.

End InventoryRows.

Lemma inventory_keeps_the_order_of_the_listing_witness :
  map grape1.Filename (grape1.inv_df demo.inventory)
  = filter (fun bname => negb (grape1.contains "G1" (stated.file_label ".csv" bname)))
      (@grape1.glob_basenames demo.L "data" ".csv").
Proof.
  apply (@inventory_keeps_the_order_of_the_listing demo.L "data" ".csv" demo.inventory).
  vm_compute; reflexivity.
Defined.

Lemma inventory_rows_are_parsed_from_the_names_witness :
  let parts := grape1.split_on "_" (grape1.Filename demo.record2) in
  @grape1.to_datetime demo.L (hd "" parts) = Ok (grape1.Datetime demo.record2)
  /\ (exists s, nth_error parts 1 = Some s
                /\ @grape1.astype_int demo.L (grape1.strip "N" s)
                   = Ok (grape1.Node demo.record2))
  /\ grape1.G demo.record2 = nth 2 parts ""
  /\ grape1.Grid_Square demo.record2 = nth 3 parts "".
Proof.
  apply (@inventory_rows_are_parsed_from_the_names demo.L "data" ".csv" demo.inventory).
  - vm_compute; reflexivity.
  - right; left; reflexivity.
Defined.

Lemma logged_nodes_are_the_nodes_of_the_rows_witness :
  StronglySorted Z.lt (grape1.logged_nodes demo.inventory)
  /\ forall n, In n (grape1.logged_nodes demo.inventory)
               <-> exists r, In r (grape1.inv_df demo.inventory) /\ grape1.Node r = n.
Proof.
  apply (@logged_nodes_are_the_nodes_of_the_rows demo.L "data" ".csv").
  vm_compute; reflexivity.
Defined.

(** ** GrapeData: the selection with its bounds *)

Section SelectMore.
Import grape1 stated.
Local Open Scope list_scope.

Lemma by_date_sorted (l : list FileRecord) :
  StronglySorted (fun r1 r2 => Datetime r1 <= Datetime r2)
    (sort_by (fun r1 r2 => Datetime r1 <=? Datetime r2) l).
Proof.
  pose proof (sort_by_sorted (fun r1 r2 : FileRecord => Datetime r1 <=? Datetime r2)) as H.
  assert (Hs := H ltac:(intros x y; rewrite !Z.leb_le; lia)
                  ltac:(intros x y z; rewrite !Z.leb_le; lia) l).
  clear H. induction Hs as [|x l' Hs IH Hx]; constructor; auto.
  rewrite Forall_forall in *. intros y Hy. apply Z.leb_le. auto.
Qed.

(** X4: with both bounds given, and each of them with a time zone when
    the dates of the inventory have one and without when they have none,
    the selection does not fail: it holds the records of the node and
    the frequency dated in the half-open range from the start to the
    end, each as often as the inventory has it, in the order of their
    dates.  With a bound of the other kind the selection fails with a
    TypeError. *)
Theorem selection_between_two_bounds
    (inv : DataInventory) (node : Z) (freq : Q) (sT eT : datetime) :
  (tz_aware sT = Datetime_tz_aware inv -> tz_aware eT = Datetime_tz_aware inv ->
   exists sel,
     load_raw_select inv node freq (Some sT) (Some eT) = Ok sel
     /\ Permutation sel
          (filter (fun r => (instant sT <=? Datetime r) && (Datetime r <? instant eT))
             (of_node_and_frequency inv node freq))
     /\ StronglySorted (fun r1 r2 => Datetime r1 <= Datetime r2) sel)
  /\ (tz_aware sT <> Datetime_tz_aware inv \/ tz_aware eT <> Datetime_tz_aware inv ->
      load_raw_select inv node freq (Some sT) (Some eT) = Raise TypeError).
Proof.
  split.
  - intros Hs He. eexists. split; [now apply select_two_bounds|]. split.
    + apply sort_by_perm.
    + apply by_date_sorted.
  - intros H. unfold load_raw_select. cbn [Py.bind].
    destruct (comparable _ sT) as [s|x] eqn:Es; cbn [Py.bind].
    + destruct (comparable _ eT) as [e|x] eqn:Ee; cbn [Py.bind].
      * apply comparable_ok in Es, Ee. destruct Es as [Es _], Ee as [Ee _].
        destruct H; contradiction.
      * apply comparable_kinds in Ee. now destruct Ee as [_ ->].
    + apply comparable_kinds in Es. now destruct Es as [_ ->].
Qed.

(** X5: with the start left out no record is too early: a record of the
    node and the frequency is selected as soon as it is dated before the
    end that is given or, the end being left out too, before some other
    record of the node and the frequency. *)
Theorem omitted_start_keeps_the_earliest_records
    (inv : DataInventory) (node : Z) (freq : Q) (eTime : option datetime)
    (sel : list FileRecord) (r : FileRecord) :
  load_raw_select inv node freq None eTime = Ok sel ->
  In r (inv_df inv) -> Node r = node -> cell_eq_num (Frequency r) freq = true ->
  match eTime with
  | Some e => Datetime r < instant e
  | None => exists r', In r' (inv_df inv) /\ Node r' = node
                       /\ cell_eq_num (Frequency r') freq = true
                       /\ Datetime r < Datetime r'
  end ->
  In r sel.
Proof.
  unfold load_raw_select. fold (of_node_and_frequency inv node freq).
  intros H Hin Hn Hf Hend.
  assert (Hr : In r (of_node_and_frequency inv node freq))
    by (apply in_of_node_and_frequency; auto).
  destruct (py_min _) as [sT|] eqn:Hmin; [|discriminate]. cbn [Py.bind] in H.
  assert (Hs : sT <= Datetime r) by (eapply py_min_le; [exact Hmin|now apply in_map]).
  destruct eTime as [e|].
  - cbn [Py.bind] in H. rewrite comparable_own in H. cbn [Py.bind] in H.
    destruct (comparable _ e) as [e'|] eqn:Ee; [|discriminate]. cbn [Py.bind] in H.
    apply comparable_ok in Ee. destruct Ee as [_ ->].
    inversion H; subst.
    apply sort_by_In, filter_In. split; [exact Hr|].
    apply andb_true_iff. rewrite Z.leb_le, Z.ltb_lt. lia.
  - destruct (py_max _) as [eT|] eqn:Hmax; [|discriminate]. cbn [Py.bind] in H.
    rewrite !comparable_own in H. cbn [Py.bind] in H.
    inversion H; subst.
    destruct Hend as (r' & Hin' & Hn' & Hf' & Hlt).
    assert (He : Datetime r' <= eT).
    { eapply py_max_ge; [exact Hmax|]. apply in_map.
      apply in_of_node_and_frequency. auto. }
    apply sort_by_In, filter_In. split; [exact Hr|].
    apply andb_true_iff. rewrite Z.leb_le, Z.ltb_lt. lia.
Qed.

End SelectMore.

Lemma selection_between_two_bounds_witness :
  exists sel,
    grape1.load_raw_select demo.inventory 13 10e6 (Some (demo.utc demo.day1))
      (Some (demo.utc demo.day2)) = Ok sel
    /\ Permutation sel
         (filter (fun r => (demo.day1 <=? grape1.Datetime r)
                           && (grape1.Datetime r <? demo.day2))
            (stated.of_node_and_frequency demo.inventory 13 10e6))
    /\ StronglySorted (fun r1 r2 => grape1.Datetime r1 <= grape1.Datetime r2) sel.
Proof.
  apply (proj1 (selection_between_two_bounds demo.inventory 13 10e6
                  (demo.utc demo.day1) (demo.utc demo.day2))); reflexivity.
Defined.

Lemma omitted_start_keeps_the_earliest_records_witness :
  In demo.record1 [demo.record1].
Proof.
  apply (omitted_start_keeps_the_earliest_records demo.inventory 13 10e6 None
           [demo.record1] demo.record1).
  - vm_compute; reflexivity.
  - left; reflexivity.
  - reflexivity.
  - vm_compute; reflexivity.
  - exists demo.record2. repeat split; try (vm_compute; reflexivity).
    right; left; reflexivity.
Defined.

(** ** GrapeData: what loading leaves in the object *)

Section LoadMore.
Import grape1 stated stated_rest.
Context {L : Lib}.
Local Open Scope list_scope.

Lemma by_time_sorted (l : list sample) :
  StronglySorted (fun s1 s2 => s_UTC s1 <= s_UTC s2)
    (sort_by (fun s1 s2 => s_UTC s1 <=? s_UTC s2) l).
Proof.
  pose proof (sort_by_sorted (fun s1 s2 : sample => s_UTC s1 <=? s_UTC s2)) as H.
  assert (Hs := H ltac:(intros x y; rewrite !Z.leb_le; lia)
                  ltac:(intros x y z; rewrite !Z.leb_le; lia) l).
  clear H. induction Hs as [|x l' Hs IH Hx]; constructor; auto.
  rewrite Forall_forall in *. intros y Hy. apply Z.leb_le. auto.
Qed.

Lemma sorted_map {A : Type} (key : A -> Z) (l : list A) :
  StronglySorted (fun x y => key x <= key y) l -> StronglySorted Z.le (map key l).
Proof.
  induction 1 as [|x l Hs IH Hx]; simpl; constructor; auto.
  rewrite Forall_forall in *. intros k Hk. apply in_map_iff in Hk.
  destruct Hk as (y & <- & Hy). auto.
Qed.

(** The frames the loop loads: none is empty, and each is a file of the
    selection with the carrier taken off its Freq column. *)
Lemma load_raw_files_spec (data_path : string) (freq : Q) (sel : list FileRecord)
    (dfs : list (list sample)) :
  load_raw_files data_path freq sel = Ok dfs ->
  Forall (fun d => d <> []) dfs
  /\ (forall s, In s (List.concat dfs) <->
        exists r rows s0,
          In r sel /\ read_csv (path_join data_path (Filename r)) = Ok rows
          /\ In s0 rows
          /\ s = mkSample (s_UTC s0) (s_Freq s0 - freq)%Q (s_Vpk s0)).
Proof.
  revert dfs. induction sel as [|r sel IH]; intros dfs H; cbn [load_raw_files] in H.
  - inversion H; subst. split; [constructor|]. intros s. simpl. split; [tauto|].
    intros (r & rows & s0 & [] & _).
  - destruct (read_csv _) as [rows|] eqn:Hread; [|discriminate]. cbn [Py.bind] in H.
    destruct rows as [|s1 rows'].
    + simpl in H. destruct (IH dfs H) as [Hne Hin]. split; [exact Hne|].
      intros s. rewrite Hin. split.
      * intros (r' & rows & s0 & Hr' & Hrest). exists r', rows, s0. split; [now right|auto].
      * intros (r' & rows & s0 & [<-|Hr'] & Hrd & Hs0 & Hs).
        -- rewrite Hread in Hrd. inversion Hrd; subst. destruct Hs0.
        -- exists r', rows, s0. auto.
    + remember (s1 :: rows') as rows. cbn [List.length Nat.eqb] in H.
      assert (E : Nat.eqb (List.length rows) 0 = false) by (subst; reflexivity).
      rewrite E in H.
      destruct (load_raw_files data_path freq sel) as [rest|]; [|discriminate].
      cbn [Py.bind] in H. inversion H; subst dfs; clear H.
      destruct (IH rest eq_refl) as [Hne Hin]. split.
      * constructor; [|exact Hne]. subst rows. discriminate.
      * intros s. cbn [List.concat]. rewrite in_app_iff, in_map_iff, Hin. split.
        -- intros [(s0 & Hs & Hs0)|(r' & rows0 & s0 & Hr' & Hrest)].
           ++ exists r, rows, s0. split; [now left|]. auto.
           ++ exists r', rows0, s0. split; [now right|auto].
        -- intros (r' & rows0 & s0 & [<-|Hr'] & Hrd & Hs0 & Hs).
           ++ left. rewrite Hread in Hrd. inversion Hrd; subst rows0.
              exists s0. auto.
           ++ right. exists r', rows0, s0. auto.
Qed.

(** What a successful load has gone through. *)
Lemma load_raw_ok node freq sTime eTime data_path lat lon call_sign inventory
    grape_nodes (self self' : GrapeData) :
  load_raw node freq sTime eTime data_path lat lon call_sign inventory grape_nodes self
  = (Ok tt, self') ->
  exists inv sel dfs cs la lo,
    resolve_inventory data_path inventory = Ok inv
    /\ load_raw_select inv node freq sTime eTime = Ok sel
    /\ load_raw_files data_path freq sel = Ok dfs
    /\ dfs <> []
    /\ load_raw_call_sign node call_sign grape_nodes = Ok cs
    /\ load_raw_coordinate node lat grape_nodes Latitude = Ok la
    /\ load_raw_coordinate node lon grape_nodes Longitude = Ok lo
    /\ self' = mkGrapeData
                 (Some [("raw",
                         mkStage (frame_of_samples
                                    (sort_by (fun s1 s2 => s_UTC s1 <=? s_UTC s2)
                                       (List.concat dfs)))
                           "Raw Data")])
                 (Some (mkMeta (format_label freq node cs) la lo)).
Proof.
  unfold load_raw. intros H.
  destruct (resolve_inventory _ _) as [inv|] eqn:E1; [|discriminate].
  cbn [Py.bind] in H.
  destruct (load_raw_select _ _ _ _ _) as [sel|] eqn:E2; [|discriminate].
  cbn [Py.bind] in H.
  destruct (load_raw_files _ _ _) as [dfs|] eqn:E3; [|discriminate].
  cbn [Py.bind] in H.
  destruct dfs as [|d dfs]; [discriminate|]. cbn [pd_concat Py.bind] in H.
  destruct (load_raw_call_sign _ _ _) as [cs|] eqn:E4; [|discriminate].
  cbn [Py.bind] in H.
  destruct (load_raw_coordinate node lat _ _) as [la|] eqn:E5; [|discriminate].
  cbn [Py.bind] in H.
  destruct (load_raw_coordinate node lon _ _) as [lo|] eqn:E6; [|discriminate].
  cbn [Py.bind] in H. inversion H; subst.
  exists inv, sel, (d :: dfs), cs, la, lo.
  repeat (split; [first [assumption|reflexivity|discriminate]|]). reflexivity.
Qed.

(** X6: an object that has loaded holds one stage, raw, labelled Raw
    Data; its frame has at least one row, its times are in
    non-decreasing order, its columns have one length and it has no
    power column. *)
Theorem loaded_raw_stage_is_sorted_and_not_empty
    node freq sTime eTime data_path lat lon call_sign inventory grape_nodes
    (self self' : GrapeData) :
  load_raw node freq sTime eTime data_path lat lon call_sign inventory grape_nodes self
  = (Ok tt, self') ->
  exists frame,
    data self' = Some [("raw", mkStage frame "Raw Data")]
    /\ UTC frame <> []
    /\ StronglySorted Z.le (UTC frame)
    /\ well_formed frame
    /\ Power_dB frame = None.
Proof.
  intros H. destruct (load_raw_ok _ _ _ _ _ _ _ _ _ _ _ _ H)
    as (inv & sel & dfs & cs & la & lo & _ & _ & Hfiles & Hne & _ & _ & _ & ->).
  eexists. split; [reflexivity|]. cbn [frame_of_samples UTC Freq Vpk Power_dB].
  split; [|split; [|split; [|reflexivity]]].
  - intros E. apply map_eq_nil in E.
    apply (f_equal (@List.length sample)) in E. rewrite sort_by_length in E.
    destruct (load_raw_files_spec _ _ _ _ Hfiles) as [Hall _].
    destruct dfs as [|d dfs]; [congruence|]. inversion Hall; subst.
    destruct d; [congruence|]. discriminate E.
  - apply sorted_map with (key := s_UTC). apply by_time_sorted.
  - unfold well_formed. cbn [frame_of_samples UTC Freq Vpk Power_dB].
    rewrite !length_map. repeat split. discriminate.
Qed.

(** The frames the loop loads, put end to end, are the rows of the
    files of the selection in the order of the selection, the carrier
    taken off each; a file without rows adds nothing. *)
Lemma load_raw_files_contents (data_path : string) (freq : Q) (sel : list FileRecord)
    (dfs : list (list sample)) :
  load_raw_files data_path freq sel = Ok dfs ->
  exists contents,
    Forall2 (fun r rows => read_csv (path_join data_path (Filename r)) = Ok rows)
      sel contents
    /\ List.concat dfs = map (less_carrier freq) (List.concat contents).
Proof.
  revert dfs. induction sel as [|r sel IH]; intros dfs H; cbn [load_raw_files] in H.
  - injection H as <-. exists []. split; [constructor|reflexivity].
  - destruct (read_csv _) as [rows|] eqn:Hread; [|discriminate]. cbn [Py.bind] in H.
    destruct rows as [|s1 rows'].
    + cbn [List.length Nat.eqb] in H. destruct (IH dfs H) as (contents & Hall & Hc).
      exists ([] :: contents). split; [now constructor|]. exact Hc.
    + remember (s1 :: rows') as rows. cbn [List.length Nat.eqb] in H.
      assert (E : Nat.eqb (List.length rows) 0 = false) by (subst; reflexivity).
      rewrite E in H.
      destruct (load_raw_files data_path freq sel) as [rest|]; [|discriminate].
      cbn [Py.bind] in H. injection H as <-.
      destruct (IH rest eq_refl) as (contents & Hall & Hc).
      exists (rows :: contents). split; [now constructor|].
      cbn [List.concat]. rewrite map_app, Hc. reflexivity.
Qed.

(** X7: the rows of the raw stage are the rows of the selected files,
    every row of every file once, each with the carrier frequency taken
    off its Freq, and they are in the order of their times. *)
Theorem raw_rows_are_the_file_rows_less_the_carrier
    node freq sTime eTime data_path lat lon call_sign inventory grape_nodes
    (self self' : GrapeData) :
  load_raw node freq sTime eTime data_path lat lon call_sign inventory grape_nodes self
  = (Ok tt, self') ->
  exists inv sel contents raw,
    resolve_inventory data_path inventory = Ok inv
    /\ load_raw_select inv node freq sTime eTime = Ok sel
    /\ Forall2 (fun r rows => read_csv (path_join data_path (Filename r)) = Ok rows)
         sel contents
    /\ data self' = Some [("raw", mkStage (frame_of_samples raw) "Raw Data")]
    /\ Permutation raw (map (less_carrier freq) (List.concat contents))
    /\ StronglySorted (fun s1 s2 => s_UTC s1 <= s_UTC s2) raw.
Proof.
  intros H. destruct (load_raw_ok _ _ _ _ _ _ _ _ _ _ _ _ H)
    as (inv & sel & dfs & cs & la & lo & Hinv & Hsel & Hfiles & _ & _ & _ & _ & ->).
  destruct (load_raw_files_contents _ _ _ _ Hfiles) as (contents & Hall & Hc).
  exists inv, sel, contents. eexists. split; [exact Hinv|]. split; [exact Hsel|].
  split; [exact Hall|]. split; [reflexivity|]. split.
  - rewrite <- Hc. apply sort_by_perm.
  - apply by_time_sorted.
Qed.

Lemma nodes_loc_In (rows : list (Z * NodeRow)) (node : Z) (row : NodeRow) :
  nodes_loc rows node = Ok row -> In (node, row) rows.
Proof.
  induction rows as [|[n r] rows IH]; simpl; [discriminate|].
  destruct (Z.eqb_spec n node) as [->|Hne].
  - intros H. inversion H. now left.
  - intros H. right. auto.
Qed.

Lemma nodes_loc_absent (rows : list (Z * NodeRow)) (node : Z) :
  (forall row, ~ In (node, row) rows) -> nodes_loc rows node = Raise KeyError.
Proof.
  induction rows as [|[n r] rows IH]; intros H; simpl; [reflexivity|].
  destruct (Z.eqb_spec n node) as [->|Hne].
  - exfalso. apply (H r). now left.
  - apply IH. intros row Hin. apply (H row). now right.
Qed.

(** X8: when no call sign is supplied and a node table is given, the
    label of a dataset that loads carries the call sign of the node's
    row in the table; a latitude or longitude that is supplied is kept,
    one that is left out is the one of that row. *)
Theorem label_and_position_come_from_the_node_table
    node freq sTime eTime data_path lat lon inventory (gn : GrapeNodes)
    (self self' : GrapeData) :
  load_raw node freq sTime eTime data_path lat lon None inventory (Some gn) self
  = (Ok tt, self') ->
  exists row,
    In (node, row) (nodes_df gn)
    /\ meta self'
       = Some (mkMeta (format_label freq node (Callsign row))
                 (Some (match lat with Some x => x | None => Latitude row end))
                 (Some (match lon with Some x => x | None => Longitude row end))).
Proof.
  intros H. destruct (load_raw_ok _ _ _ _ _ _ _ _ _ _ _ _ H)
    as (inv & sel & dfs & cs & la & lo & _ & _ & _ & _ & Hcs & Hla & Hlo & ->).
  unfold load_raw_call_sign in Hcs.
  destruct (nodes_loc (nodes_df gn) node) as [row|] eqn:Hrow; [|discriminate].
  cbn [Py.bind] in Hcs. inversion Hcs; subst cs.
  exists row. split; [now apply nodes_loc_In|]. cbn [meta]. do 2 f_equal.
  - unfold load_raw_coordinate in Hla. destruct lat.
    + now inversion Hla.
    + rewrite Hrow in Hla. now inversion Hla.
  - unfold load_raw_coordinate in Hlo. destruct lon.
    + now inversion Hlo.
    + rewrite Hrow in Hlo. now inversion Hlo.
Qed.

(** X9: when the files load but the node has no row in the node table
    that is given, and the call sign, the latitude or the longitude is
    left to the table, loading fails with a KeyError and the object is as
    it was. *)
Theorem node_missing_from_the_table_raises_KeyError
    node freq sTime eTime data_path lat lon call_sign inventory (gn : GrapeNodes)
    (self : GrapeData) inv sel dfs :
  resolve_inventory data_path inventory = Ok inv ->
  load_raw_select inv node freq sTime eTime = Ok sel ->
  load_raw_files data_path freq sel = Ok dfs ->
  dfs <> [] ->
  (forall row, ~ In (node, row) (nodes_df gn)) ->
  call_sign = None \/ lat = None \/ lon = None ->
  load_raw node freq sTime eTime data_path lat lon call_sign inventory (Some gn) self
  = (Raise KeyError, self).
Proof.
  intros Hinv Hsel Hfiles Hne Habsent Hleft.
  unfold load_raw. rewrite Hinv. cbn [Py.bind]. rewrite Hsel. cbn [Py.bind].
  rewrite Hfiles. cbn [Py.bind].
  destruct dfs as [|d dfs]; [congruence|]. cbn [pd_concat Py.bind].
  pose proof (nodes_loc_absent _ _ Habsent) as Hloc.
  unfold load_raw_call_sign, load_raw_coordinate. rewrite Hloc.
  destruct call_sign, lat, lon; cbn [Py.bind]; try reflexivity.
  destruct Hleft as [H|[H|H]]; discriminate H.
Qed.

End LoadMore.

Lemma loaded_raw_stage_is_sorted_and_not_empty_witness :
  exists frame,
    grape1.data demo.loaded = Some [("raw", grape1.mkStage frame "Raw Data")]
    /\ grape1.UTC frame <> []
    /\ StronglySorted Z.le (grape1.UTC frame)
    /\ stated.well_formed frame
    /\ grape1.Power_dB frame = None.
Proof.
  apply (@loaded_raw_stage_is_sorted_and_not_empty demo.L 13 10e6 None None "data"
           None None (Some "W2NAF") None None grape1.new_object demo.loaded).
  vm_compute; reflexivity.
Defined.

Lemma raw_rows_are_the_file_rows_less_the_carrier_witness :
  exists inv sel contents raw,
    @grape1.resolve_inventory demo.L "data" None = Ok inv
    /\ grape1.load_raw_select inv 13 10e6 None None = Ok sel
    /\ Forall2 (fun r rows =>
                  @grape1.read_csv demo.L
                    (@grape1.path_join demo.L "data" (grape1.Filename r)) = Ok rows)
         sel contents
    /\ grape1.data demo.loaded
       = Some [("raw", grape1.mkStage (grape1.frame_of_samples raw) "Raw Data")]
    /\ Permutation raw (map (stated_rest.less_carrier 10e6) (List.concat contents))
    /\ StronglySorted (fun s1 s2 => grape1.s_UTC s1 <= grape1.s_UTC s2) raw.
Proof.
  apply (@raw_rows_are_the_file_rows_less_the_carrier demo.L 13 10e6 None None "data"
           None None (Some "W2NAF") None None grape1.new_object demo.loaded).
  vm_compute; reflexivity.
Defined.

Lemma label_and_position_come_from_the_node_table_witness :
  exists row,
    In (13, row) (grape1.nodes_df demo.registry)
    /\ grape1.meta
         (snd (@grape1.load_raw demo.L 13 10e6 None None "data" (Some 40.5%Q) None None
                 None (Some demo.registry) grape1.new_object))
       = Some (grape1.mkMeta (@grape1.format_label demo.L 10e6 13 (grape1.Callsign row))
                 (Some 40.5%Q) (Some (grape1.Longitude row))).
Proof.
  apply (@label_and_position_come_from_the_node_table demo.L 13 10e6 None None "data"
           (Some 40.5%Q) None None demo.registry grape1.new_object).
  vm_compute; reflexivity.
Defined.

Lemma node_missing_from_the_table_raises_KeyError_witness :
  @grape1.load_raw demo.L 13 10e6 None None "data" None None (Some "W2NAF") None
    (Some (grape1.mkGrapeNodes [(7, grape1.mkNodeRow "N8OBJ" 41.3 (-81.4))]))
    grape1.new_object
  = (Raise KeyError, grape1.new_object).
Proof.
  eapply (@node_missing_from_the_table_raises_KeyError demo.L 13 10e6 None None "data"
            None None (Some "W2NAF") None
            (grape1.mkGrapeNodes [(7, grape1.mkNodeRow "N8OBJ" 41.3 (-81.4))])
            grape1.new_object demo.inventory [demo.record1]).
  - vm_compute; reflexivity.
  - vm_compute; reflexivity.
  - vm_compute; reflexivity.
  - discriminate.
  - intros row [H|[]]. inversion H.
  - right; left; reflexivity.
Defined.

(** ** GrapeData: what resampling yields *)

Section ResampleMore.
Import grape1 stated.
Context {L : Lib}.
Local Open Scope list_scope.

(** X10: with a positive cadence the times of a resampled frame are the
    arithmetic sequence that starts at the truncated first time of the
    input: consecutive times are exactly one cadence apart, every time
    but the last is before the truncated last time of the input, and the
    last is at or after it by less than one cadence. *)
Theorem resampled_times_are_evenly_spaced
    (fuel : nat) (rate : Z) (frame out : DataFrame) :
  0 < rate ->
  resample_frame fuel rate frame = Some (Ok out) ->
  let s := resample_start frame in
  let e := resample_end frame in
  let n := steps s e rate in
  UTC out = grid s rate (S n)
  /\ (forall k t t', nth_error (UTC out) k = Some t ->
                     nth_error (UTC out) (S k) = Some t' -> t' - t = rate)
  /\ (forall k t, nth_error (UTC out) k = Some t -> (k < n)%nat -> t < e)
  /\ nth_error (UTC out) n = Some (s + Z.of_nat n * rate)
  /\ e <= s + Z.of_nat n * rate < e + rate.
Proof.
  intros Hr H s e n.
  pose proof (resample_frame_times fuel rate frame out Hr H) as Hg.
  fold s e n in Hg. rewrite Hg.
  split; [reflexivity|]. split; [|split; [|split]].
  - intros k t t'. apply grid_spacing.
  - intros k t Hk Hlt. apply grid_nth in Hk. destruct Hk as [_ ->].
    now apply grid_before_end.
  - unfold grid. rewrite nth_error_map, nth_error_seq.
    destruct (Nat.ltb_spec n (S n)); [reflexivity|lia].
  - split; [now apply grid_reaches_end|].
    pose proof (resample_start_le_end frame). fold s e in H0.
    destruct n as [|m] eqn:En; [lia|].
    assert (Hm : s + Z.of_nat m * rate < e).
    { apply grid_before_end; [exact Hr|]. fold n. lia. }
    lia.
Qed.

Lemma resample_column_value (jd values rs_jd vals : list Q) :
  resample_column jd values rs_jd = Ok vals ->
  vals = map (np_interp (sort_by by_abscissa (combine jd values))) rs_jd.
Proof.
  unfold resample_column. destruct (interp1d jd values) as [f|] eqn:Hi; [|discriminate].
  cbn [Py.bind]. apply interp1d_ok in Hi. destruct Hi as (_ & -> & _).
  unfold interp1d_call. destruct (sort_by _ _) as [|[x0 y0] f']; [discriminate|].
  destruct (existsb _ _); [discriminate|]. destruct (existsb _ _); [discriminate|].
  intros H. now inversion H.
Qed.

Lemma resample_column_length (jd values rs_jd vals : list Q) :
  resample_column jd values rs_jd = Ok vals -> List.length vals = List.length rs_jd.
Proof.
  intros H. rewrite (resample_column_value _ _ _ _ H). apply length_map.
Qed.

(** X11: the columns of a resampled frame all have the length of its
    time column, and it has a power column exactly when the input has
    one. *)
Theorem resampled_frame_is_well_formed
    (fuel : nat) (rate : Z) (frame out : DataFrame) :
  resample_frame fuel rate frame = Some (Ok out) ->
  well_formed out
  /\ (Power_dB out = None <-> Power_dB frame = None).
Proof.
  intros H. pose proof (resample_frame_ok _ _ _ _ H) as Hok. cbv zeta in Hok.
  destruct Hok as (_ & _ & _ & Ef & Ev & Hp & _).
  apply resample_column_length in Ef, Ev. rewrite length_map in Ef, Ev.
  unfold well_formed. destruct (Power_dB frame) as [values|].
  - destruct Hp as (vp & Ep & Hout).
    apply resample_column_length in Ep. rewrite length_map in Ep.
    split; [split; [exact Ef|split; [exact Ev|]]|].
    + intros values' Hv. rewrite Hout in Hv. injection Hv as <-. exact Ep.
    + rewrite Hout. split; intros E; discriminate E.
  - split; [split; [exact Ef|split; [exact Ev|]]|].
    + intros values' Hv. rewrite Hp in Hv. discriminate Hv.
    + split; auto.
Qed.

(** X12: with a positive cadence resampling comes to an end: fuel for
    the number of steps of the grid is enough, and more fuel does not
    change the outcome. *)
Theorem resampling_ends_for_a_positive_cadence
    (fuel fuel' : nat) (rate : Z) (frame : DataFrame) :
  0 < rate ->
  (steps (resample_start frame) (resample_end frame) rate <= fuel)%nat ->
  (steps (resample_start frame) (resample_end frame) rate <= fuel')%nat ->
  exists r, resample_frame fuel rate frame = Some r
            /\ resample_frame fuel' rate frame = Some r.
Proof.
  intros Hr Hf Hf'. unfold resample_frame, resample_start, resample_end in *.
  destruct (UTC frame) as [|t ts];
    [destruct (UTC_is_datetime64 frame); eexists; split; reflexivity|].
  cbn [least greatest] in Hf, Hf'. cbv zeta.
  destruct (rs_times_loop_outcome fuel fuel' _ _ rate Hr Hf Hf') as (r & E & E').
  unfold timestamp in *. rewrite E, E'.
  destruct r; eexists; split; reflexivity.
Qed.

Lemma rs_times_loop_zero_rate (fuel : nat) :
  forall acc last e, last < e -> rs_times_loop fuel acc last e 0 = None.
Proof.
  induction fuel as [|fuel IH]; intros acc last e Hlt; cbn [rs_times_loop];
    rewrite (proj2 (Z.ltb_lt last e) Hlt); [reflexivity|].
  rewrite datetime_add_zero. now apply IH.
Qed.

(** X13: with a cadence of zero and a truncated span that is not empty
    resampling does not come to an end, whatever the fuel. *)
Theorem resampling_with_zero_cadence_does_not_end
    (fuel : nat) (frame : DataFrame) :
  resample_start frame < resample_end frame ->
  resample_frame fuel 0 frame = None.
Proof.
  unfold resample_frame, resample_start, resample_end.
  destruct (UTC frame) as [|t ts]; cbn [least greatest]; [intros H; cbn in H; lia|].
  intros H. cbv zeta. now rewrite rs_times_loop_zero_rate.
Qed.

(** X14: resampling writes its output stage and nothing else: the
    stage holds the resampled frame of the input stage, every other
    stage and the metadata are as they were. *)
Theorem resample_data_writes_only_its_output_stage
    (fuel : nat) (rate : Z) (data_set_in data_set_out : string)
    (self self' : GrapeData) :
  resample_data fuel rate data_set_in data_set_out self = Some (Ok tt, self') ->
  exists d st rs d' st',
    data self = Some d /\ dict_get d data_set_in = Ok st
    /\ resample_frame fuel rate (df st) = Some (Ok rs)
    /\ data self' = Some d' /\ dict_get d' data_set_out = Ok st' /\ df st' = rs
    /\ (forall k, k <> data_set_out -> dict_get d' k = dict_get d k)
    /\ meta self' = meta self.
Proof.
  unfold resample_data. intros H.
  destruct (data self) as [d|] eqn:Hd; [|inversion H]. cbn [getattr Py.bind] in H.
  destruct (dict_get d data_set_in) as [st|] eqn:Hst; [|inversion H].
  destruct (resample_frame fuel rate (df st)) as [[rs|]|] eqn:Hrs;
    [|inversion H|discriminate].
  inversion H; subst; clear H. cbn [data meta].
  exists d, st, rs. eexists. eexists.
  split; [reflexivity|]. split; [exact Hst|]. split; [exact Hrs|].
  split; [reflexivity|]. split; [apply dict_get_set_same|]. split; [reflexivity|].
  split; [|reflexivity]. intros k Hk. apply dict_get_set_other. congruence.
Qed.

End ResampleMore.

(** ** GrapeData: resampling a series that is on the grid already *)

Section ResampleUniform.
Import grape1 stated stated_rest.
Context {L : Lib}.
Local Open Scope list_scope.












End ResampleUniform.

(** ** GrapeData: the resampled values *)

Section ResampleValues.
Import grape1 stated.
Context {L : Lib}.
Local Open Scope list_scope.

Lemma segment_between (x0 y0 x1 y1 x : Q) :
  (x0 < x)%Q -> (x < x1)%Q ->
  ((y0 <= (y1 - y0) / (x1 - x0) * (x - x0) + y0 <= y1)
   \/ (y1 <= (y1 - y0) / (x1 - x0) * (x - x0) + y0 <= y0))%Q.
Proof.
  intros H0 H1.
  assert (Hd : ~ (x1 - x0 == 0)%Q) by (intros E; lra).
  set (k := ((y1 - y0) / (x1 - x0))%Q).
  assert (Hk : (k * (x1 - x0) == y1 - y0)%Q) by (unfold k; field; exact Hd).
  destruct (Qlt_le_dec y1 y0) as [Hy|Hy]; [right|left]; split; nra.
Qed.

(** A value of the interpolant at or after its first abscissa lies
    between two of its ordinates. *)
Lemma np_interp_between (f : list (Q * Q)) :
  forall x p0, hd_error f = Some p0 -> (fst p0 <= x)%Q ->
  exists p q, In p f /\ In q f /\ (snd p <= np_interp f x <= snd q)%Q.
Proof.
  induction f as [|[x0 y0] f IH]; intros x p0 Hhd Hle; [discriminate|].
  cbn [hd_error] in Hhd. inversion Hhd; subst p0. cbn [fst] in Hle.
  cbn [np_interp]. destruct f as [|[x1 y1] f'].
  - exists (x0, y0), (x0, y0). cbn [snd]. repeat split; try (now left); apply Qle_refl.
  - destruct (Qle_bool x1 x) eqn:E1.
    + apply Qle_bool_iff in E1.
      destruct (IH x (x1, y1) eq_refl E1) as (p & q & Hp & Hq & Hb).
      exists p, q. repeat split; try (now right); apply Hb.
    + destruct (Qeq_bool x0 x) eqn:E2.
      * exists (x0, y0), (x0, y0). cbn [snd].
        repeat split; try (now left); apply Qle_refl.
      * assert (H1 : (x < x1)%Q).
        { apply Qnot_le_lt. intros H. apply Qle_bool_iff in H. congruence. }
        assert (H0 : (x0 < x)%Q).
        { apply Qeq_bool_neq in E2. apply Qle_lt_or_eq in Hle.
          destruct Hle; [assumption|contradiction]. }
        destruct (segment_between x0 y0 x1 y1 x H0 H1) as [Hb|Hb].
        -- exists (x0, y0), (x1, y1). cbn [snd].
           split; [now left|]. split; [right; now left|exact Hb].
        -- exists (x1, y1), (x0, y0). cbn [snd].
           split; [right; now left|]. split; [now left|exact Hb].
Qed.

Lemma resample_column_between (jd values rs_jd vals : list Q) (v : Q) :
  resample_column jd values rs_jd = Ok vals -> In v vals ->
  exists lo hi, In lo values /\ In hi values /\ (lo <= v <= hi)%Q.
Proof.
  unfold resample_column. destruct (interp1d jd values) as [f|] eqn:Hi; [|discriminate].
  cbn [Py.bind]. apply interp1d_ok in Hi. destruct Hi as (_ & Hf & _).
  unfold interp1d_call. destruct f as [|[x0 y0] f'] eqn:Ef; [discriminate|].
  destruct (existsb (fun x => negb (Qle_bool x0 x)) rs_jd) eqn:Elow; [discriminate|].
  match goal with
  | |- (if ?c then _ else _) = _ -> _ => destruct c; [discriminate|]
  end.
  intros H Hv. injection H as Hvals. rewrite <- Hvals in Hv.
  apply in_map_iff in Hv. destruct Hv as (x & <- & Hx).
  assert (Hle : (x0 <= x)%Q).
  { destruct (Qle_bool x0 x) eqn:E; [now apply Qle_bool_iff|].
    assert (Ht : existsb (fun x => negb (Qle_bool x0 x)) rs_jd = true)
      by (apply existsb_exists; exists x; rewrite E; auto).
    rewrite Ht in Elow. discriminate Elow. }
  destruct (np_interp_between ((x0, y0) :: f') x (x0, y0) eq_refl Hle)
    as (p & q & Hp & Hq & Hb).
  assert (Hin : forall r, In r ((x0, y0) :: f') -> In (snd r) values).
  { intros [rx ry] Hr. rewrite Hf in Hr. apply sort_by_In in Hr.
    cbn [snd]. eapply in_combine_r; eauto. }
  exists (snd p), (snd q). auto.
Qed.

(** X16: no resampled value leaves the range of its column: every
    value of the Freq and of the Vpk column of a resampled frame lies
    between two values of that column of the input. *)
Theorem resampled_values_stay_within_the_data
    (fuel : nat) (rate : Z) (frame out : DataFrame) :
  resample_frame fuel rate frame = Some (Ok out) ->
  (forall v, In v (Freq out) ->
     exists lo hi, In lo (Freq frame) /\ In hi (Freq frame) /\ (lo <= v <= hi)%Q)
  /\ (forall v, In v (Vpk out) ->
        exists lo hi, In lo (Vpk frame) /\ In hi (Vpk frame) /\ (lo <= v <= hi)%Q).
Proof.
  intros H. pose proof (resample_frame_ok _ _ _ _ H) as Hok. cbv zeta in Hok.
  destruct Hok as (_ & _ & _ & Ef & Ev & _). split; intros v Hv.
  - exact (resample_column_between _ _ _ _ v Ef Hv).
  - exact (resample_column_between _ _ _ _ v Ev Hv).
Qed.

End ResampleValues.

(** ** GrapeData: filtering *)

Section FilterMore.
Import grape1 stated.
Context {L : Lib}.
Local Open Scope list_scope.

Ltac step_ok E :=
  match type of E with
  | Py.bind ?c _ = Ok _ =>
      let x := fresh "x" in
      destruct c as [x|] eqn:?; cbn [Py.bind] in E; [|discriminate E]
  end.

Lemma set_column_UTC (frame : DataFrame) (param : string) (values : list Q) :
  UTC (set_column frame param values) = UTC frame.
Proof.
  unfold set_column.
  destruct (String.eqb param "Freq"); [reflexivity|].
  destruct (String.eqb param "Vpk"); [reflexivity|].
  destruct (String.eqb param "Power_dB"); reflexivity.
Qed.

Lemma get_set_column_other (frame : DataFrame) (param other : string) (values : list Q) :
  other <> param ->
  get_column (set_column frame param values) other = get_column frame other.
Proof.
  intros Hne. unfold set_column, get_column.
  destruct (String.eqb_spec param "Freq") as [->|]; cbn [Freq Vpk Power_dB].
  - destruct (String.eqb_spec other "Freq"); [contradiction|reflexivity].
  - destruct (String.eqb_spec param "Vpk") as [->|]; cbn [Freq Vpk Power_dB].
    + destruct (String.eqb_spec other "Freq"); [reflexivity|].
      destruct (String.eqb_spec other "Vpk"); [contradiction|reflexivity].
    + destruct (String.eqb_spec param "Power_dB") as [->|]; cbn [Freq Vpk Power_dB];
        [|reflexivity].
      destruct (String.eqb_spec other "Freq"); [reflexivity|].
      destruct (String.eqb_spec other "Vpk"); [reflexivity|].
      destruct (String.eqb_spec other "Power_dB"); [contradiction|reflexivity].
Qed.

Lemma filter_columns_keeps (filt : Filter) (params : list string) :
  forall frame frame',
    filter_columns filt params frame = Ok frame' ->
    UTC frame' = UTC frame
    /\ forall other, ~ In other params -> get_column frame' other = get_column frame other.
Proof.
  induction params as [|param params IH]; intros frame frame' H; cbn [filter_columns] in H.
  - inversion H. auto.
  - destruct (get_column frame param) as [values|]; [|discriminate]. cbn [Py.bind] in H.
    destruct (Filter_filter_data filt values) as [filtered|]; [|discriminate].
    cbn [Py.bind] in H. destruct (IH _ _ H) as [Hu Hc]. split.
    + rewrite Hu. apply set_column_UTC.
    + intros other Hnot. rewrite Hc by (intros Hin; apply Hnot; now right).
      apply get_set_column_other. intros ->. apply Hnot. now left.
Qed.

(** X17: filtering reads the resampled stage, whatever input stage is
    named, and writes its output stage and nothing else: the stage it
    writes has the times of the resampled stage and, for every column
    that is not among the parameters, the column of the resampled stage;
    every other stage and the metadata are as they were. *)
Theorem filter_data_writes_only_its_output_stage
    (N : Z) (Tc_min : Tc_t) (btype data_set_in data_set_out : string)
    (params : list string) (self self' : GrapeData) :
  filter_data N Tc_min btype data_set_in data_set_out params self = (Ok tt, self') ->
  exists d st d' st',
    data self = Some d /\ dict_get d "resampled" = Ok st
    /\ data self' = Some d' /\ dict_get d' data_set_out = Ok st'
    /\ UTC (df st') = UTC (df st)
    /\ (forall other, ~ In other params ->
          get_column (df st') other = get_column (df st) other)
    /\ (forall k, k <> data_set_out -> dict_get d' k = dict_get d k)
    /\ meta self' = meta self.
Proof.
  unfold filter_data. intros H.
  match type of H with
  | (match ?body with _ => _ end) = _ => destruct body as [d'|e] eqn:E
  end; [|discriminate].
  inversion H; subst; clear H. cbn [data meta].
  destruct (data self) as [d|]; [|discriminate]. cbn [getattr Py.bind] in E.
  destruct (dict_get d "resampled") as [st|] eqn:Hst; [|discriminate].
  cbn [Py.bind] in E.
  destruct (match np_diff _ with [] => _ | _ => _ end) as [dt|]; [|discriminate].
  cbn [Py.bind] in E.
  destruct (if dt =? 0 then _ else _) as [fs|]; [|discriminate]. cbn [Py.bind] in E.
  destruct (snd _) as [filt|]; [|discriminate]. cbn [Py.bind] in E.
  destruct (filter_columns filt params (df st)) as [frame|] eqn:Hcols; [|discriminate].
  cbn [Py.bind] in E. inversion E; subst d'; clear E.
  destruct (filter_columns_keeps _ _ _ _ Hcols) as [Hu Hc].
  exists d, st. eexists. eexists.
  split; [reflexivity|]. split; [exact Hst|]. split; [reflexivity|].
  split; [apply dict_get_set_same|]. cbn [df].
  split; [exact Hu|]. split; [exact Hc|]. split; [|reflexivity].
  intros k Hk. apply dict_get_set_other. congruence.
Qed.

Lemma np_diff_short (l : list Z) : (List.length l < 2)%nat -> np_diff l = [].
Proof.
  destruct l as [|x [|y l]]; cbn [np_diff List.length]; intros H; try reflexivity. lia.
Qed.

(** X18: on a resampled stage of fewer than two rows filtering fails
    with an IndexError, there being no time step to take the sampling
    rate from, and the object is as it was. *)
Theorem filter_data_needs_two_rows
    (N : Z) (Tc_min : Tc_t) (btype data_set_in data_set_out : string)
    (params : list string) (self : GrapeData) (d : dict stage) (st : stage) :
  data self = Some d -> dict_get d "resampled" = Ok st ->
  (List.length (UTC (df st)) < 2)%nat ->
  filter_data N Tc_min btype data_set_in data_set_out params self
  = (Raise IndexError, self).
Proof.
  intros Hd Hst Hlen. unfold filter_data. rewrite Hd. cbn [getattr Py.bind].
  rewrite Hst. cbn [Py.bind]. rewrite (np_diff_short _ Hlen). reflexivity.
Qed.




(** X20: a dataset that is constructed holds the three stages raw,
    resampled and filtered, in this order, and its metadata; the
    resampled and the filtered stage have the same times, which are
    evenly spaced when the cadence is positive. *)
Theorem constructed_dataset_has_three_stages
    (fuel : nat) node freq sTime eTime data_path (rate order : Z) Tc_min btype
    lat lon call_sign inventory grape_nodes (self : GrapeData) :
  GrapeData_init fuel node freq sTime eTime data_path rate order Tc_min btype
    lat lon call_sign inventory grape_nodes = Some (Ok tt, self) ->
  exists raw resampled filtered m,
    data self = Some [("raw", raw); ("resampled", resampled); ("filtered", filtered)]
    /\ meta self = Some m
    /\ UTC (df filtered) = UTC (df resampled)
    /\ exists rs,
         resample_frame fuel rate (df raw) = Some (Ok rs)
         /\ UTC (df resampled) = UTC rs /\ Freq (df resampled) = Freq rs
         /\ Vpk (df resampled) = Vpk rs.
Proof.
  unfold GrapeData_init. intros H.
  destruct (load_raw _ _ _ _ _ _ _ _ _ _ _) as [[[]|] s1] eqn:Hload; [|inversion H].
  destruct (load_raw_ok _ _ _ _ _ _ _ _ _ _ _ _ Hload)
    as (inv & sel & dfs & cs & la & lo & _ & _ & _ & _ & _ & _ & _ & ->).
  unfold resample_data in H. cbn [data getattr Py.bind dict_get] in H.
  cbn [String.eqb Ascii.eqb Bool.eqb df] in H.
  destruct (resample_frame fuel rate _) as [[rs|]|] eqn:Hrs; [| |discriminate].
  2: { inversion H. }
  cbn [dict_set String.eqb Ascii.eqb Bool.eqb meta] in H.
  unfold assign_Power_dB in H. cbn [data getattr Py.bind dict_get] in H.
  cbn [String.eqb Ascii.eqb Bool.eqb] in H.
  cbn [dict_set String.eqb Ascii.eqb Bool.eqb df label meta] in H.
  inversion H as [Hfilt]; clear H.
  unfold filter_data in Hfilt.
  match type of Hfilt with
  | (match ?body with _ => _ end) = _ => destruct body as [d''|e] eqn:E
  end; [|discriminate].
  inversion Hfilt; subst self; clear Hfilt.
  cbn [data getattr Py.bind dict_get] in E.
  cbn [String.eqb Ascii.eqb Bool.eqb df Py.bind] in E.
  repeat step_ok E. inversion E; subst d''; clear E.
  cbn [dict_set String.eqb Ascii.eqb Bool.eqb data meta].
  eexists. eexists. eexists. eexists.
  split; [reflexivity|]. split; [reflexivity|]. cbn [df UTC Freq Vpk].
  match goal with
  | Hc : filter_columns _ _ _ = Ok _ |- _ =>
      destruct (filter_columns_keeps _ _ _ _ Hc) as [Hu _]
  end.
  split; [exact Hu|]. exists rs. repeat split; auto.
Qed.

End FilterMore.

Section ShortSeries.
Import grape1 stated.
Context {L : Lib}.
Local Open Scope list_scope.

Lemma steps_of_empty_span (s rate : Z) : 0 < rate -> steps s s rate = O.
Proof.
  intros Hr. unfold steps. replace (s - s + rate - 1) with (rate - 1) by lia.
  rewrite Z.div_small by lia. reflexivity.
Qed.

(** X21: a dataset whose raw times all fall within one second of the
    clock -- the truncated first and last time are the same -- is not
    constructed, whatever the cadence.  The grid is the one truncated
    time.  When that time is not covered by the series, being before
    its first time, or the series is too short for [interp1d], the
    constructor ends in the resampling step, with the ValueError of the
    interpolation and the object as loading left it; otherwise
    resampling leaves one row, and the constructor ends with the
    IndexError of the filter step, the resampled stage in place. *)
Theorem dataset_within_one_second_is_not_constructed
    (fuel : nat) node freq sTime eTime data_path (rate order : Z) Tc_min btype
    lat lon call_sign inventory grape_nodes (s1 : GrapeData)
    (d1 : dict stage) (raw : stage) :
  load_raw node freq sTime eTime data_path lat lon call_sign inventory grape_nodes
    new_object = (Ok tt, s1) ->
  data s1 = Some d1 -> dict_get d1 "raw" = Ok raw ->
  resample_start (df raw) = resample_end (df raw) ->
  exists e final,
    GrapeData_init fuel node freq sTime eTime data_path rate order Tc_min btype
      lat lon call_sign inventory grape_nodes = Some (Raise e, final)
    /\ ((resample_data fuel rate "raw" "resampled" s1 = Some (Raise e, s1)
         /\ final = s1
         /\ (e = ValueError \/ e = OtherError "OutOfBoundsDatetime"))
        \/ (e = IndexError
            /\ (exists s2, resample_data fuel rate "raw" "resampled" s1
                           = Some (Ok tt, s2))
            /\ exists d, data final = Some d /\ map fst d = ["raw"; "resampled"])).
Proof.
  intros Hload Hd1 Hraw Hspan.
  destruct (load_raw_ok _ _ _ _ _ _ _ _ _ _ _ _ Hload)
    as (inv & sel & dfs & cs & la & lo & _ & _ & Hfiles & Hne & _ & _ & _ & Hs1).
  assert (Hrows : sort_by (fun s1 s2 => s_UTC s1 <=? s_UTC s2) (List.concat dfs) <> []).
  { intros E. apply (f_equal (@List.length sample)) in E. rewrite sort_by_length in E.
    destruct (load_raw_files_spec _ _ _ _ Hfiles) as [Hall _].
    destruct dfs as [|d dfs]; [congruence|]. inversion Hall; subst.
    destruct d; [congruence|]. discriminate E. }
  unfold GrapeData_init. rewrite Hload. clear Hload. subst s1.
  cbn [data] in Hd1. injection Hd1 as <-.
  cbn [dict_get String.eqb Ascii.eqb Bool.eqb] in Hraw. injection Hraw as <-.
  cbn [df] in Hspan.
  set (frame := frame_of_samples _) in *.
  assert (Hu : UTC frame <> []).
  { unfold frame. cbn [frame_of_samples UTC]. intros E. apply map_eq_nil in E.
    contradiction. }
  assert (Hloop : rs_times_loop fuel [resample_start frame] (resample_start frame)
                    (resample_end frame) rate = Some (Ok [resample_start frame])).
  { rewrite <- Hspan. destruct fuel; cbn [rs_times_loop]; rewrite Z.ltb_irrefl;
      reflexivity. }
  unfold resample_data. cbn [data getattr Py.bind dict_get].
  cbn [String.eqb Ascii.eqb Bool.eqb df].
  destruct (resample_frame fuel rate frame) as [[rs|e]|] eqn:Hrs.
  - pose proof (resample_frame_ok _ _ _ _ Hrs) as Hok. cbv zeta in Hok.
    destruct Hok as (_ & Hg & _). rewrite Hloop in Hg. injection Hg as Hg.
    exists IndexError. eexists. split.
    + cbn [dict_set String.eqb Ascii.eqb Bool.eqb meta].
      unfold assign_Power_dB. cbn [data getattr Py.bind dict_get].
      cbn [String.eqb Ascii.eqb Bool.eqb].
      cbn [dict_set String.eqb Ascii.eqb Bool.eqb df label meta].
      unfold filter_data. cbn [data getattr Py.bind dict_get].
      cbn [String.eqb Ascii.eqb Bool.eqb df UTC Py.bind].
      rewrite <- Hg. cbn [np_diff Py.bind]. reflexivity.
    + right. split; [reflexivity|]. split; [eexists; reflexivity|].
      eexists. split; reflexivity.
  - exists e. eexists. split; [reflexivity|]. left.
    split; [reflexivity|]. split; [reflexivity|].
    exact (resample_frame_grid_kinds fuel rate frame _ e Hu Hloop Hrs).
  - exfalso. exact (resample_frame_grid_ends fuel rate frame _ Hloop Hrs).
Qed.

End ShortSeries.

(** ** gen_lib: get_iterable *)

Section GenLibRest.
Import gen_lib_rest.
Local Open Scope list_scope.



End GenLibRest.

(** ** grape1: the night shading *)

Section TerminatorFacts.
Import grape1 stated grape1_rest.
Local Open Scope list_scope.

Variable get_sunset_time : Q -> Q -> timestamp -> result timestamp.
Variable get_sunrise_time : Q -> Q -> timestamp -> result timestamp.






End TerminatorFacts.

(** ** grape1: the node table *)

Section NodesFacts.
Import grape1 grape1_rest.
Local Open Scope list_scope.

Lemma existsb_eqb_In (node : Z) (l : list Z) : existsb (Z.eqb node) l = true <-> In node l.
Proof.
  rewrite existsb_exists. split.
  - intros (x & Hx & E). apply Z.eqb_eq in E. now subst.
  - intros H. exists node. split; [exact H|apply Z.eqb_refl].
Qed.

(** X25: [update_status] leaves the rows of the table as they are and
    gives every row a status: Data logged when the node number of the
    row is among the logged nodes, No data logged when it is not. *)
Theorem update_status_marks_the_logged_nodes
    (self : NodesFrame) (logged_nodes : list Z) :
  rows (update_status self logged_nodes) = rows self
  /\ exists status,
       Status (update_status self logged_nodes) = Some status
       /\ List.length status = List.length (rows self)
       /\ forall i node row,
            nth_error (rows self) i = Some (node, row) ->
            (In node logged_nodes -> nth_error status i = Some "Data logged")
            /\ (~ In node logged_nodes -> nth_error status i = Some "No data logged").
Proof.
  split; [reflexivity|]. eexists. split; [reflexivity|]. split; [apply length_map|].
  intros i node row Hrow. rewrite nth_error_map, Hrow. cbn [option_map fst].
  unfold status_of. destruct (existsb (Z.eqb node) logged_nodes) eqn:E.
  - apply existsb_eqb_In in E. split; [reflexivity|contradiction].
  - split; [|reflexivity]. intros Hin. apply existsb_eqb_In in Hin. congruence.
Qed.

Variable read_nodelist : string -> result (list (Z * NodeRow)).

(** X26: a node table that is read without a list of logged nodes, or
    with an empty one, has no Status column, and its status table fails
    with a KeyError; read with a list that is not empty, its status
    table gives the rows of the logged nodes the pale green background
    and the other rows none.  Either way the rows are those of the
    file. *)
Theorem status_table_needs_logged_nodes
    (fpath : string) (logged_nodes : option (list Z)) (table : list (Z * NodeRow)) :
  read_nodelist fpath = Ok table ->
  exists self,
    GrapeNodes_init read_nodelist fpath logged_nodes = Ok self
    /\ rows self = table
    /\ match logged_nodes with
       | None | Some [] => Status self = None /\ status_table self = Raise KeyError
       | Some l =>
           exists styles,
             status_table self = Ok styles
             /\ forall i node row,
                  nth_error table i = Some (node, row) ->
                  (In node l ->
                   nth_error styles i = Some "background-color: palegreen")
                  /\ (~ In node l -> nth_error styles i = Some "")
       end.
Proof.
  intros Hread. unfold GrapeNodes_init. rewrite Hread. cbn [Py.bind].
  destruct logged_nodes as [[|n l]|].
  - eexists. split; [reflexivity|]. split; [reflexivity|]. split; reflexivity.
  - eexists. split; [reflexivity|]. split; [reflexivity|].
    eexists. split; [reflexivity|].
    intros i node row Hrow. cbn [rows].
    rewrite !nth_error_map, Hrow. cbn [option_map fst]. unfold status_of.
    destruct (existsb (Z.eqb node) (n :: l)) eqn:E.
    + apply existsb_eqb_In in E. split; [reflexivity|contradiction].
    + split; [|reflexivity]. intros Hin. apply existsb_eqb_In in Hin. congruence.
  - eexists. split; [reflexivity|]. split; [reflexivity|]. split; reflexivity.
Qed.

End NodesFacts.

(** ** The further properties on the demonstration inputs *)

Lemma resampled_times_are_evenly_spaced_witness :
  let s := stated.resample_start demo.frame_fractional in
  let e := stated.resample_end demo.frame_fractional in
  let n := stated.steps s e 1500000000 in
  grape1.UTC demo.resampled_fractional = stated.grid s 1500000000 (S n)
  /\ (forall k t t', nth_error (grape1.UTC demo.resampled_fractional) k = Some t ->
                     nth_error (grape1.UTC demo.resampled_fractional) (S k) = Some t' ->
                     t' - t = 1500000000)
  /\ (forall k t, nth_error (grape1.UTC demo.resampled_fractional) k = Some t ->
                  (k < n)%nat -> t < e)
  /\ nth_error (grape1.UTC demo.resampled_fractional) n
     = Some (s + Z.of_nat n * 1500000000)
  /\ e <= s + Z.of_nat n * 1500000000 < e + 1500000000.
Proof.
  apply (@resampled_times_are_evenly_spaced demo.L 5 1500000000 demo.frame_fractional
           demo.resampled_fractional).
  - reflexivity.
  - vm_compute; reflexivity.
Defined.

Lemma resampled_frame_is_well_formed_witness :
  stated.well_formed demo.resampled_fractional
  /\ (grape1.Power_dB demo.resampled_fractional = None
      <-> grape1.Power_dB demo.frame_fractional = None).
Proof.
  apply (@resampled_frame_is_well_formed demo.L 5 1500000000 demo.frame_fractional).
  vm_compute; reflexivity.
Defined.

Lemma resampling_ends_for_a_positive_cadence_witness :
  exists r, @grape1.resample_frame demo.L 5 demo.second demo.frame_repeats = Some r
            /\ @grape1.resample_frame demo.L 9 demo.second demo.frame_repeats = Some r.
Proof.
  apply (@resampling_ends_for_a_positive_cadence demo.L 5 9 demo.second
           demo.frame_repeats).
  - reflexivity.
  - vm_compute; lia.
  - vm_compute; lia.
Defined.

Lemma resampling_with_zero_cadence_does_not_end_witness :
  @grape1.resample_frame demo.L 1000 0 demo.frame_whole = None.
Proof.
  apply (@resampling_with_zero_cadence_does_not_end demo.L 1000 demo.frame_whole).
  vm_compute; reflexivity.
Defined.

Lemma resample_data_writes_only_its_output_stage_witness :
  exists d st rs d' st',
    grape1.data demo.loaded = Some d /\ grape1.dict_get d "raw" = Ok st
    /\ @grape1.resample_frame demo.L 5 demo.second (grape1.df st) = Some (Ok rs)
    /\ grape1.data demo.resampled = Some d' /\ grape1.dict_get d' "resampled" = Ok st'
    /\ grape1.df st' = rs
    /\ (forall k, k <> "resampled" -> grape1.dict_get d' k = grape1.dict_get d k)
    /\ grape1.meta demo.resampled = grape1.meta demo.loaded.
Proof.
  apply (@resample_data_writes_only_its_output_stage demo.L 5 demo.second
           "raw" "resampled" demo.loaded demo.resampled).
  vm_compute; reflexivity.
Defined.


Lemma resampled_values_stay_within_the_data_witness :
  (forall v, In v (grape1.Freq demo.resampled_fractional) ->
     exists lo hi, In lo (grape1.Freq demo.frame_fractional)
                   /\ In hi (grape1.Freq demo.frame_fractional) /\ (lo <= v <= hi)%Q)
  /\ (forall v, In v (grape1.Vpk demo.resampled_fractional) ->
        exists lo hi, In lo (grape1.Vpk demo.frame_fractional)
                      /\ In hi (grape1.Vpk demo.frame_fractional) /\ (lo <= v <= hi)%Q).
Proof.
  apply (@resampled_values_stay_within_the_data demo.L 5 1500000000
           demo.frame_fractional).
  vm_compute; reflexivity.
Defined.

Lemma filter_data_writes_only_its_output_stage_witness :
  exists d st d' st',
    grape1.data demo_rest.with_power = Some d /\ grape1.dict_get d "resampled" = Ok st
    /\ grape1.data demo_rest.filtered = Some d' /\ grape1.dict_get d' "filtered" = Ok st'
    /\ grape1.UTC (grape1.df st') = grape1.UTC (grape1.df st)
    /\ (forall other, ~ In other ["Freq"; "Vpk"; "Power_dB"] ->
          grape1.get_column (grape1.df st') other = grape1.get_column (grape1.df st) other)
    /\ (forall k, k <> "filtered" -> grape1.dict_get d' k = grape1.dict_get d k)
    /\ grape1.meta demo_rest.filtered = grape1.meta demo_rest.with_power.
Proof.
  apply (@filter_data_writes_only_its_output_stage demo.L 6 (grape1.TcScalar 3.3333)
           "low" "resampled" "filtered" ["Freq"; "Vpk"; "Power_dB"]
           demo_rest.with_power demo_rest.filtered).
  vm_compute; reflexivity.
Defined.

Lemma filter_data_needs_two_rows_witness :
  @grape1.filter_data demo.L 6 (grape1.TcScalar 3.3333) "low" "resampled" "filtered"
    ["Freq"; "Vpk"] demo_rest.one_row
  = (Raise IndexError, demo_rest.one_row).
Proof.
  eapply (@filter_data_needs_two_rows demo.L 6 (grape1.TcScalar 3.3333) "low"
            "resampled" "filtered" ["Freq"; "Vpk"] demo_rest.one_row).
  - reflexivity.
  - reflexivity.
  - cbn. lia.
Defined.


Lemma constructed_dataset_has_three_stages_witness :
  exists raw resampled filtered m,
    grape1.data demo_rest.filtered
    = Some [("raw", raw); ("resampled", resampled); ("filtered", filtered)]
    /\ grape1.meta demo_rest.filtered = Some m
    /\ grape1.UTC (grape1.df filtered) = grape1.UTC (grape1.df resampled)
    /\ exists rs,
         @grape1.resample_frame demo.L 5 demo.second (grape1.df raw) = Some (Ok rs)
         /\ grape1.UTC (grape1.df resampled) = grape1.UTC rs
         /\ grape1.Freq (grape1.df resampled) = grape1.Freq rs
         /\ grape1.Vpk (grape1.df resampled) = grape1.Vpk rs.
Proof.
  apply (@constructed_dataset_has_three_stages demo.L 5 13 10e6 None None "data"
           demo.second 6 (grape1.TcScalar 3.3333) "low" None None (Some "W2NAF")
           None None demo_rest.filtered).
  vm_compute; reflexivity.
Defined.

Lemma dataset_within_one_second_is_not_constructed_witness :
  exists e final,
    @grape1.GrapeData_init demo_rest.L_one_second 5 13 10e6 None
      (Some (demo.utc (demo.day1 + 1)))
      "data" demo.second 6 (grape1.TcScalar 3.3333) "low" None None None None None
    = Some (Raise e, final)
    /\ ((@grape1.resample_data demo_rest.L_one_second 5 demo.second "raw" "resampled"
           demo_rest.loaded_one_second
         = Some (Raise e, demo_rest.loaded_one_second)
         /\ final = demo_rest.loaded_one_second
         /\ (e = ValueError \/ e = OtherError "OutOfBoundsDatetime"))
        \/ (e = IndexError
            /\ (exists s2,
                  @grape1.resample_data demo_rest.L_one_second 5 demo.second "raw"
                    "resampled" demo_rest.loaded_one_second = Some (Ok tt, s2))
            /\ exists d, grape1.data final = Some d
                         /\ map fst d = ["raw"; "resampled"])).
Proof.
  eapply (@dataset_within_one_second_is_not_constructed demo_rest.L_one_second 5 13
            10e6 None (Some (demo.utc (demo.day1 + 1))) "data" demo.second 6
            (grape1.TcScalar 3.3333) "low" None None None None None
            demo_rest.loaded_one_second).
  - vm_compute; reflexivity.
  - reflexivity.
  - reflexivity.
  - vm_compute; reflexivity.
Defined.

(** The two ends of such a construction, run: two samples on the
    second itself end in the IndexError of the filter step, two samples
    half a second after it in the ValueError of the interpolation. *)
Lemma datasets_within_one_second_run :
  (exists final,
     @grape1.GrapeData_init demo_rest.L_one_second 5 13 10e6 None
       (Some (demo.utc (demo.day1 + 1)))
       "data" demo.second 6 (grape1.TcScalar 3.3333) "low" None None None None None
     = Some (Raise IndexError, final))
  /\ (exists final,
        @grape1.GrapeData_init demo_rest.L_half_second 5 13 10e6 None
          (Some (demo.utc (demo.day1 + 1)))
          "data" demo.second 6 (grape1.TcScalar 3.3333) "low" None None None None None
        = Some (Raise ValueError, final)).
Proof. split; eexists; vm_compute; reflexivity. Qed.


Lemma status_table_needs_logged_nodes_witness :
  exists self,
    grape1_rest.GrapeNodes_init demo_rest.read_nodelist "nodelist.csv" (Some [13])
    = Ok self
    /\ grape1_rest.rows self = grape1.nodes_df demo.registry
    /\ exists styles,
         grape1_rest.status_table self = Ok styles
         /\ forall i node row,
              nth_error (grape1.nodes_df demo.registry) i = Some (node, row) ->
              (In node [13] ->
               nth_error styles i = Some "background-color: palegreen")
              /\ (~ In node [13] -> nth_error styles i = Some "").
Proof.
  apply (status_table_needs_logged_nodes demo_rest.read_nodelist "nodelist.csv"
           (Some [13]) (grape1.nodes_df demo.registry)).
  reflexivity.
Defined.
